(** * auto_biz: the section generator / validator loop of [app.py]

    A shallow embedding of the four functions of [app.py] that carry the
    program's logic,

      - [get_section_from_llm]    (lines 6-21),
      - [validate_section]        (lines 23-28),
      - [create_feedback_prompt]  (lines 30-43),
      - [generate_business_plan]  (lines 45-84),

    and the properties of them that the specification states; then [main]
    (lines 86-128), with [str(business_plan)] for the download, and further
    properties of all five.

    Modelling choices.

    - Python [str] values are Rocq [string]s.  [str.lower] and [str.strip]
      are modelled on ASCII text: [lower] maps "A".."Z" to "a".."z" and leaves
      every other character alone, [strip] removes the ASCII characters for
      which [str.isspace] holds (9-13, 28-32) from both ends.
    - A Python [dict] is an association list in insertion order with unique
      keys; [dict_set] is [d[k] = v] (overwrite in place, or append).
    - The text-generation service is an arbitrary state machine
      [chat_completion]: from its state, the API key and the prompt it yields
      either the content of the first choice or a raised [Exception], and its
      next state.  Every behaviour of the service is an instance.  The
      assignment [openai.api_key = api_key] is the key reaching the call.
    - The Streamlit widgets only receive output, so their calls are recorded
      as [event]s, together with the exchanges with the service; a widget
      call does not raise.
    - Python exceptions are explicit: a computation yields [inl e] when it
      raises [e], and [try_except] is the [try: ... except Exception as e:]
      statement.  What the service raises is an instance of [Exception], as
      the errors of the [openai] package are; interpreter signals that only
      derive from [BaseException] are outside the model.
    - One run of [main] takes what [st.text_input] and [st.button] return
      and yields what the page received, as [app_event]s.  [repr] of a
      string is modelled on ASCII text, like [lower] and [strip]. *)

From Stdlib Require Import List String Ascii Arith NArith Bool Lia.
From Stdlib Require Import DecimalString.
Import ListNotations.
Local Open Scope string_scope.

(** ** Python strings *)

Module PyStr.

(** The newline character of the triple-quoted template. *)
Definition nl : string := String (ascii_of_nat 10) EmptyString.

(** *** Code points

    A [string] holds the UTF-8 bytes of a Python [str].  [head] reads the
    first code point and gives the bytes after it; a byte that starts no
    well-formed sequence is read alone, as [raw + byte], and written back
    as it was. *)

Definition byte (c : ascii) : N := N_of_ascii c.

Definition raw : N := 0x110000.

Definition continuation (c : ascii) : bool :=
  N.leb 0x80 (byte c) && N.ltb (byte c) 0xC0.

Definition head (s : string) : option (N * string) :=
  match s with
  | EmptyString => None
  | String c0 s1 =>
      let b0 := byte c0 in
      if N.ltb b0 0x80 then Some (b0, s1)
      else
        match s1 with
        | String c1 s2 =>
            if N.leb 0xC2 b0 && N.ltb b0 0xE0 && continuation c1 then
              Some ((b0 - 0xC0) * 64 + (byte c1 - 0x80), s2)%N
            else
              match s2 with
              | String c2 s3 =>
                  if N.leb 0xE0 b0 && N.ltb b0 0xF0
                     && continuation c1 && continuation c2 then
                    Some ((b0 - 0xE0) * 4096 + (byte c1 - 0x80) * 64
                          + (byte c2 - 0x80), s3)%N
                  else
                    match s3 with
                    | String c3 s4 =>
                        if N.leb 0xF0 b0 && N.ltb b0 0xF5
                           && continuation c1 && continuation c2
                           && continuation c3 then
                          Some ((b0 - 0xF0) * 262144
                                + (byte c1 - 0x80) * 4096
                                + (byte c2 - 0x80) * 64
                                + (byte c3 - 0x80), s4)%N
                        else Some ((raw + b0)%N, s1)
                    | EmptyString => Some ((raw + b0)%N, s1)
                    end
              | EmptyString => Some ((raw + b0)%N, s1)
              end
        | EmptyString => Some ((raw + b0)%N, s1)
        end
  end.

(** The code points of a string; [fuel] bounds their number. *)
Fixpoint decode_from (fuel : nat) (s : string) : list N :=
  match fuel with
  | O => []
  | S fuel' =>
      match head s with
      | None => []
      | Some (c, rest) => c :: decode_from fuel' rest
      end
  end.

Definition decode (s : string) : list N := decode_from (String.length s) s.

(** The UTF-8 bytes of one code point. *)
Definition encode_cp (c : N) : string :=
  if N.ltb c 0x80 then String (ascii_of_N c) EmptyString
  else if N.ltb c 0x800 then
    String (ascii_of_N (0xC0 + c / 64))
      (String (ascii_of_N (0x80 + c mod 64)) EmptyString)
  else if N.ltb c 0x10000 then
    String (ascii_of_N (0xE0 + c / 4096))
      (String (ascii_of_N (0x80 + (c / 64) mod 64))
         (String (ascii_of_N (0x80 + c mod 64)) EmptyString))
  else if N.ltb c raw then
    String (ascii_of_N (0xF0 + c / 262144))
      (String (ascii_of_N (0x80 + (c / 4096) mod 64))
         (String (ascii_of_N (0x80 + (c / 64) mod 64))
            (String (ascii_of_N (0x80 + c mod 64)) EmptyString)))
  else String (ascii_of_N (c - raw)) EmptyString.

Fixpoint encode (l : list N) : string :=
  match l with
  | [] => EmptyString
  | c :: l' => encode_cp c ++ encode l'
  end.

(** [lo <= c <= hi] for one of the ranges of a table. *)
Definition in_ranges (table : list (N * N)) (c : N) : bool :=
  existsb (fun r => N.leb (fst r) c && N.leb c (snd r)) table.

(** *** The character tables of Python 3.11 (Unicode 14.0.0)

    [lower_table]: the code points above U+007F that [str.lower] changes
    into one other code point.  An entry [(lo, hi, step, target)] sends
    [lo], [lo + step], ... up to [hi] to [target], [target + step], ...
    [cased_table], [case_ignorable_table]: the properties Cased and
    Case_Ignorable.  [not_printable_table]: the code points above U+007F
    that [str.isprintable] refuses.  [space_table]: the code points that
    [str.isspace] accepts. *)

Definition lower_table : list (N * N * N * N) :=
  [
   (0xC0, 0xD6, 1, 0xE0); (0xD8, 0xDE, 1, 0xF8); (0x100, 0x12E, 2, 0x101);
   (0x132, 0x136, 2, 0x133); (0x139, 0x147, 2, 0x13A); (0x14A, 0x176, 2, 0x14B);
   (0x178, 0x178, 1, 0xFF); (0x179, 0x17D, 2, 0x17A); (0x181, 0x181, 1, 0x253);
   (0x182, 0x184, 2, 0x183); (0x186, 0x186, 1, 0x254); (0x187, 0x187, 1, 0x188);
   (0x189, 0x18A, 1, 0x256); (0x18B, 0x18B, 1, 0x18C); (0x18E, 0x18E, 1, 0x1DD);
   (0x18F, 0x18F, 1, 0x259); (0x190, 0x190, 1, 0x25B); (0x191, 0x191, 1, 0x192);
   (0x193, 0x193, 1, 0x260); (0x194, 0x194, 1, 0x263); (0x196, 0x196, 1, 0x269);
   (0x197, 0x197, 1, 0x268); (0x198, 0x198, 1, 0x199); (0x19C, 0x19C, 1, 0x26F);
   (0x19D, 0x19D, 1, 0x272); (0x19F, 0x19F, 1, 0x275); (0x1A0, 0x1A4, 2, 0x1A1);
   (0x1A6, 0x1A6, 1, 0x280); (0x1A7, 0x1A7, 1, 0x1A8); (0x1A9, 0x1A9, 1, 0x283);
   (0x1AC, 0x1AC, 1, 0x1AD); (0x1AE, 0x1AE, 1, 0x288); (0x1AF, 0x1AF, 1, 0x1B0);
   (0x1B1, 0x1B2, 1, 0x28A); (0x1B3, 0x1B5, 2, 0x1B4); (0x1B7, 0x1B7, 1, 0x292);
   (0x1B8, 0x1B8, 1, 0x1B9); (0x1BC, 0x1BC, 1, 0x1BD); (0x1C4, 0x1C4, 1, 0x1C6);
   (0x1C5, 0x1C5, 1, 0x1C6); (0x1C7, 0x1C7, 1, 0x1C9); (0x1C8, 0x1C8, 1, 0x1C9);
   (0x1CA, 0x1CA, 1, 0x1CC); (0x1CB, 0x1DB, 2, 0x1CC); (0x1DE, 0x1EE, 2, 0x1DF);
   (0x1F1, 0x1F1, 1, 0x1F3); (0x1F2, 0x1F4, 2, 0x1F3); (0x1F6, 0x1F6, 1, 0x195);
   (0x1F7, 0x1F7, 1, 0x1BF); (0x1F8, 0x21E, 2, 0x1F9); (0x220, 0x220, 1, 0x19E);
   (0x222, 0x232, 2, 0x223); (0x23A, 0x23A, 1, 0x2C65); (0x23B, 0x23B, 1, 0x23C);
   (0x23D, 0x23D, 1, 0x19A); (0x23E, 0x23E, 1, 0x2C66); (0x241, 0x241, 1, 0x242);
   (0x243, 0x243, 1, 0x180); (0x244, 0x244, 1, 0x289); (0x245, 0x245, 1, 0x28C);
   (0x246, 0x24E, 2, 0x247); (0x370, 0x372, 2, 0x371); (0x376, 0x376, 1, 0x377);
   (0x37F, 0x37F, 1, 0x3F3); (0x386, 0x386, 1, 0x3AC); (0x388, 0x38A, 1, 0x3AD);
   (0x38C, 0x38C, 1, 0x3CC); (0x38E, 0x38F, 1, 0x3CD); (0x391, 0x3A1, 1, 0x3B1);
   (0x3A3, 0x3AB, 1, 0x3C3); (0x3CF, 0x3CF, 1, 0x3D7); (0x3D8, 0x3EE, 2, 0x3D9);
   (0x3F4, 0x3F4, 1, 0x3B8); (0x3F7, 0x3F7, 1, 0x3F8); (0x3F9, 0x3F9, 1, 0x3F2);
   (0x3FA, 0x3FA, 1, 0x3FB); (0x3FD, 0x3FF, 1, 0x37B); (0x400, 0x40F, 1, 0x450);
   (0x410, 0x42F, 1, 0x430); (0x460, 0x480, 2, 0x461); (0x48A, 0x4BE, 2, 0x48B);
   (0x4C0, 0x4C0, 1, 0x4CF); (0x4C1, 0x4CD, 2, 0x4C2); (0x4D0, 0x52E, 2, 0x4D1);
   (0x531, 0x556, 1, 0x561); (0x10A0, 0x10C5, 1, 0x2D00); (0x10C7, 0x10C7, 1, 0x2D27);
   (0x10CD, 0x10CD, 1, 0x2D2D); (0x13A0, 0x13EF, 1, 0xAB70); (0x13F0, 0x13F5, 1, 0x13F8);
   (0x1C90, 0x1CBA, 1, 0x10D0); (0x1CBD, 0x1CBF, 1, 0x10FD); (0x1E00, 0x1E94, 2, 0x1E01);
   (0x1E9E, 0x1E9E, 1, 0xDF); (0x1EA0, 0x1EFE, 2, 0x1EA1); (0x1F08, 0x1F0F, 1, 0x1F00);
   (0x1F18, 0x1F1D, 1, 0x1F10); (0x1F28, 0x1F2F, 1, 0x1F20); (0x1F38, 0x1F3F, 1, 0x1F30);
   (0x1F48, 0x1F4D, 1, 0x1F40); (0x1F59, 0x1F5F, 2, 0x1F51); (0x1F68, 0x1F6F, 1, 0x1F60);
   (0x1F88, 0x1F8F, 1, 0x1F80); (0x1F98, 0x1F9F, 1, 0x1F90); (0x1FA8, 0x1FAF, 1, 0x1FA0);
   (0x1FB8, 0x1FB9, 1, 0x1FB0); (0x1FBA, 0x1FBB, 1, 0x1F70); (0x1FBC, 0x1FBC, 1, 0x1FB3);
   (0x1FC8, 0x1FCB, 1, 0x1F72); (0x1FCC, 0x1FCC, 1, 0x1FC3); (0x1FD8, 0x1FD9, 1, 0x1FD0);
   (0x1FDA, 0x1FDB, 1, 0x1F76); (0x1FE8, 0x1FE9, 1, 0x1FE0); (0x1FEA, 0x1FEB, 1, 0x1F7A);
   (0x1FEC, 0x1FEC, 1, 0x1FE5); (0x1FF8, 0x1FF9, 1, 0x1F78); (0x1FFA, 0x1FFB, 1, 0x1F7C);
   (0x1FFC, 0x1FFC, 1, 0x1FF3); (0x2126, 0x2126, 1, 0x3C9); (0x212A, 0x212A, 1, 0x6B);
   (0x212B, 0x212B, 1, 0xE5); (0x2132, 0x2132, 1, 0x214E); (0x2160, 0x216F, 1, 0x2170);
   (0x2183, 0x2183, 1, 0x2184); (0x24B6, 0x24CF, 1, 0x24D0); (0x2C00, 0x2C2F, 1, 0x2C30);
   (0x2C60, 0x2C60, 1, 0x2C61); (0x2C62, 0x2C62, 1, 0x26B); (0x2C63, 0x2C63, 1, 0x1D7D);
   (0x2C64, 0x2C64, 1, 0x27D); (0x2C67, 0x2C6B, 2, 0x2C68); (0x2C6D, 0x2C6D, 1, 0x251);
   (0x2C6E, 0x2C6E, 1, 0x271); (0x2C6F, 0x2C6F, 1, 0x250); (0x2C70, 0x2C70, 1, 0x252);
   (0x2C72, 0x2C72, 1, 0x2C73); (0x2C75, 0x2C75, 1, 0x2C76); (0x2C7E, 0x2C7F, 1, 0x23F);
   (0x2C80, 0x2CE2, 2, 0x2C81); (0x2CEB, 0x2CED, 2, 0x2CEC); (0x2CF2, 0x2CF2, 1, 0x2CF3);
   (0xA640, 0xA66C, 2, 0xA641); (0xA680, 0xA69A, 2, 0xA681); (0xA722, 0xA72E, 2, 0xA723);
   (0xA732, 0xA76E, 2, 0xA733); (0xA779, 0xA77B, 2, 0xA77A); (0xA77D, 0xA77D, 1, 0x1D79);
   (0xA77E, 0xA786, 2, 0xA77F); (0xA78B, 0xA78B, 1, 0xA78C); (0xA78D, 0xA78D, 1, 0x265);
   (0xA790, 0xA792, 2, 0xA791); (0xA796, 0xA7A8, 2, 0xA797); (0xA7AA, 0xA7AA, 1, 0x266);
   (0xA7AB, 0xA7AB, 1, 0x25C); (0xA7AC, 0xA7AC, 1, 0x261); (0xA7AD, 0xA7AD, 1, 0x26C);
   (0xA7AE, 0xA7AE, 1, 0x26A); (0xA7B0, 0xA7B0, 1, 0x29E); (0xA7B1, 0xA7B1, 1, 0x287);
   (0xA7B2, 0xA7B2, 1, 0x29D); (0xA7B3, 0xA7B3, 1, 0xAB53); (0xA7B4, 0xA7C2, 2, 0xA7B5);
   (0xA7C4, 0xA7C4, 1, 0xA794); (0xA7C5, 0xA7C5, 1, 0x282); (0xA7C6, 0xA7C6, 1, 0x1D8E);
   (0xA7C7, 0xA7C9, 2, 0xA7C8); (0xA7D0, 0xA7D0, 1, 0xA7D1); (0xA7D6, 0xA7D8, 2, 0xA7D7);
   (0xA7F5, 0xA7F5, 1, 0xA7F6); (0xFF21, 0xFF3A, 1, 0xFF41); (0x10400, 0x10427, 1, 0x10428);
   (0x104B0, 0x104D3, 1, 0x104D8); (0x10570, 0x1057A, 1, 0x10597); (0x1057C, 0x1058A, 1, 0x105A3);
   (0x1058C, 0x10592, 1, 0x105B3); (0x10594, 0x10595, 1, 0x105BB); (0x10C80, 0x10CB2, 1, 0x10CC0);
   (0x118A0, 0x118BF, 1, 0x118C0); (0x16E40, 0x16E5F, 1, 0x16E60); (0x1E900, 0x1E921, 1, 0x1E922) ]%N.

Definition cased_table : list (N * N) :=
  [
   (0x41, 0x5A); (0x61, 0x7A); (0xAA, 0xAA); (0xB5, 0xB5);
   (0xBA, 0xBA); (0xC0, 0xD6); (0xD8, 0xF6); (0xF8, 0x1BA);
   (0x1BC, 0x1BF); (0x1C4, 0x293); (0x295, 0x2B8); (0x2C0, 0x2C1);
   (0x2E0, 0x2E4); (0x345, 0x345); (0x370, 0x373); (0x376, 0x377);
   (0x37A, 0x37D); (0x37F, 0x37F); (0x386, 0x386); (0x388, 0x38A);
   (0x38C, 0x38C); (0x38E, 0x3A1); (0x3A3, 0x3F5); (0x3F7, 0x481);
   (0x48A, 0x52F); (0x531, 0x556); (0x560, 0x588); (0x10A0, 0x10C5);
   (0x10C7, 0x10C7); (0x10CD, 0x10CD); (0x10D0, 0x10FA); (0x10FD, 0x10FF);
   (0x13A0, 0x13F5); (0x13F8, 0x13FD); (0x1C80, 0x1C88); (0x1C90, 0x1CBA);
   (0x1CBD, 0x1CBF); (0x1D00, 0x1DBF); (0x1E00, 0x1F15); (0x1F18, 0x1F1D);
   (0x1F20, 0x1F45); (0x1F48, 0x1F4D); (0x1F50, 0x1F57); (0x1F59, 0x1F59);
   (0x1F5B, 0x1F5B); (0x1F5D, 0x1F5D); (0x1F5F, 0x1F7D); (0x1F80, 0x1FB4);
   (0x1FB6, 0x1FBC); (0x1FBE, 0x1FBE); (0x1FC2, 0x1FC4); (0x1FC6, 0x1FCC);
   (0x1FD0, 0x1FD3); (0x1FD6, 0x1FDB); (0x1FE0, 0x1FEC); (0x1FF2, 0x1FF4);
   (0x1FF6, 0x1FFC); (0x2071, 0x2071); (0x207F, 0x207F); (0x2090, 0x209C);
   (0x2102, 0x2102); (0x2107, 0x2107); (0x210A, 0x2113); (0x2115, 0x2115);
   (0x2119, 0x211D); (0x2124, 0x2124); (0x2126, 0x2126); (0x2128, 0x2128);
   (0x212A, 0x212D); (0x212F, 0x2134); (0x2139, 0x2139); (0x213C, 0x213F);
   (0x2145, 0x2149); (0x214E, 0x214E); (0x2160, 0x217F); (0x2183, 0x2184);
   (0x24B6, 0x24E9); (0x2C00, 0x2CE4); (0x2CEB, 0x2CEE); (0x2CF2, 0x2CF3);
   (0x2D00, 0x2D25); (0x2D27, 0x2D27); (0x2D2D, 0x2D2D); (0xA640, 0xA66D);
   (0xA680, 0xA69D); (0xA722, 0xA787); (0xA78B, 0xA78E); (0xA790, 0xA7CA);
   (0xA7D0, 0xA7D1); (0xA7D3, 0xA7D3); (0xA7D5, 0xA7D9); (0xA7F5, 0xA7F6);
   (0xA7F8, 0xA7FA); (0xAB30, 0xAB5A); (0xAB5C, 0xAB68); (0xAB70, 0xABBF);
   (0xFB00, 0xFB06); (0xFB13, 0xFB17); (0xFF21, 0xFF3A); (0xFF41, 0xFF5A);
   (0x10400, 0x1044F); (0x104B0, 0x104D3); (0x104D8, 0x104FB); (0x10570, 0x1057A);
   (0x1057C, 0x1058A); (0x1058C, 0x10592); (0x10594, 0x10595); (0x10597, 0x105A1);
   (0x105A3, 0x105B1); (0x105B3, 0x105B9); (0x105BB, 0x105BC); (0x10780, 0x10780);
   (0x10783, 0x10785); (0x10787, 0x107B0); (0x107B2, 0x107BA); (0x10C80, 0x10CB2);
   (0x10CC0, 0x10CF2); (0x118A0, 0x118DF); (0x16E40, 0x16E7F); (0x1D400, 0x1D454);
   (0x1D456, 0x1D49C); (0x1D49E, 0x1D49F); (0x1D4A2, 0x1D4A2); (0x1D4A5, 0x1D4A6);
   (0x1D4A9, 0x1D4AC); (0x1D4AE, 0x1D4B9); (0x1D4BB, 0x1D4BB); (0x1D4BD, 0x1D4C3);
   (0x1D4C5, 0x1D505); (0x1D507, 0x1D50A); (0x1D50D, 0x1D514); (0x1D516, 0x1D51C);
   (0x1D51E, 0x1D539); (0x1D53B, 0x1D53E); (0x1D540, 0x1D544); (0x1D546, 0x1D546);
   (0x1D54A, 0x1D550); (0x1D552, 0x1D6A5); (0x1D6A8, 0x1D6C0); (0x1D6C2, 0x1D6DA);
   (0x1D6DC, 0x1D6FA); (0x1D6FC, 0x1D714); (0x1D716, 0x1D734); (0x1D736, 0x1D74E);
   (0x1D750, 0x1D76E); (0x1D770, 0x1D788); (0x1D78A, 0x1D7A8); (0x1D7AA, 0x1D7C2);
   (0x1D7C4, 0x1D7CB); (0x1DF00, 0x1DF09); (0x1DF0B, 0x1DF1E); (0x1E900, 0x1E943);
   (0x1F130, 0x1F149); (0x1F150, 0x1F169); (0x1F170, 0x1F189) ]%N.

Definition case_ignorable_table : list (N * N) :=
  [
   (0x27, 0x27); (0x2E, 0x2E); (0x3A, 0x3A); (0x5E, 0x5E);
   (0x60, 0x60); (0xA8, 0xA8); (0xAD, 0xAD); (0xAF, 0xAF);
   (0xB4, 0xB4); (0xB7, 0xB8); (0x2B0, 0x36F); (0x374, 0x375);
   (0x37A, 0x37A); (0x384, 0x385); (0x387, 0x387); (0x483, 0x489);
   (0x559, 0x559); (0x55F, 0x55F); (0x591, 0x5BD); (0x5BF, 0x5BF);
   (0x5C1, 0x5C2); (0x5C4, 0x5C5); (0x5C7, 0x5C7); (0x5F4, 0x5F4);
   (0x600, 0x605); (0x610, 0x61A); (0x61C, 0x61C); (0x640, 0x640);
   (0x64B, 0x65F); (0x670, 0x670); (0x6D6, 0x6DD); (0x6DF, 0x6E8);
   (0x6EA, 0x6ED); (0x70F, 0x70F); (0x711, 0x711); (0x730, 0x74A);
   (0x7A6, 0x7B0); (0x7EB, 0x7F5); (0x7FA, 0x7FA); (0x7FD, 0x7FD);
   (0x816, 0x82D); (0x859, 0x85B); (0x888, 0x888); (0x890, 0x891);
   (0x898, 0x89F); (0x8C9, 0x902); (0x93A, 0x93A); (0x93C, 0x93C);
   (0x941, 0x948); (0x94D, 0x94D); (0x951, 0x957); (0x962, 0x963);
   (0x971, 0x971); (0x981, 0x981); (0x9BC, 0x9BC); (0x9C1, 0x9C4);
   (0x9CD, 0x9CD); (0x9E2, 0x9E3); (0x9FE, 0x9FE); (0xA01, 0xA02);
   (0xA3C, 0xA3C); (0xA41, 0xA42); (0xA47, 0xA48); (0xA4B, 0xA4D);
   (0xA51, 0xA51); (0xA70, 0xA71); (0xA75, 0xA75); (0xA81, 0xA82);
   (0xABC, 0xABC); (0xAC1, 0xAC5); (0xAC7, 0xAC8); (0xACD, 0xACD);
   (0xAE2, 0xAE3); (0xAFA, 0xAFF); (0xB01, 0xB01); (0xB3C, 0xB3C);
   (0xB3F, 0xB3F); (0xB41, 0xB44); (0xB4D, 0xB4D); (0xB55, 0xB56);
   (0xB62, 0xB63); (0xB82, 0xB82); (0xBC0, 0xBC0); (0xBCD, 0xBCD);
   (0xC00, 0xC00); (0xC04, 0xC04); (0xC3C, 0xC3C); (0xC3E, 0xC40);
   (0xC46, 0xC48); (0xC4A, 0xC4D); (0xC55, 0xC56); (0xC62, 0xC63);
   (0xC81, 0xC81); (0xCBC, 0xCBC); (0xCBF, 0xCBF); (0xCC6, 0xCC6);
   (0xCCC, 0xCCD); (0xCE2, 0xCE3); (0xD00, 0xD01); (0xD3B, 0xD3C);
   (0xD41, 0xD44); (0xD4D, 0xD4D); (0xD62, 0xD63); (0xD81, 0xD81);
   (0xDCA, 0xDCA); (0xDD2, 0xDD4); (0xDD6, 0xDD6); (0xE31, 0xE31);
   (0xE34, 0xE3A); (0xE46, 0xE4E); (0xEB1, 0xEB1); (0xEB4, 0xEBC);
   (0xEC6, 0xEC6); (0xEC8, 0xECD); (0xF18, 0xF19); (0xF35, 0xF35);
   (0xF37, 0xF37); (0xF39, 0xF39); (0xF71, 0xF7E); (0xF80, 0xF84);
   (0xF86, 0xF87); (0xF8D, 0xF97); (0xF99, 0xFBC); (0xFC6, 0xFC6);
   (0x102D, 0x1030); (0x1032, 0x1037); (0x1039, 0x103A); (0x103D, 0x103E);
   (0x1058, 0x1059); (0x105E, 0x1060); (0x1071, 0x1074); (0x1082, 0x1082);
   (0x1085, 0x1086); (0x108D, 0x108D); (0x109D, 0x109D); (0x10FC, 0x10FC);
   (0x135D, 0x135F); (0x1712, 0x1714); (0x1732, 0x1733); (0x1752, 0x1753);
   (0x1772, 0x1773); (0x17B4, 0x17B5); (0x17B7, 0x17BD); (0x17C6, 0x17C6);
   (0x17C9, 0x17D3); (0x17D7, 0x17D7); (0x17DD, 0x17DD); (0x180B, 0x180F);
   (0x1843, 0x1843); (0x1885, 0x1886); (0x18A9, 0x18A9); (0x1920, 0x1922);
   (0x1927, 0x1928); (0x1932, 0x1932); (0x1939, 0x193B); (0x1A17, 0x1A18);
   (0x1A1B, 0x1A1B); (0x1A56, 0x1A56); (0x1A58, 0x1A5E); (0x1A60, 0x1A60);
   (0x1A62, 0x1A62); (0x1A65, 0x1A6C); (0x1A73, 0x1A7C); (0x1A7F, 0x1A7F);
   (0x1AA7, 0x1AA7); (0x1AB0, 0x1ACE); (0x1B00, 0x1B03); (0x1B34, 0x1B34);
   (0x1B36, 0x1B3A); (0x1B3C, 0x1B3C); (0x1B42, 0x1B42); (0x1B6B, 0x1B73);
   (0x1B80, 0x1B81); (0x1BA2, 0x1BA5); (0x1BA8, 0x1BA9); (0x1BAB, 0x1BAD);
   (0x1BE6, 0x1BE6); (0x1BE8, 0x1BE9); (0x1BED, 0x1BED); (0x1BEF, 0x1BF1);
   (0x1C2C, 0x1C33); (0x1C36, 0x1C37); (0x1C78, 0x1C7D); (0x1CD0, 0x1CD2);
   (0x1CD4, 0x1CE0); (0x1CE2, 0x1CE8); (0x1CED, 0x1CED); (0x1CF4, 0x1CF4);
   (0x1CF8, 0x1CF9); (0x1D2C, 0x1D6A); (0x1D78, 0x1D78); (0x1D9B, 0x1DFF);
   (0x1FBD, 0x1FBD); (0x1FBF, 0x1FC1); (0x1FCD, 0x1FCF); (0x1FDD, 0x1FDF);
   (0x1FED, 0x1FEF); (0x1FFD, 0x1FFE); (0x200B, 0x200F); (0x2018, 0x2019);
   (0x2024, 0x2024); (0x2027, 0x2027); (0x202A, 0x202E); (0x2060, 0x2064);
   (0x2066, 0x206F); (0x2071, 0x2071); (0x207F, 0x207F); (0x2090, 0x209C);
   (0x20D0, 0x20F0); (0x2C7C, 0x2C7D); (0x2CEF, 0x2CF1); (0x2D6F, 0x2D6F);
   (0x2D7F, 0x2D7F); (0x2DE0, 0x2DFF); (0x2E2F, 0x2E2F); (0x3005, 0x3005);
   (0x302A, 0x302D); (0x3031, 0x3035); (0x303B, 0x303B); (0x3099, 0x309E);
   (0x30FC, 0x30FE); (0xA015, 0xA015); (0xA4F8, 0xA4FD); (0xA60C, 0xA60C);
   (0xA66F, 0xA672); (0xA674, 0xA67D); (0xA67F, 0xA67F); (0xA69C, 0xA69F);
   (0xA6F0, 0xA6F1); (0xA700, 0xA721); (0xA770, 0xA770); (0xA788, 0xA78A);
   (0xA7F2, 0xA7F4); (0xA7F8, 0xA7F9); (0xA802, 0xA802); (0xA806, 0xA806);
   (0xA80B, 0xA80B); (0xA825, 0xA826); (0xA82C, 0xA82C); (0xA8C4, 0xA8C5);
   (0xA8E0, 0xA8F1); (0xA8FF, 0xA8FF); (0xA926, 0xA92D); (0xA947, 0xA951);
   (0xA980, 0xA982); (0xA9B3, 0xA9B3); (0xA9B6, 0xA9B9); (0xA9BC, 0xA9BD);
   (0xA9CF, 0xA9CF); (0xA9E5, 0xA9E6); (0xAA29, 0xAA2E); (0xAA31, 0xAA32);
   (0xAA35, 0xAA36); (0xAA43, 0xAA43); (0xAA4C, 0xAA4C); (0xAA70, 0xAA70);
   (0xAA7C, 0xAA7C); (0xAAB0, 0xAAB0); (0xAAB2, 0xAAB4); (0xAAB7, 0xAAB8);
   (0xAABE, 0xAABF); (0xAAC1, 0xAAC1); (0xAADD, 0xAADD); (0xAAEC, 0xAAED);
   (0xAAF3, 0xAAF4); (0xAAF6, 0xAAF6); (0xAB5B, 0xAB5F); (0xAB69, 0xAB6B);
   (0xABE5, 0xABE5); (0xABE8, 0xABE8); (0xABED, 0xABED); (0xFB1E, 0xFB1E);
   (0xFBB2, 0xFBC2); (0xFE00, 0xFE0F); (0xFE13, 0xFE13); (0xFE20, 0xFE2F);
   (0xFE52, 0xFE52); (0xFE55, 0xFE55); (0xFEFF, 0xFEFF); (0xFF07, 0xFF07);
   (0xFF0E, 0xFF0E); (0xFF1A, 0xFF1A); (0xFF3E, 0xFF3E); (0xFF40, 0xFF40);
   (0xFF70, 0xFF70); (0xFF9E, 0xFF9F); (0xFFE3, 0xFFE3); (0xFFF9, 0xFFFB);
   (0x101FD, 0x101FD); (0x102E0, 0x102E0); (0x10376, 0x1037A); (0x10780, 0x10785);
   (0x10787, 0x107B0); (0x107B2, 0x107BA); (0x10A01, 0x10A03); (0x10A05, 0x10A06);
   (0x10A0C, 0x10A0F); (0x10A38, 0x10A3A); (0x10A3F, 0x10A3F); (0x10AE5, 0x10AE6);
   (0x10D24, 0x10D27); (0x10EAB, 0x10EAC); (0x10F46, 0x10F50); (0x10F82, 0x10F85);
   (0x11001, 0x11001); (0x11038, 0x11046); (0x11070, 0x11070); (0x11073, 0x11074);
   (0x1107F, 0x11081); (0x110B3, 0x110B6); (0x110B9, 0x110BA); (0x110BD, 0x110BD);
   (0x110C2, 0x110C2); (0x110CD, 0x110CD); (0x11100, 0x11102); (0x11127, 0x1112B);
   (0x1112D, 0x11134); (0x11173, 0x11173); (0x11180, 0x11181); (0x111B6, 0x111BE);
   (0x111C9, 0x111CC); (0x111CF, 0x111CF); (0x1122F, 0x11231); (0x11234, 0x11234);
   (0x11236, 0x11237); (0x1123E, 0x1123E); (0x112DF, 0x112DF); (0x112E3, 0x112EA);
   (0x11300, 0x11301); (0x1133B, 0x1133C); (0x11340, 0x11340); (0x11366, 0x1136C);
   (0x11370, 0x11374); (0x11438, 0x1143F); (0x11442, 0x11444); (0x11446, 0x11446);
   (0x1145E, 0x1145E); (0x114B3, 0x114B8); (0x114BA, 0x114BA); (0x114BF, 0x114C0);
   (0x114C2, 0x114C3); (0x115B2, 0x115B5); (0x115BC, 0x115BD); (0x115BF, 0x115C0);
   (0x115DC, 0x115DD); (0x11633, 0x1163A); (0x1163D, 0x1163D); (0x1163F, 0x11640);
   (0x116AB, 0x116AB); (0x116AD, 0x116AD); (0x116B0, 0x116B5); (0x116B7, 0x116B7);
   (0x1171D, 0x1171F); (0x11722, 0x11725); (0x11727, 0x1172B); (0x1182F, 0x11837);
   (0x11839, 0x1183A); (0x1193B, 0x1193C); (0x1193E, 0x1193E); (0x11943, 0x11943);
   (0x119D4, 0x119D7); (0x119DA, 0x119DB); (0x119E0, 0x119E0); (0x11A01, 0x11A0A);
   (0x11A33, 0x11A38); (0x11A3B, 0x11A3E); (0x11A47, 0x11A47); (0x11A51, 0x11A56);
   (0x11A59, 0x11A5B); (0x11A8A, 0x11A96); (0x11A98, 0x11A99); (0x11C30, 0x11C36);
   (0x11C38, 0x11C3D); (0x11C3F, 0x11C3F); (0x11C92, 0x11CA7); (0x11CAA, 0x11CB0);
   (0x11CB2, 0x11CB3); (0x11CB5, 0x11CB6); (0x11D31, 0x11D36); (0x11D3A, 0x11D3A);
   (0x11D3C, 0x11D3D); (0x11D3F, 0x11D45); (0x11D47, 0x11D47); (0x11D90, 0x11D91);
   (0x11D95, 0x11D95); (0x11D97, 0x11D97); (0x11EF3, 0x11EF4); (0x13430, 0x13438);
   (0x16AF0, 0x16AF4); (0x16B30, 0x16B36); (0x16B40, 0x16B43); (0x16F4F, 0x16F4F);
   (0x16F8F, 0x16F9F); (0x16FE0, 0x16FE1); (0x16FE3, 0x16FE4); (0x1AFF0, 0x1AFF3);
   (0x1AFF5, 0x1AFFB); (0x1AFFD, 0x1AFFE); (0x1BC9D, 0x1BC9E); (0x1BCA0, 0x1BCA3);
   (0x1CF00, 0x1CF2D); (0x1CF30, 0x1CF46); (0x1D167, 0x1D169); (0x1D173, 0x1D182);
   (0x1D185, 0x1D18B); (0x1D1AA, 0x1D1AD); (0x1D242, 0x1D244); (0x1DA00, 0x1DA36);
   (0x1DA3B, 0x1DA6C); (0x1DA75, 0x1DA75); (0x1DA84, 0x1DA84); (0x1DA9B, 0x1DA9F);
   (0x1DAA1, 0x1DAAF); (0x1E000, 0x1E006); (0x1E008, 0x1E018); (0x1E01B, 0x1E021);
   (0x1E023, 0x1E024); (0x1E026, 0x1E02A); (0x1E130, 0x1E13D); (0x1E2AE, 0x1E2AE);
   (0x1E2EC, 0x1E2EF); (0x1E8D0, 0x1E8D6); (0x1E944, 0x1E94B); (0x1F3FB, 0x1F3FF);
   (0xE0001, 0xE0001); (0xE0020, 0xE007F); (0xE0100, 0xE01EF) ]%N.

Definition not_printable_table : list (N * N) :=
  [
   (0x80, 0xA0); (0xAD, 0xAD); (0x378, 0x379); (0x380, 0x383);
   (0x38B, 0x38B); (0x38D, 0x38D); (0x3A2, 0x3A2); (0x530, 0x530);
   (0x557, 0x558); (0x58B, 0x58C); (0x590, 0x590); (0x5C8, 0x5CF);
   (0x5EB, 0x5EE); (0x5F5, 0x605); (0x61C, 0x61C); (0x6DD, 0x6DD);
   (0x70E, 0x70F); (0x74B, 0x74C); (0x7B2, 0x7BF); (0x7FB, 0x7FC);
   (0x82E, 0x82F); (0x83F, 0x83F); (0x85C, 0x85D); (0x85F, 0x85F);
   (0x86B, 0x86F); (0x88F, 0x897); (0x8E2, 0x8E2); (0x984, 0x984);
   (0x98D, 0x98E); (0x991, 0x992); (0x9A9, 0x9A9); (0x9B1, 0x9B1);
   (0x9B3, 0x9B5); (0x9BA, 0x9BB); (0x9C5, 0x9C6); (0x9C9, 0x9CA);
   (0x9CF, 0x9D6); (0x9D8, 0x9DB); (0x9DE, 0x9DE); (0x9E4, 0x9E5);
   (0x9FF, 0xA00); (0xA04, 0xA04); (0xA0B, 0xA0E); (0xA11, 0xA12);
   (0xA29, 0xA29); (0xA31, 0xA31); (0xA34, 0xA34); (0xA37, 0xA37);
   (0xA3A, 0xA3B); (0xA3D, 0xA3D); (0xA43, 0xA46); (0xA49, 0xA4A);
   (0xA4E, 0xA50); (0xA52, 0xA58); (0xA5D, 0xA5D); (0xA5F, 0xA65);
   (0xA77, 0xA80); (0xA84, 0xA84); (0xA8E, 0xA8E); (0xA92, 0xA92);
   (0xAA9, 0xAA9); (0xAB1, 0xAB1); (0xAB4, 0xAB4); (0xABA, 0xABB);
   (0xAC6, 0xAC6); (0xACA, 0xACA); (0xACE, 0xACF); (0xAD1, 0xADF);
   (0xAE4, 0xAE5); (0xAF2, 0xAF8); (0xB00, 0xB00); (0xB04, 0xB04);
   (0xB0D, 0xB0E); (0xB11, 0xB12); (0xB29, 0xB29); (0xB31, 0xB31);
   (0xB34, 0xB34); (0xB3A, 0xB3B); (0xB45, 0xB46); (0xB49, 0xB4A);
   (0xB4E, 0xB54); (0xB58, 0xB5B); (0xB5E, 0xB5E); (0xB64, 0xB65);
   (0xB78, 0xB81); (0xB84, 0xB84); (0xB8B, 0xB8D); (0xB91, 0xB91);
   (0xB96, 0xB98); (0xB9B, 0xB9B); (0xB9D, 0xB9D); (0xBA0, 0xBA2);
   (0xBA5, 0xBA7); (0xBAB, 0xBAD); (0xBBA, 0xBBD); (0xBC3, 0xBC5);
   (0xBC9, 0xBC9); (0xBCE, 0xBCF); (0xBD1, 0xBD6); (0xBD8, 0xBE5);
   (0xBFB, 0xBFF); (0xC0D, 0xC0D); (0xC11, 0xC11); (0xC29, 0xC29);
   (0xC3A, 0xC3B); (0xC45, 0xC45); (0xC49, 0xC49); (0xC4E, 0xC54);
   (0xC57, 0xC57); (0xC5B, 0xC5C); (0xC5E, 0xC5F); (0xC64, 0xC65);
   (0xC70, 0xC76); (0xC8D, 0xC8D); (0xC91, 0xC91); (0xCA9, 0xCA9);
   (0xCB4, 0xCB4); (0xCBA, 0xCBB); (0xCC5, 0xCC5); (0xCC9, 0xCC9);
   (0xCCE, 0xCD4); (0xCD7, 0xCDC); (0xCDF, 0xCDF); (0xCE4, 0xCE5);
   (0xCF0, 0xCF0); (0xCF3, 0xCFF); (0xD0D, 0xD0D); (0xD11, 0xD11);
   (0xD45, 0xD45); (0xD49, 0xD49); (0xD50, 0xD53); (0xD64, 0xD65);
   (0xD80, 0xD80); (0xD84, 0xD84); (0xD97, 0xD99); (0xDB2, 0xDB2);
   (0xDBC, 0xDBC); (0xDBE, 0xDBF); (0xDC7, 0xDC9); (0xDCB, 0xDCE);
   (0xDD5, 0xDD5); (0xDD7, 0xDD7); (0xDE0, 0xDE5); (0xDF0, 0xDF1);
   (0xDF5, 0xE00); (0xE3B, 0xE3E); (0xE5C, 0xE80); (0xE83, 0xE83);
   (0xE85, 0xE85); (0xE8B, 0xE8B); (0xEA4, 0xEA4); (0xEA6, 0xEA6);
   (0xEBE, 0xEBF); (0xEC5, 0xEC5); (0xEC7, 0xEC7); (0xECE, 0xECF);
   (0xEDA, 0xEDB); (0xEE0, 0xEFF); (0xF48, 0xF48); (0xF6D, 0xF70);
   (0xF98, 0xF98); (0xFBD, 0xFBD); (0xFCD, 0xFCD); (0xFDB, 0xFFF);
   (0x10C6, 0x10C6); (0x10C8, 0x10CC); (0x10CE, 0x10CF); (0x1249, 0x1249);
   (0x124E, 0x124F); (0x1257, 0x1257); (0x1259, 0x1259); (0x125E, 0x125F);
   (0x1289, 0x1289); (0x128E, 0x128F); (0x12B1, 0x12B1); (0x12B6, 0x12B7);
   (0x12BF, 0x12BF); (0x12C1, 0x12C1); (0x12C6, 0x12C7); (0x12D7, 0x12D7);
   (0x1311, 0x1311); (0x1316, 0x1317); (0x135B, 0x135C); (0x137D, 0x137F);
   (0x139A, 0x139F); (0x13F6, 0x13F7); (0x13FE, 0x13FF); (0x1680, 0x1680);
   (0x169D, 0x169F); (0x16F9, 0x16FF); (0x1716, 0x171E); (0x1737, 0x173F);
   (0x1754, 0x175F); (0x176D, 0x176D); (0x1771, 0x1771); (0x1774, 0x177F);
   (0x17DE, 0x17DF); (0x17EA, 0x17EF); (0x17FA, 0x17FF); (0x180E, 0x180E);
   (0x181A, 0x181F); (0x1879, 0x187F); (0x18AB, 0x18AF); (0x18F6, 0x18FF);
   (0x191F, 0x191F); (0x192C, 0x192F); (0x193C, 0x193F); (0x1941, 0x1943);
   (0x196E, 0x196F); (0x1975, 0x197F); (0x19AC, 0x19AF); (0x19CA, 0x19CF);
   (0x19DB, 0x19DD); (0x1A1C, 0x1A1D); (0x1A5F, 0x1A5F); (0x1A7D, 0x1A7E);
   (0x1A8A, 0x1A8F); (0x1A9A, 0x1A9F); (0x1AAE, 0x1AAF); (0x1ACF, 0x1AFF);
   (0x1B4D, 0x1B4F); (0x1B7F, 0x1B7F); (0x1BF4, 0x1BFB); (0x1C38, 0x1C3A);
   (0x1C4A, 0x1C4C); (0x1C89, 0x1C8F); (0x1CBB, 0x1CBC); (0x1CC8, 0x1CCF);
   (0x1CFB, 0x1CFF); (0x1F16, 0x1F17); (0x1F1E, 0x1F1F); (0x1F46, 0x1F47);
   (0x1F4E, 0x1F4F); (0x1F58, 0x1F58); (0x1F5A, 0x1F5A); (0x1F5C, 0x1F5C);
   (0x1F5E, 0x1F5E); (0x1F7E, 0x1F7F); (0x1FB5, 0x1FB5); (0x1FC5, 0x1FC5);
   (0x1FD4, 0x1FD5); (0x1FDC, 0x1FDC); (0x1FF0, 0x1FF1); (0x1FF5, 0x1FF5);
   (0x1FFF, 0x200F); (0x2028, 0x202F); (0x205F, 0x206F); (0x2072, 0x2073);
   (0x208F, 0x208F); (0x209D, 0x209F); (0x20C1, 0x20CF); (0x20F1, 0x20FF);
   (0x218C, 0x218F); (0x2427, 0x243F); (0x244B, 0x245F); (0x2B74, 0x2B75);
   (0x2B96, 0x2B96); (0x2CF4, 0x2CF8); (0x2D26, 0x2D26); (0x2D28, 0x2D2C);
   (0x2D2E, 0x2D2F); (0x2D68, 0x2D6E); (0x2D71, 0x2D7E); (0x2D97, 0x2D9F);
   (0x2DA7, 0x2DA7); (0x2DAF, 0x2DAF); (0x2DB7, 0x2DB7); (0x2DBF, 0x2DBF);
   (0x2DC7, 0x2DC7); (0x2DCF, 0x2DCF); (0x2DD7, 0x2DD7); (0x2DDF, 0x2DDF);
   (0x2E5E, 0x2E7F); (0x2E9A, 0x2E9A); (0x2EF4, 0x2EFF); (0x2FD6, 0x2FEF);
   (0x2FFC, 0x3000); (0x3040, 0x3040); (0x3097, 0x3098); (0x3100, 0x3104);
   (0x3130, 0x3130); (0x318F, 0x318F); (0x31E4, 0x31EF); (0x321F, 0x321F);
   (0xA48D, 0xA48F); (0xA4C7, 0xA4CF); (0xA62C, 0xA63F); (0xA6F8, 0xA6FF);
   (0xA7CB, 0xA7CF); (0xA7D2, 0xA7D2); (0xA7D4, 0xA7D4); (0xA7DA, 0xA7F1);
   (0xA82D, 0xA82F); (0xA83A, 0xA83F); (0xA878, 0xA87F); (0xA8C6, 0xA8CD);
   (0xA8DA, 0xA8DF); (0xA954, 0xA95E); (0xA97D, 0xA97F); (0xA9CE, 0xA9CE);
   (0xA9DA, 0xA9DD); (0xA9FF, 0xA9FF); (0xAA37, 0xAA3F); (0xAA4E, 0xAA4F);
   (0xAA5A, 0xAA5B); (0xAAC3, 0xAADA); (0xAAF7, 0xAB00); (0xAB07, 0xAB08);
   (0xAB0F, 0xAB10); (0xAB17, 0xAB1F); (0xAB27, 0xAB27); (0xAB2F, 0xAB2F);
   (0xAB6C, 0xAB6F); (0xABEE, 0xABEF); (0xABFA, 0xABFF); (0xD7A4, 0xD7AF);
   (0xD7C7, 0xD7CA); (0xD7FC, 0xD7FF); (0xE000, 0xF8FF); (0xFA6E, 0xFA6F);
   (0xFADA, 0xFAFF); (0xFB07, 0xFB12); (0xFB18, 0xFB1C); (0xFB37, 0xFB37);
   (0xFB3D, 0xFB3D); (0xFB3F, 0xFB3F); (0xFB42, 0xFB42); (0xFB45, 0xFB45);
   (0xFBC3, 0xFBD2); (0xFD90, 0xFD91); (0xFDC8, 0xFDCE); (0xFDD0, 0xFDEF);
   (0xFE1A, 0xFE1F); (0xFE53, 0xFE53); (0xFE67, 0xFE67); (0xFE6C, 0xFE6F);
   (0xFE75, 0xFE75); (0xFEFD, 0xFF00); (0xFFBF, 0xFFC1); (0xFFC8, 0xFFC9);
   (0xFFD0, 0xFFD1); (0xFFD8, 0xFFD9); (0xFFDD, 0xFFDF); (0xFFE7, 0xFFE7);
   (0xFFEF, 0xFFFB); (0xFFFE, 0xFFFF); (0x1000C, 0x1000C); (0x10027, 0x10027);
   (0x1003B, 0x1003B); (0x1003E, 0x1003E); (0x1004E, 0x1004F); (0x1005E, 0x1007F);
   (0x100FB, 0x100FF); (0x10103, 0x10106); (0x10134, 0x10136); (0x1018F, 0x1018F);
   (0x1019D, 0x1019F); (0x101A1, 0x101CF); (0x101FE, 0x1027F); (0x1029D, 0x1029F);
   (0x102D1, 0x102DF); (0x102FC, 0x102FF); (0x10324, 0x1032C); (0x1034B, 0x1034F);
   (0x1037B, 0x1037F); (0x1039E, 0x1039E); (0x103C4, 0x103C7); (0x103D6, 0x103FF);
   (0x1049E, 0x1049F); (0x104AA, 0x104AF); (0x104D4, 0x104D7); (0x104FC, 0x104FF);
   (0x10528, 0x1052F); (0x10564, 0x1056E); (0x1057B, 0x1057B); (0x1058B, 0x1058B);
   (0x10593, 0x10593); (0x10596, 0x10596); (0x105A2, 0x105A2); (0x105B2, 0x105B2);
   (0x105BA, 0x105BA); (0x105BD, 0x105FF); (0x10737, 0x1073F); (0x10756, 0x1075F);
   (0x10768, 0x1077F); (0x10786, 0x10786); (0x107B1, 0x107B1); (0x107BB, 0x107FF);
   (0x10806, 0x10807); (0x10809, 0x10809); (0x10836, 0x10836); (0x10839, 0x1083B);
   (0x1083D, 0x1083E); (0x10856, 0x10856); (0x1089F, 0x108A6); (0x108B0, 0x108DF);
   (0x108F3, 0x108F3); (0x108F6, 0x108FA); (0x1091C, 0x1091E); (0x1093A, 0x1093E);
   (0x10940, 0x1097F); (0x109B8, 0x109BB); (0x109D0, 0x109D1); (0x10A04, 0x10A04);
   (0x10A07, 0x10A0B); (0x10A14, 0x10A14); (0x10A18, 0x10A18); (0x10A36, 0x10A37);
   (0x10A3B, 0x10A3E); (0x10A49, 0x10A4F); (0x10A59, 0x10A5F); (0x10AA0, 0x10ABF);
   (0x10AE7, 0x10AEA); (0x10AF7, 0x10AFF); (0x10B36, 0x10B38); (0x10B56, 0x10B57);
   (0x10B73, 0x10B77); (0x10B92, 0x10B98); (0x10B9D, 0x10BA8); (0x10BB0, 0x10BFF);
   (0x10C49, 0x10C7F); (0x10CB3, 0x10CBF); (0x10CF3, 0x10CF9); (0x10D28, 0x10D2F);
   (0x10D3A, 0x10E5F); (0x10E7F, 0x10E7F); (0x10EAA, 0x10EAA); (0x10EAE, 0x10EAF);
   (0x10EB2, 0x10EFF); (0x10F28, 0x10F2F); (0x10F5A, 0x10F6F); (0x10F8A, 0x10FAF);
   (0x10FCC, 0x10FDF); (0x10FF7, 0x10FFF); (0x1104E, 0x11051); (0x11076, 0x1107E);
   (0x110BD, 0x110BD); (0x110C3, 0x110CF); (0x110E9, 0x110EF); (0x110FA, 0x110FF);
   (0x11135, 0x11135); (0x11148, 0x1114F); (0x11177, 0x1117F); (0x111E0, 0x111E0);
   (0x111F5, 0x111FF); (0x11212, 0x11212); (0x1123F, 0x1127F); (0x11287, 0x11287);
   (0x11289, 0x11289); (0x1128E, 0x1128E); (0x1129E, 0x1129E); (0x112AA, 0x112AF);
   (0x112EB, 0x112EF); (0x112FA, 0x112FF); (0x11304, 0x11304); (0x1130D, 0x1130E);
   (0x11311, 0x11312); (0x11329, 0x11329); (0x11331, 0x11331); (0x11334, 0x11334);
   (0x1133A, 0x1133A); (0x11345, 0x11346); (0x11349, 0x1134A); (0x1134E, 0x1134F);
   (0x11351, 0x11356); (0x11358, 0x1135C); (0x11364, 0x11365); (0x1136D, 0x1136F);
   (0x11375, 0x113FF); (0x1145C, 0x1145C); (0x11462, 0x1147F); (0x114C8, 0x114CF);
   (0x114DA, 0x1157F); (0x115B6, 0x115B7); (0x115DE, 0x115FF); (0x11645, 0x1164F);
   (0x1165A, 0x1165F); (0x1166D, 0x1167F); (0x116BA, 0x116BF); (0x116CA, 0x116FF);
   (0x1171B, 0x1171C); (0x1172C, 0x1172F); (0x11747, 0x117FF); (0x1183C, 0x1189F);
   (0x118F3, 0x118FE); (0x11907, 0x11908); (0x1190A, 0x1190B); (0x11914, 0x11914);
   (0x11917, 0x11917); (0x11936, 0x11936); (0x11939, 0x1193A); (0x11947, 0x1194F);
   (0x1195A, 0x1199F); (0x119A8, 0x119A9); (0x119D8, 0x119D9); (0x119E5, 0x119FF);
   (0x11A48, 0x11A4F); (0x11AA3, 0x11AAF); (0x11AF9, 0x11BFF); (0x11C09, 0x11C09);
   (0x11C37, 0x11C37); (0x11C46, 0x11C4F); (0x11C6D, 0x11C6F); (0x11C90, 0x11C91);
   (0x11CA8, 0x11CA8); (0x11CB7, 0x11CFF); (0x11D07, 0x11D07); (0x11D0A, 0x11D0A);
   (0x11D37, 0x11D39); (0x11D3B, 0x11D3B); (0x11D3E, 0x11D3E); (0x11D48, 0x11D4F);
   (0x11D5A, 0x11D5F); (0x11D66, 0x11D66); (0x11D69, 0x11D69); (0x11D8F, 0x11D8F);
   (0x11D92, 0x11D92); (0x11D99, 0x11D9F); (0x11DAA, 0x11EDF); (0x11EF9, 0x11FAF);
   (0x11FB1, 0x11FBF); (0x11FF2, 0x11FFE); (0x1239A, 0x123FF); (0x1246F, 0x1246F);
   (0x12475, 0x1247F); (0x12544, 0x12F8F); (0x12FF3, 0x12FFF); (0x1342F, 0x143FF);
   (0x14647, 0x167FF); (0x16A39, 0x16A3F); (0x16A5F, 0x16A5F); (0x16A6A, 0x16A6D);
   (0x16ABF, 0x16ABF); (0x16ACA, 0x16ACF); (0x16AEE, 0x16AEF); (0x16AF6, 0x16AFF);
   (0x16B46, 0x16B4F); (0x16B5A, 0x16B5A); (0x16B62, 0x16B62); (0x16B78, 0x16B7C);
   (0x16B90, 0x16E3F); (0x16E9B, 0x16EFF); (0x16F4B, 0x16F4E); (0x16F88, 0x16F8E);
   (0x16FA0, 0x16FDF); (0x16FE5, 0x16FEF); (0x16FF2, 0x16FFF); (0x187F8, 0x187FF);
   (0x18CD6, 0x18CFF); (0x18D09, 0x1AFEF); (0x1AFF4, 0x1AFF4); (0x1AFFC, 0x1AFFC);
   (0x1AFFF, 0x1AFFF); (0x1B123, 0x1B14F); (0x1B153, 0x1B163); (0x1B168, 0x1B16F);
   (0x1B2FC, 0x1BBFF); (0x1BC6B, 0x1BC6F); (0x1BC7D, 0x1BC7F); (0x1BC89, 0x1BC8F);
   (0x1BC9A, 0x1BC9B); (0x1BCA0, 0x1CEFF); (0x1CF2E, 0x1CF2F); (0x1CF47, 0x1CF4F);
   (0x1CFC4, 0x1CFFF); (0x1D0F6, 0x1D0FF); (0x1D127, 0x1D128); (0x1D173, 0x1D17A);
   (0x1D1EB, 0x1D1FF); (0x1D246, 0x1D2DF); (0x1D2F4, 0x1D2FF); (0x1D357, 0x1D35F);
   (0x1D379, 0x1D3FF); (0x1D455, 0x1D455); (0x1D49D, 0x1D49D); (0x1D4A0, 0x1D4A1);
   (0x1D4A3, 0x1D4A4); (0x1D4A7, 0x1D4A8); (0x1D4AD, 0x1D4AD); (0x1D4BA, 0x1D4BA);
   (0x1D4BC, 0x1D4BC); (0x1D4C4, 0x1D4C4); (0x1D506, 0x1D506); (0x1D50B, 0x1D50C);
   (0x1D515, 0x1D515); (0x1D51D, 0x1D51D); (0x1D53A, 0x1D53A); (0x1D53F, 0x1D53F);
   (0x1D545, 0x1D545); (0x1D547, 0x1D549); (0x1D551, 0x1D551); (0x1D6A6, 0x1D6A7);
   (0x1D7CC, 0x1D7CD); (0x1DA8C, 0x1DA9A); (0x1DAA0, 0x1DAA0); (0x1DAB0, 0x1DEFF);
   (0x1DF1F, 0x1DFFF); (0x1E007, 0x1E007); (0x1E019, 0x1E01A); (0x1E022, 0x1E022);
   (0x1E025, 0x1E025); (0x1E02B, 0x1E0FF); (0x1E12D, 0x1E12F); (0x1E13E, 0x1E13F);
   (0x1E14A, 0x1E14D); (0x1E150, 0x1E28F); (0x1E2AF, 0x1E2BF); (0x1E2FA, 0x1E2FE);
   (0x1E300, 0x1E7DF); (0x1E7E7, 0x1E7E7); (0x1E7EC, 0x1E7EC); (0x1E7EF, 0x1E7EF);
   (0x1E7FF, 0x1E7FF); (0x1E8C5, 0x1E8C6); (0x1E8D7, 0x1E8FF); (0x1E94C, 0x1E94F);
   (0x1E95A, 0x1E95D); (0x1E960, 0x1EC70); (0x1ECB5, 0x1ED00); (0x1ED3E, 0x1EDFF);
   (0x1EE04, 0x1EE04); (0x1EE20, 0x1EE20); (0x1EE23, 0x1EE23); (0x1EE25, 0x1EE26);
   (0x1EE28, 0x1EE28); (0x1EE33, 0x1EE33); (0x1EE38, 0x1EE38); (0x1EE3A, 0x1EE3A);
   (0x1EE3C, 0x1EE41); (0x1EE43, 0x1EE46); (0x1EE48, 0x1EE48); (0x1EE4A, 0x1EE4A);
   (0x1EE4C, 0x1EE4C); (0x1EE50, 0x1EE50); (0x1EE53, 0x1EE53); (0x1EE55, 0x1EE56);
   (0x1EE58, 0x1EE58); (0x1EE5A, 0x1EE5A); (0x1EE5C, 0x1EE5C); (0x1EE5E, 0x1EE5E);
   (0x1EE60, 0x1EE60); (0x1EE63, 0x1EE63); (0x1EE65, 0x1EE66); (0x1EE6B, 0x1EE6B);
   (0x1EE73, 0x1EE73); (0x1EE78, 0x1EE78); (0x1EE7D, 0x1EE7D); (0x1EE7F, 0x1EE7F);
   (0x1EE8A, 0x1EE8A); (0x1EE9C, 0x1EEA0); (0x1EEA4, 0x1EEA4); (0x1EEAA, 0x1EEAA);
   (0x1EEBC, 0x1EEEF); (0x1EEF2, 0x1EFFF); (0x1F02C, 0x1F02F); (0x1F094, 0x1F09F);
   (0x1F0AF, 0x1F0B0); (0x1F0C0, 0x1F0C0); (0x1F0D0, 0x1F0D0); (0x1F0F6, 0x1F0FF);
   (0x1F1AE, 0x1F1E5); (0x1F203, 0x1F20F); (0x1F23C, 0x1F23F); (0x1F249, 0x1F24F);
   (0x1F252, 0x1F25F); (0x1F266, 0x1F2FF); (0x1F6D8, 0x1F6DC); (0x1F6ED, 0x1F6EF);
   (0x1F6FD, 0x1F6FF); (0x1F774, 0x1F77F); (0x1F7D9, 0x1F7DF); (0x1F7EC, 0x1F7EF);
   (0x1F7F1, 0x1F7FF); (0x1F80C, 0x1F80F); (0x1F848, 0x1F84F); (0x1F85A, 0x1F85F);
   (0x1F888, 0x1F88F); (0x1F8AE, 0x1F8AF); (0x1F8B2, 0x1F8FF); (0x1FA54, 0x1FA5F);
   (0x1FA6E, 0x1FA6F); (0x1FA75, 0x1FA77); (0x1FA7D, 0x1FA7F); (0x1FA87, 0x1FA8F);
   (0x1FAAD, 0x1FAAF); (0x1FABB, 0x1FABF); (0x1FAC6, 0x1FACF); (0x1FADA, 0x1FADF);
   (0x1FAE8, 0x1FAEF); (0x1FAF7, 0x1FAFF); (0x1FB93, 0x1FB93); (0x1FBCB, 0x1FBEF);
   (0x1FBFA, 0x1FFFF); (0x2A6E0, 0x2A6FF); (0x2B739, 0x2B73F); (0x2B81E, 0x2B81F);
   (0x2CEA2, 0x2CEAF); (0x2EBE1, 0x2F7FF); (0x2FA1E, 0x2FFFF); (0x3134B, 0xE00FF);
   (0xE01F0, 0x10FFFF) ]%N.

Definition space_table : list N :=
  [
   0x9; 0xA; 0xB; 0xC; 0xD; 0x1C; 0x1D; 0x1E;
   0x1F; 0x20; 0x85; 0xA0; 0x1680; 0x2000; 0x2001; 0x2002;
   0x2003; 0x2004; 0x2005; 0x2006; 0x2007; 0x2008; 0x2009; 0x200A;
   0x2028; 0x2029; 0x202F; 0x205F; 0x3000 ]%N.

(** *** [str.lower] *)

(** [c.lower()] for one ASCII character. *)
Definition lower_char (c : ascii) : ascii :=
  let n := nat_of_ascii c in
  if Nat.leb 65 n && Nat.leb n 90 then ascii_of_nat (n + 32) else c.

(** [s.lower()] for a string of ASCII characters. *)
Fixpoint lower_ascii (s : string) : string :=
  match s with
  | EmptyString => EmptyString
  | String c s' => String (lower_char c) (lower_ascii s')
  end.

Fixpoint lower_in (table : list (N * N * N * N)) (c : N) : N :=
  match table with
  | [] => c
  | (lo, hi, step, target) :: table' =>
      if N.leb lo c && N.leb c hi && N.eqb ((c - lo) mod step) 0 then
        (target + (c - lo))%N
      else lower_in table' c
  end.

(** The lower case of one code point other than the capital sigma. *)
Definition to_lower (c : N) : list N :=
  if N.ltb c 0x80 then
    [if N.leb 0x41 c && N.leb c 0x5A then (c + 32)%N else c]
  else if N.eqb c 0x130 then [0x69; 0x307]%N
  else [lower_in lower_table c].

Definition cased (c : N) : bool := in_ranges cased_table c.

Definition case_ignorable (c : N) : bool := in_ranges case_ignorable_table c.

(** Is the first code point of [l] that is not case-ignorable a cased
    one? *)
Fixpoint cased_comes_first (l : list N) : bool :=
  match l with
  | [] => false
  | c :: l' => if case_ignorable c then cased_comes_first l' else cased c
  end.

(** The lower case of a capital sigma: the final form after a cased
    letter and not before one, case-ignorable code points apart.
    [before] are the code points before it, the nearest first. *)
Definition lower_sigma (before after : list N) : N :=
  if cased_comes_first before && negb (cased_comes_first after) then 0x3C2%N
  else 0x3C3%N.

Fixpoint lower_from (before l : list N) : list N :=
  match l with
  | [] => []
  | c :: after =>
      (if N.eqb c 0x3A3 then [lower_sigma before after] else to_lower c)
        ++ lower_from (c :: before) after
  end.

(** [s.lower()] *)
Definition lower (s : string) : string := encode (lower_from [] (decode s)).

(** *** [str.strip] *)

(** [c.isspace()] for one code point. *)
Definition isspace (c : N) : bool := existsb (N.eqb c) space_table.

Fixpoint lstrip_from (fuel : nat) (s : string) : string :=
  match fuel with
  | O => s
  | S fuel' =>
      match head s with
      | Some (c, rest) => if isspace c then lstrip_from fuel' rest else s
      | None => s
      end
  end.

(** [s.lstrip()] *)
Definition lstrip (s : string) : string := lstrip_from (String.length s) s.

(** Is [s] one white space character and nothing else? *)
Definition one_space (s : string) : bool :=
  match head s with
  | Some (c, EmptyString) => isspace c
  | _ => false
  end.

(** [s.rstrip()] *)
Fixpoint rstrip (s : string) : string :=
  match s with
  | EmptyString => EmptyString
  | String c s' =>
      let r := rstrip s' in
      if one_space (String c r) then EmptyString else String c r
  end.

(** [s.strip()] *)
Definition strip (s : string) : string := rstrip (lstrip s).

(** Is every character of [s] an ASCII character? *)
Fixpoint ascii_only (s : string) : bool :=
  match s with
  | EmptyString => true
  | String c s' => N.ltb (byte c) 0x80 && ascii_only s'
  end.

(** *** Substrings *)

(** [hay.startswith(needle)] *)
Fixpoint startswith (needle hay : string) : bool :=
  match needle, hay with
  | EmptyString, _ => true
  | String _ _, EmptyString => false
  | String a n', String b h' => Ascii.eqb a b && startswith n' h'
  end.

(** [needle in hay] *)
Fixpoint contains (needle hay : string) : bool :=
  startswith needle hay ||
  match hay with
  | EmptyString => false
  | String _ h' => contains needle h'
  end.

(** [sep.join(parts)] *)
Definition join (sep : string) (parts : list string) : string :=
  String.concat sep parts.

(** [str(n)] for a non-negative integer, as an f-string formats it. *)
Definition str_of_nat (n : nat) : string :=
  NilZero.string_of_uint (Nat.to_uint n).

End PyStr.
Import PyStr.

(** ** Python dictionaries with string keys *)

Definition dict (V : Type) : Type := list (string * V).

(** [d[k] = v] *)
Fixpoint dict_set {V : Type} (k : string) (v : V) (d : dict V) : dict V :=
  match d with
  | [] => [(k, v)]
  | (k', v') :: d' =>
      if String.eqb k k' then (k', v) :: d' else (k', v') :: dict_set k v d'
  end.

(** [d.get(k)] *)
Fixpoint dict_get {V : Type} (k : string) (d : dict V) : option V :=
  match d with
  | [] => None
  | (k', v') :: d' => if String.eqb k k' then Some v' else dict_get k d'
  end.

Definition keys {V : Type} (d : dict V) : list string := map fst d.
Definition values {V : Type} (d : dict V) : list V := map snd d.
Definition items {V : Type} (d : dict V) : list (string * V) := d.

(** A dict comprehension [{key(x): val(x) for x in xs}]. *)
Definition dict_comp {X V : Type} (key : X -> string) (val : X -> V)
    (xs : list X) : dict V :=
  fold_left (fun d x => dict_set (key x) (val x) d) xs [].

(** [all(bs)] *)
Definition all (bs : list bool) : bool := forallb (fun b => b) bs.

(** ** [validate_section] and [create_feedback_prompt] *)

(** The dictionary [{"is_valid": ..., "feedback": ...}] that
    [validate_section] returns. *)
Record validation_result : Type := mk_validation_result {
  is_valid : bool;
  feedback : dict string
}.

Definition validate_section (section : string) (criteria : list string)
    : validation_result :=
  let validation :=
    dict_comp (fun criterion => criterion)
              (fun criterion => contains (lower criterion) (lower section))
              criteria in
  {| is_valid := all (values validation);
     feedback :=
       dict_comp (fun kv => fst kv)
                 (fun kv => if snd kv : bool then "Present" else "Missing")
                 (items validation) |}.

(** The list [[k for k, v in feedback.items() if v == "Missing"]]. *)
Definition missing_criteria (validation_result : validation_result)
    : list string :=
  map fst
    (filter (fun kv => String.eqb (snd kv) "Missing")
            (items (feedback validation_result))).

Definition meets_all_criteria : string := "The section meets all criteria.".

Definition create_feedback_prompt (section_name : string)
    (validation_result : validation_result) (current_section : string)
    : string :=
  if negb (is_valid validation_result) then
    nl ++ "The current " ++ section_name ++ " section needs improvement:" ++ nl
       ++ "Missing criteria: "
       ++ join ", " (missing_criteria validation_result) ++ nl
       ++ nl
       ++ "Current section:" ++ nl
       ++ current_section ++ nl
       ++ nl
       ++ "Please revise the " ++ section_name
       ++ " section to address these missing points. " ++ nl
       ++ "Provide only the revised section without any explanations." ++ nl
  else meets_all_criteria.

(** ** Effects: the service, the widgets, exceptions *)

(** A raised Python [Exception]; [msg] is [str(e)]. *)
Inductive exn : Type :=
| Exception (msg : string).

Definition str_exn (e : exn) : string :=
  match e with Exception msg => msg end.

(** What evaluating
    [openai.ChatCompletion.create(...).choices[0].message['content']]
    gives: the content, or an exception raised on the way. *)
Inductive reply : Type :=
| Content (text : string)
| Raises (e : exn).

(** What the run does to the outside, in order. *)
Inductive event : Type :=
| LlmCall (api_key prompt : string) (r : reply)
| StError (msg : string)
| StatusText (msg : string)
| Progress (numerator denominator : nat).

(** The result of a computation from a service state: the value returned
    or the exception raised, the service's state afterwards, and the events
    emitted. *)
Record outcome (St A : Type) : Type := mk_outcome {
  result : exn + A;
  state : St;
  output : list event
}.
Arguments mk_outcome {St A} _ _ _.
Arguments result {St A} _.
Arguments state {St A} _.
Arguments output {St A} _.

Definition M (St A : Type) : Type := St -> outcome St A.

Definition ret {St A : Type} (a : A) : M St A :=
  fun s => mk_outcome (inr a) s [].

Definition bind {St A B : Type} (m : M St A) (f : A -> M St B) : M St B :=
  fun s =>
    let o := m s in
    match result o with
    | inl e => mk_outcome (inl e) (state o) (output o)
    | inr a =>
        let o' := f a (state o) in
        mk_outcome (result o') (state o') (output o ++ output o')%list
    end.

(** [try: body  except Exception as e: handler(e)] *)
Definition try_except {St A : Type} (body : M St A) (handler : exn -> M St A)
    : M St A :=
  fun s =>
    let o := body s in
    match result o with
    | inl e =>
        let o' := handler e (state o) in
        mk_outcome (result o') (state o') (output o ++ output o')%list
    | inr a => o
    end.

Definition emit {St : Type} (ev : event) : M St unit :=
  fun s => mk_outcome (inr tt) s [ev].

Declare Scope py_scope.
Delimit Scope py_scope with py.
Notation "x <- m ;; k" := (bind m (fun x => k))
  (at level 61, m at next level, right associativity) : py_scope.
Notation "m ;; k" := (bind m (fun _ => k))
  (at level 61, right associativity) : py_scope.
Local Open Scope py_scope.

(** The texts the generation step returned during a run, in order: the
    stripped content of each reply, the empty string where the call raised. *)
Definition text_of_reply (r : reply) : string :=
  match r with
  | Content text => strip text
  | Raises _ => ""
  end.

Fixpoint generated (tr : list event) : list string :=
  match tr with
  | [] => []
  | LlmCall _ _ r :: tr' => text_of_reply r :: generated tr'
  | _ :: tr' => generated tr'
  end.

(** The prompts sent to the service during a run, in order. *)
Fixpoint prompts (tr : list event) : list string :=
  match tr with
  | [] => []
  | LlmCall _ prompt _ :: tr' => prompt :: prompts tr'
  | _ :: tr' => prompts tr'
  end.

(** The section table of [generate_business_plan]. *)
Definition sections : dict (list string) :=
  [ ("Executive Summary",
      ["business concept"; "financial features"; "financial requirements"]);
    ("Company Description",
      ["company goals"; "target market"; "competitive advantage"]);
    ("Market Analysis",
      ["industry description"; "target market"; "market test results"]);
    ("Organization & Management",
      ["organizational structure"; "management team"; "board of advisors"]);
    ("Product Line",
      ["product description"; "competitive comparison"; "sales literature"]);
    ("Marketing & Sales",
      ["marketing strategy"; "sales force"; "sales activities"]);
    ("Funding Request",
      ["current funding requirement"; "future funding requirements";
       "use of funds"]);
    ("Financial Projections",
      ["income statements"; "cash flow statements"; "balance sheets"]) ].

Definition max_iterations : nat := 3.

(** [enumerate(xs)] from a starting index. *)
Fixpoint enumerate_from {X : Type} (i : nat) (xs : list X) : list (nat * X) :=
  match xs with
  | [] => []
  | x :: xs' => (i, x) :: enumerate_from (S i) xs'
  end.

Definition initial_prompt (section_name : string) (criteria : list string)
    : string :=
  "Write a " ++ section_name
    ++ " section for a business plan. Include information about: "
    ++ join ", " criteria ++ ".".

Section Program.

(** The text-generation service. *)
Variable St : Type.
Variable chat_completion : St -> string -> string -> reply * St.

(** The expression inside the [try] of [get_section_from_llm], up to the
    content of the first choice. *)
Definition create_content (api_key prompt : string) : M St string :=
  fun s =>
    let (r, s') := chat_completion s api_key prompt in
    match r with
    | Content text => mk_outcome (inr text) s' [LlmCall api_key prompt r]
    | Raises e => mk_outcome (inl e) s' [LlmCall api_key prompt r]
    end.

Definition get_section_from_llm (api_key prompt : string) : M St string :=
  try_except
    (content <- create_content api_key prompt ;;
     ret (strip content))
    (fun e =>
       emit (StError ("Error calling OpenAI API: " ++ str_exn e)) ;;
       ret "").

(** The inner [for j in range(max_iterations): ... else: ...] of
    [generate_business_plan], from the iterations [js] still to run. *)
Fixpoint improve (api_key section_name : string) (criteria : list string)
    (js : list nat) (current_section : string) : M St string :=
  match js with
  | [] =>
      emit (StatusText ("Warning: " ++ section_name
                          ++ " may not meet all criteria after "
                          ++ str_of_nat max_iterations ++ " iterations.")) ;;
      ret current_section
  | j :: js' =>
      let validation_result := validate_section current_section criteria in
      if is_valid validation_result then
        emit (StatusText (section_name ++ " meets all criteria!")) ;;
        ret current_section
      else
        emit (StatusText ("Improving " ++ section_name ++ " (Iteration "
                            ++ str_of_nat (j + 1) ++ "/"
                            ++ str_of_nat max_iterations ++ ")...")) ;;
        let feedback_prompt :=
          create_feedback_prompt section_name validation_result
                                 current_section in
        current_section' <- get_section_from_llm api_key feedback_prompt ;;
        improve api_key section_name criteria js' current_section'
  end.

(** The body of the loop over the sections, up to the final text of the
    section (lines 61-81). *)
Definition draft_section (api_key : string) (total_sections i : nat)
    (section_name : string) (criteria : list string) : M St string :=
  emit (StatusText ("Generating " ++ section_name ++ "...")) ;;
  emit (Progress (i + 1) total_sections) ;;
  current_section <-
    get_section_from_llm api_key (initial_prompt section_name criteria) ;;
  improve api_key section_name criteria (seq 0 max_iterations)
          current_section.

(** The loop over [enumerate(sections.items())]. *)
Fixpoint sections_loop (api_key : string) (total_sections : nat)
    (todo : list (nat * (string * list string)))
    (business_plan : dict string) : M St (dict string) :=
  match todo with
  | [] => ret business_plan
  | (i, (section_name, criteria)) :: todo' =>
      current_section <-
        draft_section api_key total_sections i section_name criteria ;;
      sections_loop api_key total_sections todo'
                    (dict_set section_name current_section business_plan)
  end.

Definition generate_business_plan (api_key : string) : M St (dict string) :=
  let business_plan := [] in
  let total_sections := List.length sections in
  sections_loop api_key total_sections (enumerate_from 0 (items sections))
                business_plan.

End Program.

Arguments create_content {St} _ _ _ _.
Arguments get_section_from_llm {St} _ _ _ _.
Arguments improve {St} _ _ _ _ _ _ _.
Arguments draft_section {St} _ _ _ _ _ _ _.
Arguments sections_loop {St} _ _ _ _ _ _.
Arguments generate_business_plan {St} _ _ _.

(** ** A scripted service, for running the program *)

(** The service answers from a list of replies, in order, and raises once the
    list is used up. *)
Definition scripted (s : list reply) (api_key prompt : string)
    : reply * list reply :=
  match s with
  | [] => (Raises (Exception "no reply left"), [])
  | r :: s' => (r, s')
  end.

(** The service raises at every call. *)
Definition failing (s : unit) (api_key prompt : string) : reply * unit :=
  (Raises (Exception "Incorrect API key provided"), s).

(** The service answers every call with the same content. *)
Definition constant (text : string) (s : unit) (api_key prompt : string)
    : reply * unit :=
  (Content text, s).

(** ** What a run shows *)

(** What [get_section_from_llm] shows through [st.error] for a reply. *)
Definition error_events (r : reply) : list event :=
  match r with
  | Content _ => []
  | Raises e => [StError ("Error calling OpenAI API: " ++ str_exn e)]
  end.

Definition warning (section_name : string) : event :=
  StatusText ("Warning: " ++ section_name
                ++ " may not meet all criteria after 3 iterations.").

Definition invalid (criteria : list string) (text : string) : Prop :=
  is_valid (validate_section text criteria) = false.

(** The number of calls of the generation step in a run. *)
Definition llm_calls (tr : list event) : nat := List.length (prompts tr).

(** A prompt of the retry loop: the corrective prompt for a text that failed
    the validation. *)
Definition corrective (section_name : string) (criteria : list string)
    (prompt : string) : Prop :=
  exists text,
    is_valid (validate_section text criteria) = false /\
    prompt = create_feedback_prompt section_name
               (validate_section text criteria) text.

(** The section names of the sections still to run. *)
Definition names (todo : list (nat * (string * list string))) : list string :=
  map (fun x => fst (snd x)) todo.

Section Runs.

Variable St : Type.
Variable chat : St -> string -> string -> reply * St.
Variable api_key : string.

(** A text that is the generation step's reading of some reply of the
    service. *)
Definition from_service (text : string) : Prop :=
  exists s prompt, text = text_of_reply (fst (chat s api_key prompt)).

Variable total_sections : nat.

(** [plan_of_runs todo s plan tr]: running the sections [todo] one after the
    other from the service state [s] emits [tr], and [plan] lists, in the
    order of [todo], each section name with the last text generated during
    that section's own run. *)
Inductive plan_of_runs :
  list (nat * (string * list string)) -> St -> dict string -> list event
  -> Prop :=
| runs_done (s : St) : plan_of_runs [] s [] []
| runs_section (i : nat) (section_name : string) (criteria : list string)
    (todo : list (nat * (string * list string))) (s : St)
    (plan : dict string) (tr : list event) :
    plan_of_runs todo
      (state (draft_section chat api_key total_sections i section_name
                criteria s))
      plan tr ->
    plan_of_runs ((i, (section_name, criteria)) :: todo) s
      ((section_name,
        last (generated
                (output (draft_section chat api_key total_sections i
                           section_name criteria s))) "") :: plan)
      (output (draft_section chat api_key total_sections i section_name
                 criteria s) ++ tr)%list.

(** [starts_at todo s x s']: when the sections [todo] run one after the
    other from the service state [s], the run of the section [x] starts
    from the state [s']. *)
Inductive starts_at :
  list (nat * (string * list string)) -> St
  -> nat * (string * list string) -> St -> Prop :=
| starts_first (x : nat * (string * list string))
    (todo : list (nat * (string * list string))) (s : St) :
    starts_at (x :: todo) s x s
| starts_later (i : nat) (section_name : string) (criteria : list string)
    (todo : list (nat * (string * list string))) (s : St)
    (x : nat * (string * list string)) (s' : St) :
    starts_at todo
      (state (draft_section chat api_key total_sections i section_name
                criteria s))
      x s' ->
    starts_at ((i, (section_name, criteria)) :: todo) s x s'.

End Runs.

Arguments from_service {St} _ _ _.
Arguments plan_of_runs {St} _ _ _ _ _ _ _.
Arguments starts_at {St} _ _ _ _ _ _ _.

(** ** Further readings of a run *)

(** The messages shown through [st.error] during a run, in order. *)
Fixpoint errors_shown (tr : list event) : list string :=
  match tr with
  | [] => []
  | StError msg :: tr' => msg :: errors_shown tr'
  | _ :: tr' => errors_shown tr'
  end.

(** [str(e)] of the exceptions the service raised during a run, in order. *)
Fixpoint raised (tr : list event) : list string :=
  match tr with
  | [] => []
  | LlmCall _ _ (Raises e) :: tr' => str_exn e :: raised tr'
  | _ :: tr' => raised tr'
  end.

(** The arguments [(i + 1, total_sections)] of the calls of
    [progress_bar.progress] during a run, in order. *)
Fixpoint progress_shown (tr : list event) : list (nat * nat) :=
  match tr with
  | [] => []
  | Progress numerator denominator :: tr' =>
      (numerator, denominator) :: progress_shown tr'
  | _ :: tr' => progress_shown tr'
  end.

(** The API keys the calls of a run were made with, in order. *)
Fixpoint keys_used (tr : list event) : list string :=
  match tr with
  | [] => []
  | LlmCall api_key _ _ :: tr' => api_key :: keys_used tr'
  | _ :: tr' => keys_used tr'
  end.

(** The message [get_section_from_llm] shows for an exception. *)
Definition report (msg : string) : string :=
  "Error calling OpenAI API: " ++ msg.

(** The criteria in the order of their first occurrence, each once: [seen]
    are the phrases met before. *)
Fixpoint unseen (seen criteria : list string) : list string :=
  match criteria with
  | [] => []
  | c :: criteria' =>
      if existsb (String.eqb c) seen then unseen seen criteria'
      else c :: unseen (seen ++ [c]) criteria'
  end.

Definition first_occurrences (criteria : list string) : list string :=
  unseen [] criteria.

(** The feedback entry of one criterion for a text. *)
Definition feedback_entry (section criterion : string) : string * string :=
  (criterion,
   if contains (lower criterion) (lower section) then "Present"
   else "Missing").

(** Does the text begin with a white space character? *)
Definition leading_space (s : string) : bool :=
  match head s with
  | Some (c, _) => isspace c
  | None => false
  end.

(** Does the text end with a white space character? *)
Fixpoint trailing_space (s : string) : bool :=
  match s with
  | EmptyString => false
  | String c s' => one_space (String c s') || trailing_space s'
  end.

(** A text without white space at either end, which [strip] leaves alone. *)
Definition stripped (text : string) : Prop :=
  strip text = text /\
  leading_space text = false /\ trailing_space text = false.

(** A text made of white space only. *)
Definition blank (s : string) : bool := forallb isspace (decode s).

(** The corrective prompt for a text that failed the validation. *)
Definition feedback_for (section_name : string) (criteria : list string)
    (text : string) : string :=
  create_feedback_prompt section_name (validate_section text criteria) text.

(** ** [str(business_plan)] *)

Module PyRepr.

Definition backslash : ascii := ascii_of_nat 92.
Definition squote : ascii := ascii_of_nat 39.
Definition dquote : ascii := ascii_of_nat 34.

(** [c in s] for one character. *)
Fixpoint has_char (c : ascii) (s : string) : bool :=
  match s with
  | EmptyString => false
  | String a s' => Ascii.eqb a c || has_char c s'
  end.

(** The digit of [n < 16] in lower-case hexadecimal. *)
Definition hex_digit (n : nat) : ascii :=
  match String.get n "0123456789abcdef" with
  | Some c => c
  | None => "0"%char
  end.

(** The last [digits] hexadecimal digits of [c]. *)
Fixpoint hex (digits : nat) (c : N) : string :=
  match digits with
  | O => EmptyString
  | S digits' =>
      hex digits' (c / 16)
        ++ String (hex_digit (N.to_nat (c mod 16))) EmptyString
  end.

(** [c.isprintable()] for a code point above U+007F. *)
Definition printable (c : N) : bool := negb (in_ranges not_printable_table c).

(** The quote [repr] puts around a string: a double quote when the string
    has a single quote and no double quote, a single quote otherwise. *)
Definition repr_quote (s : string) : ascii :=
  if has_char squote s && negb (has_char dquote s) then dquote else squote.

(** What [repr] writes for one code point inside the quotes. *)
Definition escape_cp (quote : ascii) (c : N) : string :=
  if N.eqb c (byte quote) || N.eqb c 0x5C then
    String backslash (String (ascii_of_N c) EmptyString)
  else if N.eqb c 9 then String backslash "t"
  else if N.eqb c 10 then String backslash "n"
  else if N.eqb c 13 then String backslash "r"
  else if N.ltb c 32 || N.eqb c 127 then String backslash ("x" ++ hex 2 c)
  else if N.ltb c 127 then String (ascii_of_N c) EmptyString
  else if N.leb raw c then encode_cp c
  else if printable c then encode_cp c
  else if N.ltb c 0x100 then String backslash ("x" ++ hex 2 c)
  else if N.ltb c 0x10000 then String backslash ("u" ++ hex 4 c)
  else String backslash ("U" ++ hex 8 c).

Fixpoint escape_all (quote : ascii) (l : list N) : string :=
  match l with
  | [] => EmptyString
  | c :: l' => escape_cp quote c ++ escape_all quote l'
  end.

Definition escape (quote : ascii) (s : string) : string :=
  escape_all quote (decode s).

(** [repr(s)] *)
Definition repr_str (s : string) : string :=
  let quote := repr_quote s in
  String quote (escape quote s ++ String quote EmptyString).

(** [str(d)] for a dictionary from strings to strings. *)
Definition str_dict (d : dict string) : string :=
  "{" ++ join ", "
           (map (fun kv => repr_str (fst kv) ++ ": " ++ repr_str (snd kv))
                (items d))
      ++ "}".

End PyRepr.
Import PyRepr.

(** ** [main] *)

(** What [main] does to the page: the calls that [event] already describes
    ([st.error], [status_text.text], [progress_bar.progress] and the calls
    of the service), and the other widgets. *)
Inductive app_event : Type :=
| Core (ev : event)
| StTitle (body : string)
| StWrite (body : string)
| StTextInput (label type : string)
| StButton (label : string)
| StProgress (value : nat)
| StEmpty
| StSuccess (body : string)
| StExpander (label content : string)
| StDownloadButton (label data file_name mime : string)
| StWarning (body : string).

Definition app_intro : string :=
  nl ++ "    This app uses GPT-4o-mini to generate a comprehensive business plan. "
     ++ nl
     ++ "    It automatically iterates on each section to ensure all key points are covered."
     ++ nl
     ++ "    Please enter your OpenAI API key to begin." ++ nl
     ++ "    ".

Definition app_disclaimer : string :=
  nl ++ "    **Disclaimer**: This business plan is generated by AI (GPT-4o-mini) and should be used as a starting point only. "
     ++ nl
     ++ "    The app automatically iterates on each section to improve content, but human review and customization are essential."
     ++ nl
     ++ "    Please review, modify, and expand upon this plan to ensure it accurately reflects your specific business idea and goals."
     ++ nl
     ++ "    ".

(** The part of [main] after [generate_business_plan] returned
    (lines 105-117). *)
Definition show_plan (business_plan : dict string) : list app_event :=
  (StSuccess "Business Plan Generated Successfully!"
     :: map (fun kv => StExpander (fst kv) (snd kv)) (items business_plan)
     ++ [StDownloadButton "Download Business Plan" (str_dict business_plan)
           "business_plan.txt" "text/plain"])%list.

Section App.

Variable St : Type.
Variable chat_completion : St -> string -> string -> reply * St.

(** One run of the script: [api_key] is what [st.text_input] returns and
    [clicked] what [st.button] returns when it is reached.  The result is
    what the page received and the service's state afterwards. *)
Definition main (api_key : string) (clicked : bool) (s : St)
    : list app_event * St :=
  let top :=
    [StTitle "AI-Powered Business Plan Generator (using GPT-4o-mini)";
     StWrite app_intro;
     StTextInput "Enter your OpenAI API key" "password"] in
  let (middle, s') :=
    if negb (String.eqb api_key "") then
      if clicked then
        let o := generate_business_plan chat_completion api_key s in
        ((StButton "Generate Business Plan" :: StProgress 0 :: StEmpty
            :: map Core (output o)
            ++ match result o with
               | inr business_plan => show_plan business_plan
               | inl e =>
                   [Core (StError ("An error occurred: " ++ str_exn e))]
               end)%list,
         state o)
      else ([StButton "Generate Business Plan"], s)
    else
      ([StWarning "Please enter your OpenAI API key to use this app."], s) in
  ((top ++ middle ++ [StWrite app_disclaimer])%list, s').

End App.

Arguments main {St} _ _ _ _.

(** The [event]s among what the page received. *)
Fixpoint core_events (page : list app_event) : list event :=
  match page with
  | [] => []
  | Core ev :: page' => ev :: core_events page'
  | _ :: page' => core_events page'
  end.

(** The expanders of the page, each with what was written in it. *)
Fixpoint expanders (page : list app_event) : list (string * string) :=
  match page with
  | [] => []
  | StExpander label content :: page' => (label, content) :: expanders page'
  | _ :: page' => expanders page'
  end.

(** The data of the download buttons of the page. *)
Fixpoint downloads (page : list app_event) : list string :=
  match page with
  | [] => []
  | StDownloadButton _ data _ _ :: page' => data :: downloads page'
  | _ :: page' => downloads page'
  end.

(** * Properties *)


(** ** Substrings and lowering *)

Section StringFacts.

Lemma startswith_spec (needle hay : string) :
  startswith needle hay = true <-> exists post, hay = needle ++ post.
Proof.
  revert hay; induction needle as [|a n IH]; intros hay; simpl.
  - split; [intros _; now exists hay | reflexivity].
  - destruct hay as [|b h].
    + split; [discriminate | intros [post H]; discriminate].
    + rewrite andb_true_iff, Ascii.eqb_eq, IH. split.
      * intros [-> [post ->]]. now exists post.
      * intros [post H]. injection H as -> ->. split; [reflexivity | now exists post].
Qed.

Lemma contains_spec (needle hay : string) :
  contains needle hay = true <-> exists pre post, hay = pre ++ needle ++ post.
Proof.
  induction hay as [|b h IH].
  - simpl. rewrite orb_false_r, startswith_spec. split.
    + intros [post H]. now exists "", post.
    + intros [pre [post H]]. destruct pre; [now exists post | discriminate].
  - cbn [contains]. rewrite orb_true_iff, startswith_spec, IH. split.
    + intros [[post H] | [pre [post H]]].
      * now exists "", post.
      * exists (String b pre), post. simpl. now rewrite H.
    + intros [pre [post H]]. destruct pre as [|a pre].
      * left. now exists post.
      * right. injection H as -> ->. now exists pre, post.
Qed.

Lemma append_assoc (a b c : string) : (a ++ b) ++ c = a ++ b ++ c.
Proof. induction a; simpl; congruence. Qed.

Lemma append_empty_r (a : string) : a ++ "" = a.
Proof. induction a; simpl; congruence. Qed.

Lemma length_append (a b : string) :
  String.length (a ++ b) = String.length a + String.length b.
Proof. induction a; simpl; congruence. Qed.

Lemma contains_refl (s : string) : contains s s = true.
Proof. apply contains_spec. exists "", "". simpl. now rewrite append_empty_r. Qed.

Lemma contains_here (needle post : string) :
  contains needle (needle ++ post) = true.
Proof. apply contains_spec. now exists "", post. Qed.

Lemma contains_skip (needle pre hay : string) :
  contains needle hay = true -> contains needle (pre ++ hay) = true.
Proof.
  rewrite !contains_spec. intros [p [q ->]].
  exists (pre ++ p), q. now rewrite append_assoc.
Qed.

Lemma contains_trans (a b c : string) :
  contains a b = true -> contains b c = true -> contains a c = true.
Proof.
  rewrite !contains_spec. intros [p [q ->]] [p' [q' ->]].
  exists (p' ++ p), (q ++ q'). now rewrite !append_assoc.
Qed.

Lemma contains_length (needle hay : string) :
  contains needle hay = true -> String.length needle <= String.length hay.
Proof.
  rewrite contains_spec. intros [p [q ->]]. rewrite !length_append. lia.
Qed.

Lemma contains_in_empty (needle : string) :
  contains needle "" = true -> needle = "".
Proof.
  intros H. apply contains_length in H. destruct needle; [reflexivity | simpl in H; lia].
Qed.

Lemma lower_ascii_append (a b : string) :
  lower_ascii (a ++ b) = lower_ascii a ++ lower_ascii b.
Proof. induction a; simpl; congruence. Qed.

Lemma ascii_only_append (a b : string) :
  ascii_only (a ++ b) = ascii_only a && ascii_only b.
Proof.
  induction a as [|c a IH]; [reflexivity|].
  cbn [append ascii_only]. now rewrite IH, andb_assoc.
Qed.

Lemma head_cons (a : ascii) (s : string) :
  exists c rest, head (String a s) = Some (c, rest).
Proof.
  cbn [head]. destruct (N.ltb (byte a) 128); [now eexists _, _|].
  destruct s as [|c1 s2]; [now eexists _, _|].
  destruct (_ && _ && _); [now eexists _, _|].
  destruct s2 as [|c2 s3]; [now eexists _, _|].
  destruct (_ && _ && _ && _); [now eexists _, _|].
  destruct s3 as [|c3 s4]; [now eexists _, _|].
  destruct (_ && _ && _ && _ && _); now eexists _, _.
Qed.

Lemma encode_cp_cons (c : N) : exists a t, encode_cp c = String a t.
Proof.
  unfold encode_cp. repeat (destruct (N.ltb _ _); [now eexists _, _|]).
  now eexists _, _.
Qed.

Lemma lower_from_cons (before : list N) (c : N) (after : list N) :
  exists x l, lower_from before (c :: after) = x :: l.
Proof.
  cbn [lower_from]. destruct (N.eqb c 931); [now eexists _, _|].
  unfold to_lower. repeat (destruct (_ : bool); try now eexists _, _).
Qed.

Lemma lower_nil : lower "" = "".
Proof. reflexivity. Qed.

Lemma lower_empty (s : string) : lower s = "" -> s = "".
Proof.
  destruct s as [|a s]; [reflexivity|]. intros H. exfalso.
  unfold lower, decode in H. cbn [String.length decode_from] in H.
  destruct (head_cons a s) as [c [rest Hhead]]. rewrite Hhead in H.
  destruct (lower_from_cons [] c (decode_from (String.length s) rest))
    as [x [l Hl]].
  rewrite Hl in H. cbn [encode] in H.
  destruct (encode_cp_cons x) as [b [t Hx]]. rewrite Hx in H. discriminate.
Qed.

Lemma lower_of_ascii_char (a : ascii) :
  N.ltb (byte a) 128 = true ->
  N.eqb (byte a) 931 = false /\
  exists x, to_lower (byte a) = [x] /\
            encode_cp x = String (lower_char a) EmptyString.
Proof.
  destruct a as [[] [] [] [] [] [] [] []]; intros H;
    try (vm_compute in H; discriminate H);
    (split; [reflexivity | eexists; split; reflexivity]).
Qed.

(** On ASCII text [lower] is the lower case of each character. *)
Lemma lower_ascii_only (s : string) :
  ascii_only s = true -> lower s = lower_ascii s.
Proof.
  unfold lower, decode. generalize (@nil N) as before.
  induction s as [|a s IH]; intros before Hs; [reflexivity|].
  cbn [ascii_only] in Hs. apply andb_true_iff in Hs as [Ha Hs].
  cbn [String.length decode_from head]. fold (byte a). rewrite Ha.
  cbn [lower_from].
  destruct (lower_of_ascii_char a Ha) as [-> [x [-> Hx]]].
  cbn [app encode]. rewrite Hx. cbn [append].
  now rewrite IH.
Qed.

Lemma contains_lower_ascii (needle hay : string) :
  ascii_only hay = true ->
  contains needle hay = true ->
  contains (lower needle) (lower hay) = true.
Proof.
  intros Hascii Hin. apply contains_spec in Hin as [p [q ->]].
  pose proof Hascii as Hparts.
  rewrite !ascii_only_append in Hparts.
  apply andb_true_iff in Hparts as [_ Hparts].
  apply andb_true_iff in Hparts as [Hneedle _].
  rewrite (lower_ascii_only _ Hascii), (lower_ascii_only _ Hneedle).
  rewrite !lower_ascii_append. apply contains_spec. now eexists _, _.
Qed.

End StringFacts.

(** ** Dictionaries *)

Section DictFacts.

Context {V : Type}.
Implicit Types (d : dict V) (k : string) (v : V).

Lemma keys_dict_set k v d :
  keys (dict_set k v d) = if in_dec string_dec k (keys d) then keys d
                          else (keys d ++ [k])%list.
Proof.
  induction d as [|[k' v'] d IH]; simpl; [reflexivity|].
  destruct (String.eqb_spec k k') as [->|Hne]; simpl.
  - destruct (string_dec k' k'); [|congruence].
    destruct (in_dec string_dec k' (keys d)); reflexivity.
  - unfold keys in *. rewrite IH.
    destruct (string_dec k' k); [congruence|].
    destruct (in_dec string_dec k (map fst d)); reflexivity.
Qed.

Lemma dict_set_fresh k v d :
  ~ In k (keys d) -> dict_set k v d = (d ++ [(k, v)])%list.
Proof.
  induction d as [|[k' v'] d IH]; simpl; intros Hk; [reflexivity|].
  destruct (String.eqb_spec k k') as [->|Hne]; [tauto|].
  rewrite IH; [reflexivity | tauto].
Qed.

Lemma in_dict_set k v d k' v' :
  NoDup (keys d) ->
  In (k', v') (dict_set k v d) <->
  (k' = k /\ v' = v) \/ (k' <> k /\ In (k', v') d).
Proof.
  induction d as [|[k0 v0] d IH]; simpl; intros Hnd.
  - split.
    + intros [[= <- <-]|[]]. now left.
    + intros [[-> ->]|[_ []]]. now left.
  - inversion Hnd as [|? ? Hnotin Hnd']; subst.
    destruct (String.eqb_spec k k0) as [->|Hne]; simpl.
    + split.
      * intros [[= <- <-]|Hin]; [now left|].
        right. split; [|now right].
        intros ->. apply Hnotin. now apply (in_map fst) in Hin.
      * intros [[-> ->]|[Hne [[= <- <-]|Hin]]]; [now left | congruence | now right].
    + rewrite IH by assumption. split.
      * intros [[= <- <-]|[[-> ->]|[Hne' Hin]]].
        -- right. split; [congruence | now left].
        -- now left.
        -- right. split; [assumption | now right].
      * intros [[-> ->]|[Hne' [[= <- <-]|Hin]]].
        -- right. now left.
        -- now left.
        -- right. right. now split.
Qed.

Lemma NoDup_keys_dict_set k v d : NoDup (keys d) -> NoDup (keys (dict_set k v d)).
Proof.
  intros Hnd. rewrite keys_dict_set.
  destruct (in_dec string_dec k (keys d)) as [Hin|Hnotin]; [assumption|].
  apply NoDup_app; [assumption | repeat constructor; intros [] | ].
  intros x Hx [<-|[]]. contradiction.
Qed.

Lemma dict_get_in k v d :
  NoDup (keys d) -> (dict_get k d = Some v <-> In (k, v) d).
Proof.
  induction d as [|[k0 v0] d IH]; simpl; intros Hnd.
  - split; [discriminate | intros []].
  - inversion Hnd as [|? ? Hnotin Hnd']; subst.
    destruct (String.eqb_spec k k0) as [->|Hne].
    + split.
      * intros [= ->]. now left.
      * intros [[= ->]|Hin]; [reflexivity|].
        exfalso. apply Hnotin. now apply (in_map fst) in Hin.
    + rewrite IH by assumption. split.
      * intros Hin. now right.
      * intros [[= -> ->]|Hin]; [congruence | assumption].
Qed.

End DictFacts.

(** A comprehension whose value depends only on the key: the entries are the
    keys met, each once, with their values. *)
Lemma dict_comp_keyed {V : Type} (val : string -> V) (xs : list string) :
  NoDup (keys (dict_comp (fun x => x) val xs)) /\
  forall k v, In (k, v) (dict_comp (fun x => x) val xs) <->
              In k xs /\ v = val k.
Proof.
  unfold dict_comp. induction xs as [|x xs IH] using rev_ind; simpl.
  - split; [constructor | intros k v; tauto].
  - rewrite fold_left_app; simpl. destruct IH as [Hnd Hin]. split.
    + now apply NoDup_keys_dict_set.
    + intros k v. rewrite in_dict_set by assumption. rewrite Hin, in_app_iff.
      simpl. split.
      * intros [[-> ->]|[Hne [Hk ->]]]; [split; [right; now left | reflexivity]|].
        split; [now left | reflexivity].
      * intros [[Hk|[->|[]]] ->].
        -- destruct (string_dec k x) as [->|Hne]; [now left | right; tauto].
        -- now left.
Qed.

(** A comprehension over entries with distinct keys keeps their order. *)
Lemma dict_comp_distinct {X V : Type} (key : X -> string) (val : X -> V)
    (xs : list X) :
  NoDup (map key xs) ->
  dict_comp key val xs = map (fun x => (key x, val x)) xs.
Proof.
  unfold dict_comp.
  enough (H : forall acc : dict V,
             NoDup (keys acc ++ map key xs) ->
             fold_left (fun d x => dict_set (key x) (val x) d) xs acc
             = (acc ++ map (fun x => (key x, val x)) xs)%list)
    by (intros Hnd; apply (H []); exact Hnd).
  induction xs as [|x xs IH]; simpl; intros acc Hnd.
  - now rewrite app_nil_r.
  - rewrite dict_set_fresh.
    + rewrite IH.
      * now rewrite <- app_assoc.
      * unfold keys. rewrite map_app, <- app_assoc. exact Hnd.
    + apply NoDup_remove_2 in Hnd. intros Hin. apply Hnd.
      apply in_or_app. now left.
Qed.

(** ** What [validate_section] computes *)

Section ValidateFacts.

Variable section : string.
Variable criteria : list string.

Let occurs (criterion : string) : bool :=
  contains (lower criterion) (lower section).

Let status (present : bool) : string :=
  if present then "Present" else "Missing".

Lemma feedback_entries :
  NoDup (keys (feedback (validate_section section criteria))) /\
  forall k v, In (k, v) (feedback (validate_section section criteria)) <->
              In k criteria /\ v = status (occurs k).
Proof.
  destruct (dict_comp_keyed occurs criteria) as [Hnd Hin].
  unfold validate_section; cbn [feedback]. unfold items.
  rewrite dict_comp_distinct by exact Hnd. split.
  - unfold keys. rewrite map_map. simpl. exact Hnd.
  - intros k v. rewrite in_map_iff. split.
    + intros [[k' b] [[= <- <-] Hkb]]. apply Hin in Hkb as [Hk ->]. now split.
    + intros [Hk ->]. exists (k, occurs k). split; [reflexivity|].
      apply Hin. now split.
Qed.

Lemma feedback_get (c : string) :
  In c criteria ->
  dict_get c (feedback (validate_section section criteria))
  = Some (status (occurs c)).
Proof.
  intros Hc. destruct feedback_entries as [Hnd Hin].
  apply dict_get_in; [exact Hnd|]. apply Hin. now split.
Qed.

Lemma is_valid_true :
  is_valid (validate_section section criteria) = true <->
  forall c, In c criteria -> occurs c = true.
Proof.
  destruct (dict_comp_keyed occurs criteria) as [_ Hin].
  unfold validate_section; cbn [is_valid]. unfold all, values.
  rewrite forallb_forall. split.
  - intros H c Hc. apply (H (occurs c)).
    apply in_map_iff. exists (c, occurs c). split; [reflexivity|].
    apply Hin. now split.
  - intros H b Hb. apply in_map_iff in Hb as [[k b'] [<- Hkb]].
    apply Hin in Hkb as [Hk ->]. now apply H.
Qed.

Lemma is_valid_false (c : string) :
  In c criteria -> occurs c = false ->
  is_valid (validate_section section criteria) = false.
Proof.
  intros Hc Hocc.
  destruct (is_valid (validate_section section criteria)) eqn:E; [|reflexivity].
  rewrite (proj1 is_valid_true E c Hc) in Hocc. discriminate.
Qed.

Lemma missing_criteria_in (k : string) :
  In k (missing_criteria (validate_section section criteria)) <->
  In k criteria /\ occurs k = false.
Proof.
  destruct feedback_entries as [_ Hin].
  unfold missing_criteria, items. rewrite in_map_iff. split.
  - intros [[k' v] [<- Hf]]. apply filter_In in Hf as [Hkv Hm].
    apply Hin in Hkv as [Hk ->]. cbn [fst snd] in *. split; [exact Hk|].
    unfold status in Hm. destruct (occurs k'); [discriminate | reflexivity].
  - intros [Hk Hocc]. exists (k, "Missing"). split; [reflexivity|].
    apply filter_In. split; [|reflexivity].
    apply Hin. split; [exact Hk|]. unfold status. now rewrite Hocc.
Qed.


End ValidateFacts.


Lemma contains_app_l (needle hay post : string) :
  contains needle hay = true -> contains needle (hay ++ post) = true.
Proof.
  rewrite !contains_spec. intros [p [q ->]].
  exists p, (q ++ post). now rewrite !append_assoc.
Qed.

Lemma contains_join (sep k : string) (parts : list string) :
  In k parts -> contains k (join sep parts) = true.
Proof.
  unfold join. induction parts as [|x [|y parts] IH]; intros Hin.
  - destruct Hin.
  - destruct Hin as [->|[]]. apply contains_refl.
  - change (String.concat sep (x :: y :: parts))
      with (x ++ sep ++ String.concat sep (y :: parts)).
    destruct Hin as [->|Hin].
    + apply contains_here.
    + apply contains_skip, contains_skip. now apply IH.
Qed.

(** The text of the corrective prompt when the validation failed. *)
Lemma create_feedback_prompt_invalid (section_name : string)
    (vr : validation_result) (current_section : string) :
  is_valid vr = false ->
  create_feedback_prompt section_name vr current_section
  = nl ++ "The current " ++ section_name ++ " section needs improvement:" ++ nl
       ++ "Missing criteria: " ++ join ", " (missing_criteria vr) ++ nl
       ++ nl
       ++ "Current section:" ++ nl
       ++ current_section ++ nl
       ++ nl
       ++ "Please revise the " ++ section_name
       ++ " section to address these missing points. " ++ nl
       ++ "Provide only the revised section without any explanations." ++ nl.
Proof. unfold create_feedback_prompt. now intros ->. Qed.

Lemma create_feedback_prompt_valid (section_name : string)
    (vr : validation_result) (current_section : string) :
  is_valid vr = true ->
  create_feedback_prompt section_name vr current_section = meets_all_criteria.
Proof. unfold create_feedback_prompt. now intros ->. Qed.

Ltac find_in_prompt :=
  repeat first
    [ apply contains_here
    | apply contains_app_l; apply contains_join; assumption
    | apply contains_skip ].



(** C3 does not hold as worded.  In the text "ΑΣΑ" (U+0391 U+03A3 U+0391)
    each of the phrases "ΑΣ", "Α" and "Σ" occurs as it stands.  But the
    lower case of "ΑΣ" is "ας", with the final sigma U+03C2, and the lower
    case of the text is "ασα", with U+03C3: the phrase is marked "Missing"
    and the text is not valid. *)
Lemma phrase_in_text_can_be_missing :
  (contains "ΑΣ" "ΑΣΑ" = true /\
   contains "Α" "ΑΣΑ" = true /\
   contains "Σ" "ΑΣΑ" = true) /\
  decode "ΑΣΑ" = [0x391; 0x3A3; 0x391]%N /\
  decode (lower "ΑΣ") = [0x3B1; 0x3C2]%N /\
  decode (lower "ΑΣΑ") = [0x3B1; 0x3C3; 0x3B1]%N /\
  is_valid (validate_section "ΑΣΑ" ["ΑΣ"; "Α"; "Σ"]) = false /\
  feedback (validate_section "ΑΣΑ" ["ΑΣ"; "Α"; "Σ"])
  = [("ΑΣ", "Missing"); ("Α", "Present"); ("Σ", "Present")].
Proof. vm_compute. repeat split. Qed.



(** C4 does not hold as worded.  Of the phrases "ΑΣ", "business concept"
    and "zzz" exactly one, "zzz", does not occur in the text
    "ΑΣΑ business concept"; the other two occur as they stand.  The code
    marks two phrases "Missing": "zzz" and, for its final sigma, "ΑΣ". *)
Lemma one_absent_phrase_two_missing :
  (contains "ΑΣ" "ΑΣΑ business concept" = true /\
   contains "business concept" "ΑΣΑ business concept" = true /\
   contains "zzz" "ΑΣΑ business concept" = false) /\
  is_valid (validate_section "ΑΣΑ business concept"
              ["ΑΣ"; "business concept"; "zzz"]) = false /\
  feedback (validate_section "ΑΣΑ business concept"
              ["ΑΣ"; "business concept"; "zzz"])
  = [("ΑΣ", "Missing"); ("business concept", "Present");
     ("zzz", "Missing")] /\
  missing_criteria (validate_section "ΑΣΑ business concept"
                      ["ΑΣ"; "business concept"; "zzz"])
  = ["ΑΣ"; "zzz"].
Proof. vm_compute. repeat split. Qed.

(** The lower case is Python's: the Kelvin sign U+212A is a "k", so the
    phrase "marketing strategy" is present in a text that spells it with
    that sign. *)
Example kelvin_sign_is_a_k :
  is_valid (validate_section
              (encode [0x6D; 0x61; 0x72; 0x212A; 0x65; 0x74; 0x69; 0x6E;
                       0x67; 0x20; 0x73; 0x74; 0x72; 0x61; 0x74; 0x65;
                       0x67; 0x79]%N)
              ["marketing strategy"]) = true.
Proof. vm_compute. reflexivity. Qed.

(** C5.  For a validation result of [validate_section] whose missing
    criteria are exactly X and Y, the prompt that [create_feedback_prompt]
    builds contains X, contains Y and contains the current text T
    unchanged. *)
Theorem create_feedback_prompt_mentions (section_name T : string)
    (section : string) (criteria : list string) (X Y : string) :
  (forall k, In k (missing_criteria (validate_section section criteria))
             <-> k = X \/ k = Y) ->
  contains X (create_feedback_prompt section_name
                (validate_section section criteria) T) = true /\
  contains Y (create_feedback_prompt section_name
                (validate_section section criteria) T) = true /\
  contains T (create_feedback_prompt section_name
                (validate_section section criteria) T) = true.
Proof.
  intros Hmissing.
  assert (HX : In X (missing_criteria (validate_section section criteria)))
    by (apply Hmissing; now left).
  assert (HY : In Y (missing_criteria (validate_section section criteria)))
    by (apply Hmissing; now right).
  assert (Hinvalid : is_valid (validate_section section criteria) = false).
  { apply missing_criteria_in in HX as [HX Hocc].
    now apply (is_valid_false _ _ X). }
  rewrite create_feedback_prompt_invalid by exact Hinvalid.
  repeat split; find_in_prompt.
Qed.

Lemma create_feedback_prompt_mentions_witness :
  let T := "We sell tea; our business concept is simple." in
  let criteria :=
    ["business concept"; "financial features"; "financial requirements"] in
  let p := create_feedback_prompt "Executive Summary"
             (validate_section T criteria) T in
  contains "financial features" p = true /\
  contains "financial requirements" p = true /\
  contains T p = true.
Proof.
  intros T criteria p.
  apply (create_feedback_prompt_mentions "Executive Summary" T T criteria
           "financial features" "financial requirements").
  intros k. change (missing_criteria (validate_section T criteria))
    with ["financial features"; "financial requirements"].
  simpl. intuition congruence.
Defined.

(** ** Runs of the generation step and of the retry loop *)

Lemma generated_app (a b : list event) :
  generated (a ++ b) = (generated a ++ generated b)%list.
Proof.
  induction a as [|[] a IH]; simpl; congruence.
Qed.

Lemma prompts_app (a b : list event) :
  prompts (a ++ b) = (prompts a ++ prompts b)%list.
Proof.
  induction a as [|[] a IH]; simpl; congruence.
Qed.

Lemma generated_error_events (r : reply) : generated (error_events r) = [].
Proof. now destruct r. Qed.

Lemma prompts_error_events (r : reply) : prompts (error_events r) = [].
Proof. now destruct r. Qed.

Lemma length_generated (tr : list event) :
  List.length (generated tr) = llm_calls tr.
Proof.
  unfold llm_calls. induction tr as [|[] tr IH]; simpl; congruence.
Qed.

Section RunFacts.

Variable St : Type.
Variable chat : St -> string -> string -> reply * St.
Variable api_key : string.

Lemma get_section_from_llm_run (prompt : string) (s : St) :
  get_section_from_llm chat api_key prompt s
  = mk_outcome (inr (text_of_reply (fst (chat s api_key prompt))))
               (snd (chat s api_key prompt))
               (LlmCall api_key prompt (fst (chat s api_key prompt))
                  :: error_events (fst (chat s api_key prompt))).
Proof.
  unfold get_section_from_llm, try_except, bind, create_content, emit, ret.
  destruct (chat s api_key prompt) as [[text|e] s']; reflexivity.
Qed.

Variable section_name : string.
Variable criteria : list string.

Lemma improve_exhausted (cur : string) (s : St) :
  improve chat api_key section_name criteria [] cur s
  = mk_outcome (inr cur) s [warning section_name].
Proof. reflexivity. Qed.

Lemma improve_break (j : nat) (js : list nat) (cur : string) (s : St) :
  is_valid (validate_section cur criteria) = true ->
  improve chat api_key section_name criteria (j :: js) cur s
  = mk_outcome (inr cur) s
      [StatusText (section_name ++ " meets all criteria!")].
Proof. intros Hv. cbn [improve]. now rewrite Hv. Qed.

Lemma improve_retry (j : nat) (js : list nat) (cur : string) (s : St) :
  is_valid (validate_section cur criteria) = false ->
  let p := create_feedback_prompt section_name
             (validate_section cur criteria) cur in
  let r := fst (chat s api_key p) in
  let o := improve chat api_key section_name criteria js (text_of_reply r)
             (snd (chat s api_key p)) in
  improve chat api_key section_name criteria (j :: js) cur s
  = mk_outcome (result o) (state o)
      (StatusText ("Improving " ++ section_name ++ " (Iteration "
                     ++ str_of_nat (j + 1) ++ "/" ++ str_of_nat max_iterations
                     ++ ")...")
         :: LlmCall api_key p r :: error_events r ++ output o)%list.
Proof.
  intros Hv p r o. cbn [improve]. rewrite Hv.
  unfold bind. rewrite get_section_from_llm_run.
  cbn [emit result state output app]. reflexivity.
Qed.

End RunFacts.

Lemma last_cons_default {X : Type} (a d : X) (l : list X) :
  last (a :: l) d = last l a.
Proof.
  revert a d; induction l as [|b l IH]; intros a d; [reflexivity|].
  change (last (a :: b :: l) d) with (last (b :: l) d).
  now rewrite (IH b d), (IH b a).
Qed.

Ltac by_iterations criteria js cur s IH Hv :=
  revert cur s; induction js as [|? js IH]; intros cur s;
  [ rewrite improve_exhausted
  | destruct (is_valid (validate_section cur criteria)) eqn:Hv;
    [ rewrite improve_break by exact Hv
    | rewrite improve_retry by exact Hv ] ];
  unfold llm_calls, warning;
  cbn [result state output generated prompts List.length];
  rewrite ?generated_app, ?prompts_app, ?generated_error_events,
    ?prompts_error_events;
  cbn [app].

Section LoopFacts.

Variable St : Type.
Variable chat : St -> string -> string -> reply * St.
Variable api_key : string.
Variable section_name : string.
Variable criteria : list string.

Abbreviation improve_run := (improve chat api_key section_name criteria).

Lemma improve_result (js : list nat) (cur : string) (s : St) :
  result (improve_run js cur s)
  = inr (last (generated (output (improve_run js cur s))) cur).
Proof.
  by_iterations criteria js cur s IH Hv; try reflexivity.
  rewrite IH. now rewrite last_cons_default.
Qed.

Lemma improve_calls_le (js : list nat) (cur : string) (s : St) :
  llm_calls (output (improve_run js cur s)) <= List.length js.
Proof.
  by_iterations criteria js cur s IH Hv; try lia.
  specialize (IH (text_of_reply
    (fst (chat s api_key (create_feedback_prompt section_name
                            (validate_section cur criteria) cur))))
    (snd (chat s api_key (create_feedback_prompt section_name
                            (validate_section cur criteria) cur)))).
  unfold llm_calls in IH. lia.
Qed.

Lemma improve_earlier_invalid (js : list nat) (cur : string) (s : St) :
  Forall (invalid criteria)
    (removelast (cur :: generated (output (improve_run js cur s)))).
Proof.
  by_iterations criteria js cur s IH Hv; try constructor.
  - exact Hv.
  - apply IH.
Qed.

Lemma improve_early_stop (js : list nat) (cur : string) (s : St) :
  llm_calls (output (improve_run js cur s)) < List.length js ->
  is_valid (validate_section
              (last (generated (output (improve_run js cur s))) cur)
              criteria) = true.
Proof.
  by_iterations criteria js cur s IH Hv; intros Hlt.
  - lia.
  - exact Hv.
  - rewrite last_cons_default. apply IH. unfold llm_calls. lia.
Qed.

Lemma improve_exhausted_warning (js : list nat) (cur : string) (s : St) :
  llm_calls (output (improve_run js cur s)) = List.length js ->
  exists tr, output (improve_run js cur s)
             = (tr ++ [warning section_name])%list.
Proof.
  by_iterations criteria js cur s IH Hv; intros Hlen.
  - now exists [].
  - discriminate.
  - destruct (IH _ _ (eq_add_S _ _ Hlen)) as [tr ->].
    eexists (_ :: _ :: _ ++ tr)%list. cbn [app]. now rewrite app_assoc.
Qed.

Lemma improve_prompts (js : list nat) (cur : string) (s : St) :
  Forall (corrective section_name criteria)
    (prompts (output (improve_run js cur s))).
Proof.
  by_iterations criteria js cur s IH Hv; try constructor.
  - now exists cur.
  - apply IH.
Qed.

(** *** One section *)

Variable total_sections i : nat.

Abbreviation draft_run := (draft_section chat api_key total_sections i
                         section_name criteria).

Abbreviation first_reply s :=
  (fst (chat s api_key (initial_prompt section_name criteria))).

Lemma draft_section_run (s : St) :
  draft_run s
  = let s1 := snd (chat s api_key (initial_prompt section_name criteria)) in
    let o := improve_run (seq 0 max_iterations)
               (text_of_reply (first_reply s)) s1 in
    mk_outcome (result o) (state o)
      (StatusText ("Generating " ++ section_name ++ "...")
         :: Progress (i + 1) total_sections
         :: LlmCall api_key (initial_prompt section_name criteria)
              (first_reply s)
         :: error_events (first_reply s) ++ output o)%list.
Proof.
  unfold draft_section, bind. rewrite get_section_from_llm_run.
  cbn [emit result state output app]. reflexivity.
Qed.

Ltac from_first_call :=
  rewrite draft_section_run; unfold llm_calls;
  cbn [result state output generated prompts List.length];
  rewrite ?generated_app, ?prompts_app, ?generated_error_events,
    ?prompts_error_events;
  cbn [app].

Lemma draft_result (s : St) :
  result (draft_run s) = inr (last (generated (output (draft_run s))) "").
Proof.
  from_first_call. rewrite improve_result. now rewrite last_cons_default.
Qed.

Lemma draft_calls (s : St) :
  1 <= llm_calls (output (draft_run s)) <= 4.
Proof.
  from_first_call.
  pose proof (improve_calls_le (seq 0 max_iterations)
                (text_of_reply (first_reply s))
                (snd (chat s api_key (initial_prompt section_name criteria))))
    as Hle.
  unfold llm_calls in Hle. rewrite length_seq in Hle.
  unfold max_iterations in *. lia.
Qed.

Lemma draft_first_text (s : St) :
  hd_error (generated (output (draft_run s)))
  = Some (text_of_reply (first_reply s)).
Proof. now from_first_call. Qed.

Lemma draft_first_prompt (s : St) :
  hd_error (prompts (output (draft_run s)))
  = Some (initial_prompt section_name criteria).
Proof. now from_first_call. Qed.

Lemma draft_earlier_invalid (s : St) :
  Forall (invalid criteria) (removelast (generated (output (draft_run s)))).
Proof. from_first_call. apply improve_earlier_invalid. Qed.

Lemma draft_early_stop (s : St) :
  llm_calls (output (draft_run s)) < 4 ->
  is_valid (validate_section (last (generated (output (draft_run s))) "")
              criteria) = true.
Proof.
  from_first_call. intros Hlt. rewrite last_cons_default.
  apply improve_early_stop. unfold llm_calls. rewrite length_seq.
  unfold max_iterations in *. lia.
Qed.

Lemma draft_exhausted_warning (s : St) :
  llm_calls (output (draft_run s)) = 4 ->
  exists tr, output (draft_run s) = (tr ++ [warning section_name])%list.
Proof.
  from_first_call. intros Hlen.
  destruct (improve_exhausted_warning (seq 0 max_iterations)
              (text_of_reply (first_reply s))
              (snd (chat s api_key (initial_prompt section_name criteria))))
    as [tr Htr].
  - unfold llm_calls. rewrite length_seq. unfold max_iterations in *. lia.
  - rewrite Htr. eexists (_ :: _ :: _ :: _ ++ tr)%list. cbn [app].
    now rewrite app_assoc.
Qed.

Lemma draft_later_prompts (s : St) :
  Forall (corrective section_name criteria)
    (tl (prompts (output (draft_run s)))).
Proof. from_first_call. apply improve_prompts. Qed.

Lemma draft_first_valid (s : St) :
  is_valid (validate_section (text_of_reply (first_reply s)) criteria) = true ->
  llm_calls (output (draft_run s)) = 1 /\
  result (draft_run s) = inr (text_of_reply (first_reply s)).
Proof.
  intros Hv. rewrite draft_section_run. cbv zeta.
  unfold max_iterations. cbn [seq]. rewrite improve_break by exact Hv.
  unfold llm_calls. cbn [result output prompts].
  rewrite prompts_app, prompts_error_events. now split.
Qed.

End LoopFacts.

(** ** The loop over the sections *)

Lemma bind_returns {St A B : Type} (m : M St A) (f : A -> M St B) (s : St)
    (a : A) :
  result (m s) = inr a ->
  bind m f s
  = mk_outcome (result (f a (state (m s)))) (state (f a (state (m s))))
               (output (m s) ++ output (f a (state (m s))))%list.
Proof. unfold bind. now intros ->. Qed.

Lemma last_nth_3 {X : Type} (l : list X) (d : X) :
  List.length l = 4 -> last l d = nth 3 l d.
Proof.
  destruct l as [|a [|b [|c [|e [|f l]]]]]; try discriminate. reflexivity.
Qed.

Lemma last_in {X : Type} (l : list X) (d : X) : l <> [] -> In (last l d) l.
Proof.
  induction l as [|a [|b l] IH]; intros Hne; [congruence | now left |].
  right. apply IH. discriminate.
Qed.

Section PlanFacts.

Variable St : Type.
Variable chat : St -> string -> string -> reply * St.
Variable api_key : string.

Lemma improve_generated_from_service (section_name : string)
    (criteria : list string) (js : list nat) (cur : string) (s : St) :
  Forall (from_service chat api_key)
    (generated (output (improve chat api_key section_name criteria js cur s))).
Proof.
  by_iterations criteria js cur s IH Hv; constructor.
  - now eexists _, _.
  - apply IH.
Qed.

Lemma draft_generated_from_service (total_sections i : nat)
    (section_name : string) (criteria : list string) (s : St) :
  Forall (from_service chat api_key)
    (generated (output (draft_section chat api_key total_sections i
                          section_name criteria s))).
Proof.
  rewrite draft_section_run. cbn [output generated].
  rewrite generated_app, generated_error_events. constructor.
  - now eexists _, _.
  - apply improve_generated_from_service.
Qed.

Variable total_sections : nat.

Lemma keys_plan_of_runs todo s plan tr :
  plan_of_runs chat api_key total_sections todo s plan tr ->
  keys plan = names todo.
Proof. induction 1; simpl; congruence. Qed.

Lemma sections_loop_spec (todo : list (nat * (string * list string)))
    (acc : dict string) (s : St) :
  NoDup (keys acc ++ names todo) ->
  exists plan tr,
    result (sections_loop chat api_key total_sections todo acc s)
      = inr (acc ++ plan)%list /\
    output (sections_loop chat api_key total_sections todo acc s) = tr /\
    plan_of_runs chat api_key total_sections todo s plan tr.
Proof.
  revert acc s.
  induction todo as [|[i [section_name criteria]] todo IH]; intros acc s Hnd.
  - exists [], []. rewrite app_nil_r. repeat split; constructor.
  - cbn [sections_loop].
    rewrite (bind_returns _ _ _ _ (draft_result _ _ _ _ _ _ _ _)).
    cbn [result output].
    set (o := draft_section chat api_key total_sections i section_name
                criteria s).
    set (text := last (generated (output o)) "").
    assert (Hfresh : ~ In section_name (keys acc)).
    { apply NoDup_remove_2 in Hnd. intros Hin. apply Hnd.
      apply in_or_app. now left. }
    rewrite (dict_set_fresh _ _ _ Hfresh).
    destruct (IH (acc ++ [(section_name, text)])%list (state o))
      as [plan [tr [Hres [Hout Hruns]]]].
    { unfold keys. rewrite map_app, <- app_assoc. exact Hnd. }
    exists ((section_name, text) :: plan), (output o ++ tr)%list.
    rewrite Hres, Hout, <- app_assoc. repeat split.
    now constructor.
Qed.

End PlanFacts.

Lemma generate_business_plan_spec {St : Type}
    (chat : St -> string -> string -> reply * St) (api_key : string) (s : St) :
  exists plan,
    result (generate_business_plan chat api_key s) = inr plan /\
    plan_of_runs chat api_key (List.length sections)
      (enumerate_from 0 (items sections)) s plan
      (output (generate_business_plan chat api_key s)).
Proof.
  unfold generate_business_plan.
  destruct (sections_loop_spec St chat api_key (List.length sections)
              (enumerate_from 0 (items sections)) [] s)
    as [plan [tr [Hres [Hout Hruns]]]].
  - cbn. repeat constructor; cbn; intuition discriminate.
  - exists plan. rewrite Hout. now split.
Qed.

(** * The claims about the loop *)

Lemma In_firstn {X : Type} (n : nat) (l : list X) (x : X) :
  In x (firstn n l) -> In x l.
Proof.
  revert l; induction n as [|n IH]; intros [|a l]; simpl; try tauto.
  intros [->|Hin]; [now left | right; now apply IH].
Qed.

Lemma llm_calls_app (a b : list event) :
  llm_calls (a ++ b) = llm_calls a + llm_calls b.
Proof. unfold llm_calls. now rewrite prompts_app, length_app. Qed.

Section LoopClaims.

Variable St : Type.
Variable chat : St -> string -> string -> reply * St.
Variable api_key : string.
Variable total_sections i : nat.
Variable section_name : string.
Variable criteria : list string.

Abbreviation run := (draft_section chat api_key total_sections i
                       section_name criteria).

(** When the first three texts of a section all fail the validation, the
    run makes its four calls and ends on the warning, with the fourth text as
    its result. *)
Lemma draft_ceiling (s : St) :
  Forall (invalid criteria) (firstn 3 (generated (output (run s)))) ->
  llm_calls (output (run s)) = 4 /\
  result (run s) = inr (nth 3 (generated (output (run s))) "") /\
  exists tr, output (run s) = (tr ++ [warning section_name])%list.
Proof.
  intros Hfirst.
  pose proof (draft_calls St chat api_key section_name criteria
                total_sections i s) as Hcalls.
  pose proof (length_generated (output (run s))) as Hlen.
  assert (Hfour : llm_calls (output (run s)) = 4).
  { destruct (Nat.eq_dec (llm_calls (output (run s))) 4) as [E|Hne];
      [exact E | exfalso].
    assert (Hlt : llm_calls (output (run s)) < 4)
      by (revert Hcalls Hne; generalize (llm_calls (output (run s))); lia).
    pose proof (draft_early_stop St chat api_key section_name criteria
                  total_sections i s Hlt) as Hvalid.
    rewrite firstn_all2 in Hfirst
      by (rewrite Hlen; apply Nat.lt_succ_r; exact Hlt).
    rewrite Forall_forall in Hfirst.
    specialize (Hfirst (last (generated (output (run s))) "")).
    unfold invalid in Hfirst. rewrite Hfirst in Hvalid; [discriminate|].
    apply last_in. intros Hnil.
    rewrite Hnil in Hlen. cbn [List.length] in Hlen. rewrite <- Hlen in Hcalls.
    destruct Hcalls as [Hcalls _]. inversion Hcalls. }
  split; [exact Hfour|]. split.
  - rewrite draft_result. f_equal. apply last_nth_3.
    now rewrite length_generated.
  - now apply draft_exhausted_warning.
Qed.

(** C1.  A section's run calls the generation step at least once and at most
    4 times and returns the last text generated; every text before the last
    one failed the validation, and a run of fewer than 4 calls ended on a
    text that passed it: the loop stops at the first valid text.  When the
    first text contains every criterion phrase, compared in lower case, the
    run makes exactly one call and returns that text. *)
Theorem generation_stops_at_first_valid (s : St) :
  let texts := generated (output (run s)) in
  let first := text_of_reply
                 (fst (chat s api_key
                         (initial_prompt section_name criteria))) in
  1 <= llm_calls (output (run s)) <= 4 /\
  List.length texts = llm_calls (output (run s)) /\
  hd_error texts = Some first /\
  result (run s) = inr (last texts "") /\
  Forall (invalid criteria) (removelast texts) /\
  (llm_calls (output (run s)) < 4 ->
     is_valid (validate_section (last texts "") criteria) = true) /\
  ((forall c, In c criteria -> contains (lower c) (lower first) = true) ->
     llm_calls (output (run s)) = 1 /\ result (run s) = inr first).
Proof.
  intros texts first. repeat apply conj.
  - apply draft_calls.
  - apply draft_calls.
  - apply length_generated.
  - apply draft_first_text.
  - apply draft_result.
  - apply draft_earlier_invalid.
  - apply draft_early_stop.
  - intros Hall. apply draft_first_valid. now apply is_valid_true.
Qed.

(** C6.  With a service whose texts never pass the validation, and already
    when the first three texts of the section fail it, the run makes exactly
    4 calls, returns the text of the 4th call without raising, and ends on
    the warning: the 4th text is returned whether or not it would pass. *)
Theorem retry_ceiling_keeps_fourth_text (s : St) :
  ((forall s' prompt,
      invalid criteria (text_of_reply (fst (chat s' api_key prompt)))) ->
   llm_calls (output (run s)) = 4 /\
   result (run s) = inr (nth 3 (generated (output (run s))) "")) /\
  (Forall (invalid criteria) (firstn 3 (generated (output (run s)))) ->
   llm_calls (output (run s)) = 4 /\
   result (run s) = inr (nth 3 (generated (output (run s))) "") /\
   exists tr, output (run s) = (tr ++ [warning section_name])%list).
Proof.
  split; [|apply draft_ceiling].
  intros Hnever.
  destruct (draft_ceiling s) as [Hfour [Hres _]]; [|now split].
  apply Forall_forall. intros t Ht. apply In_firstn in Ht.
  pose proof (draft_generated_from_service St chat api_key total_sections i
                section_name criteria s) as Hsvc.
  rewrite Forall_forall in Hsvc.
  destruct (Hsvc t Ht) as [s' [prompt ->]]. apply Hnever.
Qed.

End LoopClaims.

(** C8.  The first prompt a section's run sends to the service is
    "Write a {section} section for a business plan. Include information
    about: {criteria}." where the criterion phrases are joined by a comma
    and a space. *)
Theorem initial_prompt_is_sent_first {St : Type}
    (chat : St -> string -> string -> reply * St) (api_key : string)
    (total_sections i : nat) (section_name : string) (s : St) :
  (forall criteria,
     hd_error (prompts (output (draft_section chat api_key total_sections i
                                  section_name criteria s)))
     = Some ("Write a " ++ section_name
               ++ " section for a business plan. Include information about: "
               ++ join ", " criteria ++ ".")) /\
  (forall c1 c2 c3,
     hd_error (prompts (output (draft_section chat api_key total_sections i
                                  section_name [c1; c2; c3] s)))
     = Some ("Write a " ++ section_name
               ++ " section for a business plan. Include information about: "
               ++ c1 ++ ", " ++ c2 ++ ", " ++ c3 ++ ".")).
Proof.
  split.
  - intros criteria. apply draft_first_prompt.
  - intros c1 c2 c3. rewrite draft_first_prompt.
    unfold initial_prompt, join. cbn [String.concat].
    now rewrite !append_assoc.
Qed.

(** C2.  Whatever the service does, [generate_business_plan] returns a plan
    whose keys are the 8 section names in their fixed order, each mapped to
    the last text generated during that section's run. *)
Theorem plan_has_the_eight_sections {St : Type}
    (chat : St -> string -> string -> reply * St) (api_key : string) (s : St) :
  exists plan,
    result (generate_business_plan chat api_key s) = inr plan /\
    keys plan
    = ["Executive Summary"; "Company Description"; "Market Analysis";
       "Organization & Management"; "Product Line"; "Marketing & Sales";
       "Funding Request"; "Financial Projections"] /\
    plan_of_runs chat api_key 8 (enumerate_from 0 (items sections)) s plan
      (output (generate_business_plan chat api_key s)).
Proof.
  destruct (generate_business_plan_spec chat api_key s) as [plan [Hres Hruns]].
  exists plan. split; [exact Hres|]. split; [|exact Hruns].
  now rewrite (keys_plan_of_runs _ _ _ _ _ _ _ _ Hruns).
Qed.

(** C7.  [get_section_from_llm] never raises.  When the service call raises
    an exception [e], it shows "Error calling OpenAI API: {e}" through
    [st.error] and returns the empty string; the section's run then goes on
    with the corrective prompt for the empty text, and neither the section's
    run nor [generate_business_plan] raises. *)
Theorem service_errors_are_caught {St : Type}
    (chat : St -> string -> string -> reply * St) (api_key : string) (s : St) :
  (forall prompt,
     exists text,
       result (get_section_from_llm chat api_key prompt s) = inr text) /\
  (forall prompt e,
     fst (chat s api_key prompt) = Raises e ->
     get_section_from_llm chat api_key prompt s
     = mk_outcome (inr "") (snd (chat s api_key prompt))
         [LlmCall api_key prompt (Raises e);
          StError ("Error calling OpenAI API: " ++ str_exn e)]) /\
  (forall total_sections i section_name criteria e,
     fst (chat s api_key (initial_prompt section_name criteria)) = Raises e ->
     is_valid (validate_section "" criteria) = false ->
     nth_error (prompts (output (draft_section chat api_key total_sections i
                                   section_name criteria s))) 1
     = Some (create_feedback_prompt section_name
               (validate_section "" criteria) "")) /\
  (forall total_sections i section_name criteria,
     exists text,
       result (draft_section chat api_key total_sections i section_name
                 criteria s) = inr text) /\
  (exists plan, result (generate_business_plan chat api_key s) = inr plan).
Proof.
  repeat apply conj.
  - intros prompt. rewrite get_section_from_llm_run. now eexists.
  - intros prompt e He. rewrite get_section_from_llm_run, He. reflexivity.
  - intros total_sections i section_name criteria e He Hinvalid.
    rewrite draft_section_run. cbv zeta. rewrite He.
    cbn [text_of_reply]. unfold max_iterations. cbn [seq].
    rewrite improve_retry by exact Hinvalid.
    cbn [output error_events app prompts nth_error]. reflexivity.
  - intros total_sections i section_name criteria.
    rewrite draft_result. now eexists.
  - destruct (generate_business_plan_spec chat api_key s) as [plan [Hres _]].
    now exists plan.
Qed.

(** ** The branch for a valid result *)

Lemma valid_text_not_in_sentence (section_name T c : string)
    (criteria : list string) :
  is_valid (validate_section T criteria) = true ->
  In c criteria ->
  contains (lower c) (lower meets_all_criteria) = false ->
  contains T (create_feedback_prompt section_name
                (validate_section T criteria) T) = false.
Proof.
  intros Hvalid Hc Hnot.
  rewrite create_feedback_prompt_valid by exact Hvalid.
  destruct (contains T meets_all_criteria) eqn:E; [|reflexivity].
  apply contains_lower_ascii in E; [|reflexivity].
  pose proof (proj1 (is_valid_true T criteria) Hvalid c Hc) as Hocc.
  rewrite (contains_trans _ _ _ Hocc E) in Hnot. discriminate.
Qed.

Lemma corrective_is_not_the_sentence (section_name : string)
    (criteria : list string) (prompt : string) :
  corrective section_name criteria prompt -> prompt <> meets_all_criteria.
Proof.
  intros [text [Hinvalid ->]].
  rewrite create_feedback_prompt_invalid by exact Hinvalid.
  discriminate.
Qed.

(** C9, as the code has it.  Given a validation result with
    [is_valid = true], [create_feedback_prompt] returns the fixed sentence
    "The section meets all criteria." whatever the current text is, so the
    returned string contains the current text only when that text is a
    substring of the sentence; it does not when the result validates the
    text against criteria with a phrase that does not occur in the sentence,
    as for each of the eight sections.  The loop never reaches this branch:
    the prompts of a section's run are the initial prompt followed by
    corrective prompts for texts that failed the validation, and none is the
    fixed sentence. *)
Theorem create_feedback_prompt_when_valid {St : Type}
    (chat : St -> string -> string -> reply * St) (api_key : string)
    (total_sections i : nat) (section_name : string) (criteria : list string)
    (s : St) :
  (forall vr T,
     is_valid vr = true ->
     create_feedback_prompt section_name vr T
     = "The section meets all criteria.") /\
  (forall vr T,
     is_valid vr = true ->
     contains T (create_feedback_prompt section_name vr T)
     = contains T "The section meets all criteria.") /\
  (forall T c,
     is_valid (validate_section T criteria) = true ->
     In c criteria ->
     contains (lower c) (lower "The section meets all criteria.") = false ->
     contains T (create_feedback_prompt section_name
                   (validate_section T criteria) T) = false) /\
  (forall name phrases T,
     In (name, phrases) (items sections) ->
     is_valid (validate_section T phrases) = true ->
     contains T (create_feedback_prompt name (validate_section T phrases) T)
     = false) /\
  hd_error (prompts (output (draft_section chat api_key total_sections i
                               section_name criteria s)))
  = Some (initial_prompt section_name criteria) /\
  Forall (corrective section_name criteria)
    (tl (prompts (output (draft_section chat api_key total_sections i
                            section_name criteria s)))) /\
  Forall (fun prompt => prompt <> "The section meets all criteria.")
    (prompts (output (draft_section chat api_key total_sections i
                        section_name criteria s))).
Proof.
  repeat apply conj.
  - intros vr T Hvalid. now apply create_feedback_prompt_valid.
  - intros vr T Hvalid. now rewrite create_feedback_prompt_valid.
  - intros T c. apply valid_text_not_in_sentence.
  - intros name phrases T Hin Hvalid. unfold items, sections in Hin.
    repeat (destruct Hin as [[= <- <-]|Hin];
            [ eapply valid_text_not_in_sentence;
              [exact Hvalid | now left | reflexivity] | ]).
    destruct Hin.
  - apply draft_first_prompt.
  - apply draft_later_prompts.
  - pose proof (draft_first_prompt St chat api_key section_name criteria
                  total_sections i s) as Hhd.
    pose proof (draft_later_prompts St chat api_key section_name criteria
                  total_sections i s) as Htl.
    destruct (prompts (output (draft_section chat api_key total_sections i
                                 section_name criteria s))) as [|p ps];
      [discriminate|].
    injection Hhd as ->. constructor.
    + discriminate.
    + cbn [tl] in Htl. eapply Forall_impl; [|exact Htl].
      intros prompt. apply corrective_is_not_the_sentence.
Qed.

(** C9 does not hold as worded: a valid text that is part of the fixed
    sentence is contained in the returned string. *)
Lemma meets_all_criteria_can_contain_text :
  is_valid (validate_section "meets all criteria" ["meets"; "all"; "criteria"])
  = true /\
  create_feedback_prompt "Executive Summary"
    (validate_section "meets all criteria" ["meets"; "all"; "criteria"])
    "meets all criteria"
  = "The section meets all criteria." /\
  contains "meets all criteria"
    (create_feedback_prompt "Executive Summary"
       (validate_section "meets all criteria" ["meets"; "all"; "criteria"])
       "meets all criteria")
  = true.
Proof. repeat split. Qed.

(** ** A section whose calls yield no text *)

Lemma validate_empty_missing (criteria : list string) (c : string) :
  In c criteria -> c <> "" ->
  dict_get c (feedback (validate_section "" criteria)) = Some "Missing".
Proof.
  intros Hc Hne. rewrite feedback_get by exact Hc. rewrite lower_nil.
  destruct (contains (lower c) "") eqn:E; [exfalso | reflexivity].
  apply Hne, lower_empty. now apply contains_in_empty.
Qed.

Lemma empty_text_invalid (criteria : list string) :
  (exists c, In c criteria /\ c <> "") -> invalid criteria "".
Proof.
  intros [c [Hc Hne]]. apply (is_valid_false _ _ c Hc). rewrite lower_nil.
  destruct (contains (lower c) "") eqn:E; [exfalso | reflexivity].
  apply Hne, lower_empty. now apply contains_in_empty.
Qed.

Section NoText.

Variable St : Type.
Variable chat : St -> string -> string -> reply * St.
Variable api_key : string.

(** A run all of whose calls gave the empty text made 4 of them and
    returns the empty text. *)
Lemma draft_all_empty (total_sections i : nat) (section_name : string)
    (criteria : list string) (s : St) :
  (exists c, In c criteria /\ c <> "") ->
  Forall (fun text => text = "")
    (generated (output (draft_section chat api_key total_sections i
                          section_name criteria s))) ->
  llm_calls (output (draft_section chat api_key total_sections i
                       section_name criteria s)) = 4 /\
  result (draft_section chat api_key total_sections i section_name
            criteria s) = inr "".
Proof.
  intros Hphrase Hempty.
  destruct (draft_ceiling St chat api_key total_sections i section_name
              criteria s) as [Hfour [Hres _]].
  - apply Forall_forall. intros t Ht. apply In_firstn in Ht.
    rewrite Forall_forall in Hempty. rewrite (Hempty t Ht).
    now apply empty_text_invalid.
  - split; [exact Hfour|]. rewrite Hres. f_equal.
    rewrite Forall_forall in Hempty.
    destruct (nth_in_or_default 3
                (generated (output (draft_section chat api_key total_sections
                                      i section_name criteria s))) "")
      as [Hin|Hd]; [now apply Hempty | exact Hd].
Qed.

Lemma starts_at_in (total_sections : nat)
    (todo : list (nat * (string * list string))) (s : St)
    (x : nat * (string * list string)) (s' : St) :
  starts_at chat api_key total_sections todo s x s' -> In x todo.
Proof. induction 1; [now left | now right]. Qed.

(** The plan holds, for a section of the run, the last text of the run of
    that section. *)
Lemma runs_entry (total_sections : nat)
    (todo : list (nat * (string * list string))) (s : St)
    (plan : dict string) (tr : list event)
    (x : nat * (string * list string)) (s' : St) :
  plan_of_runs chat api_key total_sections todo s plan tr ->
  starts_at chat api_key total_sections todo s x s' ->
  In (fst (snd x),
      last (generated
              (output (draft_section chat api_key total_sections (fst x)
                         (fst (snd x)) (snd (snd x)) s'))) "")
     plan.
Proof.
  intros Hruns Hstart. revert plan tr Hruns.
  induction Hstart as [x todo s|j name phrases todo s x s' Hstart IH];
    intros plan tr Hruns; inversion Hruns; subst.
  - now left.
  - right. eapply IH. eassumption.
Qed.

Hypothesis no_text :
  forall s prompt, text_of_reply (fst (chat s api_key prompt)) = "".

Lemma generated_all_empty (total_sections i : nat) (section_name : string)
    (criteria : list string) (s : St) :
  Forall (fun text => text = "")
    (generated (output (draft_section chat api_key total_sections i
                          section_name criteria s))).
Proof.
  eapply Forall_impl;
    [|apply (draft_generated_from_service St chat api_key)].
  intros text [s' [prompt ->]]. apply no_text.
Qed.

Lemma runs_no_text (total_sections : nat)
    (todo : list (nat * (string * list string))) (s : St)
    (plan : dict string) (tr : list event) :
  plan_of_runs chat api_key total_sections todo s plan tr ->
  Forall (fun x => exists c, In c (snd (snd x)) /\ c <> "") todo ->
  plan = map (fun name => (name, "")) (names todo) /\
  llm_calls tr = 4 * List.length todo.
Proof.
  induction 1 as [s|i section_name criteria todo s plan tr Hruns IH];
    intros Hphrases.
  - now split.
  - inversion Hphrases as [|? ? Hphrase Hrest]; subst.
    destruct (IH Hrest) as [-> Hcalls].
    destruct (draft_all_empty total_sections i section_name criteria s
                Hphrase (generated_all_empty _ _ _ _ _))
      as [Hfour Hres].
    rewrite draft_result in Hres.
    replace (last (generated
                     (output (draft_section chat api_key total_sections i
                                section_name criteria s))) "")
      with "" by congruence.
    split; [reflexivity|].
    rewrite llm_calls_app, Hfour, Hcalls. cbn [List.length]. lia.
Qed.

End NoText.

Lemma sections_have_phrases :
  Forall (fun x : nat * (string * list string) =>
            exists c, In c (snd (snd x)) /\ c <> "")
         (enumerate_from 0 (items sections)).
Proof.
  unfold items, sections. cbn [enumerate_from].
  repeat constructor; cbn [snd];
    (eexists; split; [now left | discriminate]).
Qed.

(** C10.  The validation of the empty string marks every non-empty
    criterion "Missing".  So a section's run all of whose calls yield the
    empty string, as failed calls do, makes all 4 calls and ends with the
    empty text; when this is the run of one of the eight sections within
    [generate_business_plan], whatever the service does for the other
    sections, the plan is returned without an error and holds the empty
    text for that section.  When every call fails, the plan holds the eight
    sections, in order, each with the empty text, after 32 calls. *)
Theorem failed_generation_gives_empty_sections {St : Type}
    (chat : St -> string -> string -> reply * St) (api_key : string) :
  (forall criteria c,
     In c criteria -> c <> "" ->
     dict_get c (feedback (validate_section "" criteria)) = Some "Missing") /\
  (forall total_sections i section_name criteria s,
     (exists c, In c criteria /\ c <> "") ->
     Forall (fun text => text = "")
       (generated (output (draft_section chat api_key total_sections i
                             section_name criteria s))) ->
     llm_calls (output (draft_section chat api_key total_sections i
                          section_name criteria s)) = 4 /\
     result (draft_section chat api_key total_sections i section_name
               criteria s) = inr "") /\
  (forall s i section_name criteria s',
     starts_at chat api_key 8 (enumerate_from 0 (items sections)) s
       (i, (section_name, criteria)) s' ->
     Forall (fun text => text = "")
       (generated (output (draft_section chat api_key 8 i section_name
                             criteria s'))) ->
     llm_calls (output (draft_section chat api_key 8 i section_name
                          criteria s')) = 4 /\
     exists plan,
       result (generate_business_plan chat api_key s) = inr plan /\
       List.length plan = 8 /\
       dict_get section_name plan = Some "") /\
  ((forall s prompt, text_of_reply (fst (chat s api_key prompt)) = "") ->
   forall s,
     result (generate_business_plan chat api_key s)
     = inr [("Executive Summary", ""); ("Company Description", "");
            ("Market Analysis", ""); ("Organization & Management", "");
            ("Product Line", ""); ("Marketing & Sales", "");
            ("Funding Request", ""); ("Financial Projections", "")] /\
     llm_calls (output (generate_business_plan chat api_key s)) = 32).
Proof.
  split; [exact validate_empty_missing|]. split; [|split].
  - intros total_sections i section_name criteria s.
    apply draft_all_empty.
  - intros s i section_name criteria s' Hstart Hempty.
    assert (Hphrase : exists c, In c criteria /\ c <> "").
    { pose proof (starts_at_in _ _ _ _ _ _ _ _ Hstart) as Hin.
      pose proof sections_have_phrases as Hall.
      rewrite Forall_forall in Hall. apply (Hall _ Hin). }
    destruct (draft_all_empty St chat api_key 8 i section_name criteria s'
                Hphrase Hempty) as [Hfour Hres].
    split; [exact Hfour|].
    destruct (generate_business_plan_spec chat api_key s)
      as [plan [Hplan Hruns]].
    exists plan. split; [exact Hplan|].
    pose proof (keys_plan_of_runs _ _ _ _ _ _ _ _ Hruns) as Hkeys.
    split.
    + rewrite <- (length_map fst). fold (keys plan). now rewrite Hkeys.
    + apply dict_get_in.
      * rewrite Hkeys. cbn.
        repeat constructor; cbn; intuition discriminate.
      * assert (Hentry :
                  In (section_name,
                      last (generated
                              (output (draft_section chat api_key 8 i
                                         section_name criteria s'))) "")
                     plan)
          by exact (runs_entry St chat api_key _ _ _ _ _ _ _ Hruns Hstart).
        rewrite draft_result in Hres.
        replace (last (generated
                         (output (draft_section chat api_key 8 i section_name
                                    criteria s'))) "")
          with "" in Hentry by congruence.
        exact Hentry.
  - intros Hno_text s.
    destruct (generate_business_plan_spec chat api_key s)
      as [plan [Hres Hruns]].
    apply (runs_no_text St chat api_key Hno_text) in Hruns as [-> Hcalls].
    + split; [exact Hres | exact Hcalls].
    + apply sections_have_phrases.
Qed.

(** * Runs on concrete services *)

Lemma generation_stops_at_first_valid_witness :
  let criteria :=
    ["business concept"; "financial features"; "financial requirements"] in
  let script :=
    [Content "  Our Business Concept, its financial features and the financial requirements.  "] in
  let o := draft_section scripted "sk-test" 8 0 "Executive Summary" criteria
             script in
  llm_calls (output o) = 1 /\
  result o
  = inr "Our Business Concept, its financial features and the financial requirements.".
Proof.
  intros criteria script o.
  apply (generation_stops_at_first_valid (list reply) scripted "sk-test" 8 0
           "Executive Summary" criteria script).
  intros c [<-|[<-|[<-|[]]]]; reflexivity.
Defined.

Lemma retry_ceiling_keeps_fourth_text_witness :
  let criteria :=
    ["business concept"; "financial features"; "financial requirements"] in
  let script :=
    [Content "A first draft."; Raises (Exception "Rate limit reached");
     Content "Our business concept."; 
     Content "Business concept, financial features, financial requirements."] in
  let o := draft_section scripted "sk-test" 8 0 "Executive Summary" criteria
             script in
  let o' := draft_section (constant "A plain draft.") "sk-test" 8 0
              "Executive Summary" criteria tt in
  (llm_calls (output o) = 4 /\
   result o
   = inr (nth 3 (generated (output o)) "") /\
   exists tr, output o = (tr ++ [warning "Executive Summary"])%list) /\
  (llm_calls (output o') = 4 /\
   result o' = inr (nth 3 (generated (output o')) "")).
Proof.
  intros criteria script o o'. split.
  - apply (proj2 (retry_ceiling_keeps_fourth_text (list reply) scripted
                    "sk-test" 8 0 "Executive Summary" criteria script)).
    repeat constructor.
  - apply (proj1 (retry_ceiling_keeps_fourth_text unit
                    (constant "A plain draft.") "sk-test" 8 0
                    "Executive Summary" criteria tt)).
    intros s' prompt. reflexivity.
Defined.

Lemma service_errors_are_caught_witness :
  get_section_from_llm failing "sk-test" "Write a plan." tt
  = mk_outcome (inr "") tt
      [LlmCall "sk-test" "Write a plan."
         (Raises (Exception "Incorrect API key provided"));
       StError "Error calling OpenAI API: Incorrect API key provided"].
Proof.
  apply (proj1 (proj2 (service_errors_are_caught failing "sk-test" tt))
           "Write a plan." (Exception "Incorrect API key provided")).
  reflexivity.
Defined.

Lemma create_feedback_prompt_when_valid_witness :
  let text := "Business concept, financial features, financial requirements." in
  let criteria :=
    ["business concept"; "financial features"; "financial requirements"] in
  create_feedback_prompt "Executive Summary" (validate_section text criteria)
    text
  = "The section meets all criteria." /\
  contains text
    (create_feedback_prompt "Executive Summary"
       (validate_section text criteria) text) = false.
Proof.
  intros text criteria.
  destruct (create_feedback_prompt_when_valid failing "sk-test" 8 0
              "Executive Summary" criteria tt)
    as [Hfixed [_ [Hnot _]]].
  split.
  - apply Hfixed. reflexivity.
  - apply (Hnot text "business concept"); [reflexivity | now left | reflexivity].
Defined.

Lemma failed_generation_gives_empty_sections_witness :
  let text := join ", " (List.concat (values sections)) in
  let failure := Raises (Exception "Rate limit reached") in
  let script :=
    [Content text; failure; failure; failure; failure; Content text;
     Content text; Content text; Content text; Content text; Content text] in
  (exists plan,
     result (generate_business_plan scripted "sk-test" script) = inr plan /\
     List.length plan = 8 /\
     dict_get "Company Description" plan = Some "") /\
  result (generate_business_plan failing "sk-test" tt)
  = inr [("Executive Summary", ""); ("Company Description", "");
         ("Market Analysis", ""); ("Organization & Management", "");
         ("Product Line", ""); ("Marketing & Sales", "");
         ("Funding Request", ""); ("Financial Projections", "")] /\
  llm_calls (output (generate_business_plan failing "sk-test" tt)) = 32.
Proof.
  intros text failure script. split.
  - apply (proj1 (proj2 (proj2
             (failed_generation_gives_empty_sections scripted "sk-test")))
             script 1 "Company Description"
             ["company goals"; "target market"; "competitive advantage"]
             (tl script)).
    + apply starts_later. apply starts_first.
    + vm_compute. repeat constructor.
  - apply (proj2 (proj2 (proj2
             (failed_generation_gives_empty_sections failing "sk-test")))).
    intros s prompt. reflexivity.
Defined.

(** The whole program on a service that answers every request with one text
    that covers the criteria of no section but the first. *)
Example plan_of_a_constant_service :
  let text := "Business concept, financial features, financial requirements." in
  let o := generate_business_plan (constant text) "sk-test" tt in
  result o
  = inr [("Executive Summary", text); ("Company Description", text);
         ("Market Analysis", text); ("Organization & Management", text);
         ("Product Line", text); ("Marketing & Sales", text);
         ("Funding Request", text); ("Financial Projections", text)] /\
  llm_calls (output o) = 29 /\
  hd_error (prompts (output o))
  = Some "Write a Executive Summary section for a business plan. Include information about: business concept, financial features, financial requirements.".
Proof. vm_compute. repeat split. Qed.

(** * Further properties of the code *)

(** ** [validate_section] *)

Lemma dict_set_same {V : Type} (val : string -> V) (c : string)
    (ks : list string) :
  In c ks ->
  dict_set c (val c) (map (fun k => (k, val k)) ks)
  = map (fun k => (k, val k)) ks.
Proof.
  induction ks as [|k ks IH]; intros Hin; [destruct Hin|].
  cbn [map dict_set]. destruct (String.eqb_spec c k) as [->|Hne].
  - reflexivity.
  - rewrite IH; [reflexivity|]. destruct Hin as [->|Hin]; [congruence | exact Hin].
Qed.

Lemma existsb_eqb_In (c : string) (ks : list string) :
  existsb (String.eqb c) ks = true <-> In c ks.
Proof.
  rewrite existsb_exists. split.
  - intros [k [Hk E]]. apply String.eqb_eq in E. now subst.
  - intros Hin. exists c. split; [exact Hin | apply String.eqb_refl].
Qed.

Lemma dict_comp_unseen {V : Type} (val : string -> V)
    (criteria ks : list string) :
  fold_left (fun d x => dict_set x (val x) d) criteria
    (map (fun k => (k, val k)) ks)
  = map (fun k => (k, val k)) (ks ++ unseen ks criteria).
Proof.
  revert ks. induction criteria as [|c criteria IH]; intros ks.
  - cbn. now rewrite app_nil_r.
  - cbn [fold_left unseen].
    destruct (existsb (String.eqb c) ks) eqn:E.
    + apply existsb_eqb_In in E. rewrite dict_set_same by exact E. apply IH.
    + assert (Hfresh : ~ In c (keys (map (fun k => (k, val k)) ks))).
      { unfold keys. rewrite map_map, map_id. intros Hin.
        apply existsb_eqb_In in Hin. congruence. }
      rewrite (dict_set_fresh _ _ _ Hfresh).
      change [(c, val c)] with (map (fun k => (k, val k)) [c]).
      rewrite <- map_app, IH, <- app_assoc. reflexivity.
Qed.

Lemma dict_comp_first_occurrences {V : Type} (val : string -> V)
    (criteria : list string) :
  dict_comp (fun x => x) val criteria
  = map (fun k => (k, val k)) (first_occurrences criteria).
Proof.
  unfold dict_comp, first_occurrences.
  apply (dict_comp_unseen val criteria []).
Qed.

Lemma NoDup_first_occurrences (criteria : list string) :
  NoDup (first_occurrences criteria).
Proof.
  pose proof (proj1 (dict_comp_keyed (fun _ => tt) criteria)) as Hnd.
  rewrite dict_comp_first_occurrences in Hnd.
  unfold keys in Hnd. now rewrite map_map, map_id in Hnd.
Qed.

Lemma unseen_distinct (seen criteria : list string) :
  NoDup (seen ++ criteria) -> unseen seen criteria = criteria.
Proof.
  revert seen. induction criteria as [|c criteria IH]; intros seen Hnd;
    [reflexivity|].
  cbn [unseen]. destruct (existsb (String.eqb c) seen) eqn:E.
  - apply existsb_eqb_In in E. apply NoDup_remove_2 in Hnd.
    exfalso. apply Hnd. apply in_or_app. now left.
  - f_equal. apply IH. now rewrite <- app_assoc.
Qed.

Lemma feedback_first_occurrences (section : string) (criteria : list string) :
  feedback (validate_section section criteria)
  = map (feedback_entry section) (first_occurrences criteria).
Proof.
  unfold validate_section; cbn [feedback]. unfold items.
  rewrite dict_comp_first_occurrences.
  rewrite dict_comp_distinct.
  - rewrite map_map. reflexivity.
  - rewrite map_map. cbn [fst]. rewrite map_id.
    apply NoDup_first_occurrences.
Qed.

(** X1.  The flag of [validate_section] is exact: [is_valid] is true when
    and only when every criterion occurs in the text, compared in lower
    case; the flag agrees with the feedback, being true exactly when no
    entry is "Missing". *)
Theorem validate_section_flag_exact (section : string)
    (criteria : list string) :
  (is_valid (validate_section section criteria) = true <->
   forall c, In c criteria -> contains (lower c) (lower section) = true) /\
  is_valid (validate_section section criteria)
  = match missing_criteria (validate_section section criteria) with
    | [] => true
    | _ :: _ => false
    end.
Proof.
  split; [apply is_valid_true|].
  destruct (missing_criteria (validate_section section criteria))
    as [|m l] eqn:E.
  - apply is_valid_true. intros c Hc.
    destruct (contains (lower c) (lower section)) eqn:Hocc; [reflexivity|].
    assert (Hin : In c (missing_criteria (validate_section section criteria)))
      by (apply missing_criteria_in; now split).
    rewrite E in Hin. destruct Hin.
  - assert (Hin : In m (missing_criteria (validate_section section criteria)))
      by (rewrite E; now left).
    apply missing_criteria_in in Hin as [Hm Hocc].
    now apply (is_valid_false _ _ m).
Qed.

(** X2.  The feedback of [validate_section] has one entry for each distinct
    criterion, in the order of first occurrence, marked "Present" or
    "Missing" as the phrase occurs in the text or not; the missing criteria
    are the entries that do not occur, in that order.  For criteria without
    repetition the entries follow the criteria list itself. *)
Theorem feedback_lists_distinct_criteria (section : string)
    (criteria : list string) :
  feedback (validate_section section criteria)
  = map (feedback_entry section) (first_occurrences criteria) /\
  missing_criteria (validate_section section criteria)
  = filter (fun c => negb (contains (lower c) (lower section)))
           (first_occurrences criteria) /\
  NoDup (keys (feedback (validate_section section criteria))) /\
  (NoDup criteria ->
   feedback (validate_section section criteria)
   = map (feedback_entry section) criteria).
Proof.
  split; [apply feedback_first_occurrences|]. split; [|split].
  - unfold missing_criteria, items. rewrite feedback_first_occurrences.
    induction (first_occurrences criteria) as [|c l IH]; [reflexivity|].
    cbn [map filter]. unfold feedback_entry at 1. cbn [snd].
    destruct (contains (lower c) (lower section)); cbn; now rewrite IH.
  - apply feedback_entries.
  - intros Hnd. rewrite feedback_first_occurrences.
    unfold first_occurrences. now rewrite unseen_distinct.
Qed.

Lemma feedback_lists_distinct_criteria_witness :
  feedback (validate_section "Our sales force is small."
              ["marketing strategy"; "sales force"; "sales activities"])
  = [("marketing strategy", "Missing"); ("sales force", "Present");
     ("sales activities", "Missing")].
Proof.
  apply (proj2 (proj2 (proj2
           (feedback_lists_distinct_criteria "Our sales force is small."
              ["marketing strategy"; "sales force"; "sales activities"])))).
  repeat constructor; cbn; intuition discriminate.
Defined.

(** X3.  A criterion that is listed again changes nothing: validating
    against the criteria followed by one of them gives the same result. *)
Theorem repeated_criterion_counts_once (section : string)
    (criteria : list string) (c : string) :
  In c criteria ->
  validate_section section (criteria ++ [c])
  = validate_section section criteria.
Proof.
  intros Hc.
  assert (E : forall V (val : string -> V),
             dict_comp (fun x => x) val (criteria ++ [c])
             = dict_comp (fun x => x) val criteria).
  { intros V val. unfold dict_comp at 1. rewrite fold_left_app. cbn [fold_left].
    fold (dict_comp (fun x => x) val criteria).
    rewrite dict_comp_first_occurrences. apply dict_set_same.
    pose proof (proj2 (dict_comp_keyed val criteria) c (val c)) as Hin.
    rewrite dict_comp_first_occurrences in Hin.
    assert (H : In (c, val c)
                  (map (fun k => (k, val k)) (first_occurrences criteria)))
      by (apply Hin; now split).
    apply in_map_iff in H as [k [[= -> _] Hk]]. exact Hk. }
  unfold validate_section. now rewrite E.
Qed.

Lemma repeated_criterion_counts_once_witness :
  validate_section "Our target market is local."
    (["company goals"; "target market"] ++ ["target market"])
  = validate_section "Our target market is local."
      ["company goals"; "target market"].
Proof.
  apply (repeated_criterion_counts_once "Our target market is local."
           ["company goals"; "target market"] "target market").
  cbn. tauto.
Defined.

(** ** [get_section_from_llm]: the text is stripped *)

Lemma some_pair_inv {A B : Type} (a a' : A) (b b' : B) :
  Some (a, b) = Some (a', b') -> a = a' /\ b = b'.
Proof.
  intros H. split.
  - exact (f_equal (fun o => match o with Some p => fst p | None => a end) H).
  - exact (f_equal (fun o => match o with Some p => snd p | None => b end) H).
Qed.

Ltac read_head H := apply some_pair_inv in H as [? ?]; subst.

Lemma head_shorter (s : string) (c : N) (rest : string) :
  head s = Some (c, rest) -> String.length rest < String.length s.
Proof.
  destruct s as [|c0 s1]; [discriminate|]. cbn [head].
  destruct (N.ltb (byte c0) 128); [intros H; read_head H; cbn [String.length]; lia|].
  destruct s1 as [|c1 s2]; [intros H; read_head H; cbn [String.length]; lia|].
  destruct (_ && _ && _); [intros H; read_head H; cbn [String.length]; lia|].
  destruct s2 as [|c2 s3]; [intros H; read_head H; cbn [String.length]; lia|].
  destruct (_ && _ && _ && _); [intros H; read_head H; cbn [String.length]; lia|].
  destruct s3 as [|c3 s4]; [intros H; read_head H; cbn [String.length]; lia|].
  destruct (_ && _ && _ && _ && _); intros H; read_head H; cbn [String.length]; lia.
Qed.

Lemma head_none (s : string) : head s = None -> s = "".
Proof.
  destruct s as [|a s]; [reflexivity|].
  destruct (head_cons a s) as [c [rest ->]]. discriminate.
Qed.

Lemma not_raw_plus (b : N) : N.ltb (raw + b) raw = false.
Proof. apply N.ltb_ge. unfold raw. lia. Qed.

(** A code point read from well-formed bytes is read the same way when more
    bytes follow. *)
Lemma head_append (p w : string) (c : N) (rest : string) :
  head p = Some (c, rest) -> N.ltb c raw = true ->
  head (p ++ w) = Some (c, rest ++ w).
Proof.
  destruct p as [|c0 s1]; [discriminate|]. cbn [head append].
  destruct (N.ltb (byte c0) 128); [intros H; read_head H; reflexivity|].
  destruct s1 as [|c1 s2];
    [intros H; read_head H; rewrite not_raw_plus; discriminate|].
  cbn [append].
  destruct (_ && _ && _); [intros H; read_head H; reflexivity|].
  destruct s2 as [|c2 s3];
    [intros H; read_head H; rewrite not_raw_plus; discriminate|].
  cbn [append].
  destruct (_ && _ && _ && _); [intros H; read_head H; reflexivity|].
  destruct s3 as [|c3 s4];
    [intros H; read_head H; rewrite not_raw_plus; discriminate|].
  cbn [append].
  destruct (_ && _ && _ && _ && _); [intros H; read_head H; reflexivity|].
  intros H; read_head H. rewrite not_raw_plus. discriminate.
Qed.

Lemma isspace_not_raw (c : N) : isspace c = true -> N.ltb c raw = true.
Proof.
  unfold isspace, space_table. cbn [existsb]. intros H.
  repeat (apply orb_prop in H as [H|H];
          [apply N.eqb_eq in H; subst c; reflexivity|]).
  discriminate.
Qed.

Lemma lstrip_from_leading (fuel : nat) (s : string) :
  String.length s <= fuel -> leading_space (lstrip_from fuel s) = false.
Proof.
  revert s. induction fuel as [|fuel IH]; intros s Hfuel.
  - destruct s; [reflexivity | cbn in Hfuel; lia].
  - cbn [lstrip_from]. destruct (head s) as [[c rest]|] eqn:Hhead.
    + destruct (isspace c) eqn:Hc.
      * apply IH. apply head_shorter in Hhead. lia.
      * unfold leading_space. now rewrite Hhead.
    + unfold leading_space. now rewrite Hhead.
Qed.

Lemma rstrip_trailing (s : string) : trailing_space (rstrip s) = false.
Proof.
  induction s as [|a s IH]; [reflexivity|]. cbn [rstrip].
  destruct (one_space (String a (rstrip s))) eqn:E; [reflexivity|].
  cbn [trailing_space]. now rewrite E, IH.
Qed.

Lemma rstrip_prefix (s : string) : exists w, s = rstrip s ++ w.
Proof.
  induction s as [|a s [w IH]]; [now exists ""|]. cbn [rstrip].
  destruct (one_space (String a (rstrip s))).
  - now exists (String a s).
  - exists w. cbn [append]. now rewrite <- IH.
Qed.

Lemma leading_space_append (p w : string) :
  leading_space p = true -> leading_space (p ++ w) = true.
Proof.
  unfold leading_space. destruct (head p) as [[c rest]|] eqn:Hhead;
    [|discriminate].
  intros Hc. now rewrite (head_append _ w _ _ Hhead (isspace_not_raw _ Hc)).
Qed.

Lemma rstrip_leading (s : string) :
  leading_space s = false -> leading_space (rstrip s) = false.
Proof.
  intros Hs. destruct (leading_space (rstrip s)) eqn:E; [|reflexivity].
  destruct (rstrip_prefix s) as [w Hw].
  apply (leading_space_append _ w) in E. rewrite <- Hw in E. congruence.
Qed.

Lemma lstrip_fixed (s : string) : leading_space s = false -> lstrip s = s.
Proof.
  unfold lstrip, leading_space. destruct s as [|a s]; [reflexivity|].
  cbn [String.length lstrip_from].
  destruct (head (String a s)) as [[c rest]|]; [|reflexivity].
  now intros ->.
Qed.

Lemma rstrip_fixed (s : string) : trailing_space s = false -> rstrip s = s.
Proof.
  induction s as [|a s IH]; [reflexivity|]. cbn [trailing_space].
  intros H. apply orb_false_iff in H as [Hone Htail].
  cbn [rstrip]. rewrite (IH Htail). now rewrite Hone.
Qed.

Lemma strip_stripped (s : string) : stripped (strip s).
Proof.
  assert (Hfirst : leading_space (strip s) = false).
  { apply rstrip_leading. apply lstrip_from_leading. lia. }
  assert (Hlast : trailing_space (strip s) = false) by apply rstrip_trailing.
  split; [|now split].
  unfold strip at 1. rewrite (lstrip_fixed _ Hfirst).
  now apply rstrip_fixed.
Qed.

Lemma lstrip_from_blank (fuel : nat) (s : string) :
  String.length s <= fuel ->
  forallb isspace (decode_from fuel s) = true -> lstrip_from fuel s = "".
Proof.
  revert s. induction fuel as [|fuel IH]; intros s Hfuel Hblank.
  - destruct s; [reflexivity | cbn in Hfuel; lia].
  - cbn [lstrip_from decode_from] in *.
    destruct (head s) as [[c rest]|] eqn:Hhead.
    + cbn [forallb] in Hblank. apply andb_true_iff in Hblank as [-> Hblank].
      apply IH; [|exact Hblank]. apply head_shorter in Hhead. lia.
    + now apply head_none.
Qed.

Lemma strip_blank (s : string) : blank s = true -> strip s = "".
Proof.
  unfold blank, decode, strip, lstrip. intros H.
  now rewrite lstrip_from_blank.
Qed.

Lemma text_of_reply_stripped (r : reply) : stripped (text_of_reply r).
Proof.
  destruct r as [text|e]; [apply strip_stripped|].
  repeat split.
Qed.

(** X6.  The text that [get_section_from_llm] returns never begins or ends
    with a white space character, and stripping it again changes nothing; a
    reply made of white space only gives the empty text, as a failed call
    does, but without an error message. *)
Theorem generated_text_is_stripped {St : Type}
    (chat : St -> string -> string -> reply * St) (api_key prompt : string)
    (s : St) :
  (exists text,
     result (get_section_from_llm chat api_key prompt s) = inr text /\
     strip text = text /\
     leading_space text = false /\ trailing_space text = false) /\
  (forall content,
     fst (chat s api_key prompt) = Content content ->
     blank content = true ->
     result (get_section_from_llm chat api_key prompt s) = inr "" /\
     errors_shown (output (get_section_from_llm chat api_key prompt s)) = []).
Proof.
  rewrite get_section_from_llm_run. cbn [result output]. split.
  - eexists. split; [reflexivity|]. apply text_of_reply_stripped.
  - intros content -> Hblank. cbn [text_of_reply error_events errors_shown].
    now rewrite strip_blank.
Qed.

(** A reply of a no-break space, an ideographic space and a line feed. *)
Lemma generated_text_is_stripped_witness :
  result (get_section_from_llm scripted "sk-test" "Write a plan."
            [Content (encode [0xA0; 0x3000; 0x0A]%N)])
  = inr "" /\
  errors_shown (output (get_section_from_llm scripted "sk-test"
                          "Write a plan."
                          [Content (encode [0xA0; 0x3000; 0x0A]%N)])) = [].
Proof.
  apply (proj2 (generated_text_is_stripped scripted "sk-test" "Write a plan."
                  [Content (encode [0xA0; 0x3000; 0x0A]%N)])
           (encode [0xA0; 0x3000; 0x0A]%N)); reflexivity.
Defined.

Lemma last_Forall {X : Type} (P : X -> Prop) (l : list X) (d : X) :
  Forall P l -> P d -> P (last l d).
Proof.
  intros Hl Hd. induction Hl as [|a l Ha Hl IH]; [exact Hd|].
  destruct l; [exact Ha | exact IH].
Qed.

Lemma from_service_stripped {St : Type}
    (chat : St -> string -> string -> reply * St) (api_key text : string) :
  from_service chat api_key text -> stripped text.
Proof. intros [s [prompt ->]]. apply text_of_reply_stripped. Qed.

Lemma runs_stripped {St : Type}
    (chat : St -> string -> string -> reply * St) (api_key : string)
    (total_sections : nat) (todo : list (nat * (string * list string)))
    (s : St) (plan : dict string) (tr : list event) :
  plan_of_runs chat api_key total_sections todo s plan tr ->
  Forall (fun kv => stripped (snd kv)) plan.
Proof.
  induction 1 as [s|i section_name criteria todo s plan tr Hruns IH];
    constructor; [|exact IH].
  cbn [snd]. apply last_Forall; [|repeat split].
  eapply Forall_impl;
    [|apply (draft_generated_from_service St chat api_key)].
  intros text. apply from_service_stripped.
Qed.

(** X7.  No text of the plan that [generate_business_plan] returns begins
    or ends with a white space character. *)
Theorem plan_texts_are_stripped {St : Type}
    (chat : St -> string -> string -> reply * St) (api_key : string) (s : St) :
  exists plan,
    result (generate_business_plan chat api_key s) = inr plan /\
    Forall (fun kv =>
              strip (snd kv) = snd kv /\
              leading_space (snd kv) = false /\
              trailing_space (snd kv) = false)
           (items plan).
Proof.
  destruct (generate_business_plan_spec chat api_key s) as [plan [Hres Hruns]].
  exists plan. split; [exact Hres|].
  apply (runs_stripped _ _ _ _ _ _ _ Hruns).
Qed.

(** ** What the runs show and send *)

Lemma errors_shown_app (a b : list event) :
  errors_shown (a ++ b) = (errors_shown a ++ errors_shown b)%list.
Proof. induction a as [|[] a IH]; simpl; congruence. Qed.

Lemma raised_app (a b : list event) :
  raised (a ++ b) = (raised a ++ raised b)%list.
Proof. induction a as [|[? ? []| | |] a IH]; simpl; congruence. Qed.

Lemma progress_shown_app (a b : list event) :
  progress_shown (a ++ b) = (progress_shown a ++ progress_shown b)%list.
Proof. induction a as [|[] a IH]; simpl; congruence. Qed.

Lemma keys_used_app (a b : list event) :
  keys_used (a ++ b) = (keys_used a ++ keys_used b)%list.
Proof. induction a as [|[] a IH]; simpl; congruence. Qed.

(** The readings of the events that report a reply. *)
Lemma readings_of_error_events (r : reply) :
  errors_shown (error_events r) = map report (raised [LlmCall "" "" r]) /\
  raised (error_events r) = [] /\
  progress_shown (error_events r) = [] /\
  keys_used (error_events r) = [].
Proof. destruct r as [text|[msg]]; repeat split. Qed.

Ltac loop_cases criteria js cur s IH Hv :=
  revert cur s; induction js as [|? js IH]; intros cur s;
  [ rewrite improve_exhausted
  | destruct (is_valid (validate_section cur criteria)) eqn:Hv;
    [ rewrite improve_break by exact Hv
    | rewrite improve_retry by exact Hv ] ];
  unfold warning; cbn [result state output].

Section TraceFacts.

Variable St : Type.
Variable chat : St -> string -> string -> reply * St.
Variable api_key : string.
Variable section_name : string.
Variable criteria : list string.

Abbreviation improve_from := (improve chat api_key section_name criteria).

Lemma improve_errors (js : list nat) (cur : string) (s : St) :
  errors_shown (output (improve_from js cur s))
  = map report (raised (output (improve_from js cur s))).
Proof.
  loop_cases criteria js cur s IH Hv; try reflexivity.
  cbn [errors_shown raised].
  set (r := fst (chat s api_key _)).
  rewrite errors_shown_app, IH.
  destruct r as [text|[msg]]; cbn [error_events app errors_shown raised map];
    reflexivity.
Qed.

Lemma improve_progress (js : list nat) (cur : string) (s : St) :
  progress_shown (output (improve_from js cur s)) = [].
Proof.
  loop_cases criteria js cur s IH Hv; try reflexivity.
  cbn [progress_shown]. rewrite progress_shown_app, IH.
  now rewrite (proj1 (proj2 (proj2 (readings_of_error_events _)))).
Qed.

Lemma improve_keys (js : list nat) (cur : string) (s : St) :
  Forall (eq api_key) (keys_used (output (improve_from js cur s))).
Proof.
  loop_cases criteria js cur s IH Hv; try constructor; [reflexivity|].
  rewrite keys_used_app.
  rewrite (proj2 (proj2 (proj2 (readings_of_error_events _)))).
  apply IH.
Qed.

Lemma improve_prompts_follow (js : list nat) (cur : string) (s : St) :
  prompts (output (improve_from js cur s))
  = map (feedback_for section_name criteria)
        (removelast (cur :: generated (output (improve_from js cur s)))).
Proof.
  by_iterations criteria js cur s IH Hv; try reflexivity.
  rewrite IH. reflexivity.
Qed.

Lemma improve_final_status (js : list nat) (cur : string) (s : St) :
  (exists tr,
     output (improve_from js cur s)
     = (tr ++ [StatusText (section_name ++ " meets all criteria!")])%list /\
     is_valid (validate_section
                 (last (generated (output (improve_from js cur s))) cur)
                 criteria) = true) \/
  (exists tr,
     output (improve_from js cur s) = (tr ++ [warning section_name])%list /\
     llm_calls (output (improve_from js cur s)) = List.length js).
Proof.
  by_iterations criteria js cur s IH Hv.
  - right. exists []. now split.
  - left. exists []. now split.
  - rewrite last_cons_default.
    destruct (IH (text_of_reply
                    (fst (chat s api_key
                            (create_feedback_prompt section_name
                               (validate_section cur criteria) cur))))
                 (snd (chat s api_key
                         (create_feedback_prompt section_name
                            (validate_section cur criteria) cur))))
      as [[tr [-> Hvalid]]|[tr [Htr Hcalls]]].
    + left. eexists (_ :: _ :: _ ++ tr)%list. split; [|exact Hvalid].
      cbn [app]. now rewrite app_assoc.
    + right. rewrite Htr. eexists (_ :: _ :: _ ++ tr)%list. split.
      * cbn [app]. now rewrite app_assoc.
      * rewrite <- Htr. unfold llm_calls in Hcalls. now rewrite Hcalls.
Qed.

End TraceFacts.

Section SectionTrace.

Variable St : Type.
Variable chat : St -> string -> string -> reply * St.
Variable api_key : string.
Variable total_sections i : nat.
Variable section_name : string.
Variable criteria : list string.

Abbreviation section_run := (draft_section chat api_key total_sections i
                               section_name criteria).

Lemma draft_errors (s : St) :
  errors_shown (output (section_run s))
  = map report (raised (output (section_run s))).
Proof.
  rewrite draft_section_run. cbv zeta. cbn [output errors_shown raised].
  set (r := fst (chat s api_key _)).
  rewrite errors_shown_app, improve_errors.
  destruct r as [text|[msg]]; cbn [error_events app errors_shown raised map];
    reflexivity.
Qed.

Lemma draft_progress (s : St) :
  progress_shown (output (section_run s)) = [(i + 1, total_sections)].
Proof.
  rewrite draft_section_run. cbv zeta. cbn [output progress_shown].
  rewrite progress_shown_app, improve_progress.
  now rewrite (proj1 (proj2 (proj2 (readings_of_error_events _)))).
Qed.

Lemma draft_keys (s : St) :
  Forall (eq api_key) (keys_used (output (section_run s))).
Proof.
  rewrite draft_section_run. cbv zeta. cbn [output keys_used].
  constructor; [reflexivity|]. rewrite keys_used_app.
  rewrite (proj2 (proj2 (proj2 (readings_of_error_events _)))).
  apply improve_keys.
Qed.

(** X8.  In a section's run every prompt after the first is the corrective
    prompt built from the text the call before it returned: the prompts are
    the initial prompt followed by the corrective prompts for all generated
    texts but the last. *)
Theorem each_prompt_follows_the_last_text (s : St) :
  prompts (output (section_run s))
  = initial_prompt section_name criteria
      :: map (fun text =>
                create_feedback_prompt section_name
                  (validate_section text criteria) text)
             (removelast (generated (output (section_run s)))).
Proof.
  rewrite draft_section_run. cbv zeta. cbn [output prompts generated].
  rewrite prompts_app, generated_app, prompts_error_events,
    generated_error_events.
  cbn [app]. rewrite improve_prompts_follow. reflexivity.
Qed.

(** X9.  The last status a section's run shows is either
    "{section} meets all criteria!", and then the text returned passes the
    validation, or the warning, and then the run made all 4 calls. *)
Theorem final_status_is_sound (s : St) :
  (exists tr,
     output (section_run s)
     = (tr ++ [StatusText (section_name ++ " meets all criteria!")])%list /\
     result (section_run s)
     = inr (last (generated (output (section_run s))) "") /\
     is_valid (validate_section
                 (last (generated (output (section_run s))) "")
                 criteria) = true) \/
  (exists tr,
     output (section_run s)
     = (tr ++ [StatusText ("Warning: " ++ section_name
                             ++ " may not meet all criteria after 3 iterations.")])%list /\
     llm_calls (output (section_run s)) = 4).
Proof.
  pose proof (draft_result St chat api_key section_name criteria
                total_sections i s) as Hres.
  revert Hres. rewrite draft_section_run. cbv zeta.
  unfold llm_calls. cbn [result output generated prompts List.length].
  rewrite generated_app, prompts_app, generated_error_events,
    prompts_error_events.
  cbn [app]. rewrite last_cons_default. intros Hres.
  destruct (improve_final_status St chat api_key section_name criteria
              (seq 0 max_iterations)
              (text_of_reply
                 (fst (chat s api_key (initial_prompt section_name criteria))))
              (snd (chat s api_key (initial_prompt section_name criteria))))
    as [[tr [Htr Hvalid]]|[tr [Htr Hcalls]]].
  - left. rewrite Htr. eexists (_ :: _ :: _ :: _ ++ tr)%list.
    split; [|split].
    + cbn [app]. now rewrite app_assoc.
    + rewrite <- Htr. exact Hres.
    + rewrite <- Htr. exact Hvalid.
  - right. rewrite Htr. eexists (_ :: _ :: _ :: _ ++ tr)%list. split.
    + cbn [app]. now rewrite app_assoc.
    + rewrite <- Htr. unfold llm_calls in Hcalls. rewrite Hcalls.
      now rewrite length_seq.
Qed.

End SectionTrace.

(** ** The whole run *)

Section PlanTrace.

Variable St : Type.
Variable chat : St -> string -> string -> reply * St.
Variable api_key : string.
Variable total_sections : nat.

Lemma runs_calls (todo : list (nat * (string * list string))) (s : St)
    (plan : dict string) (tr : list event) :
  plan_of_runs chat api_key total_sections todo s plan tr ->
  List.length todo <= llm_calls tr <= 4 * List.length todo.
Proof.
  induction 1 as [s|i section_name criteria todo s plan tr Hruns IH].
  - cbn. lia.
  - rewrite llm_calls_app. cbn [List.length].
    pose proof (draft_calls St chat api_key section_name criteria
                  total_sections i s) as Hcalls.
    revert Hcalls IH.
    generalize (llm_calls (output (draft_section chat api_key total_sections
                                     i section_name criteria s))).
    generalize (llm_calls tr). lia.
Qed.

Lemma runs_progress (todo : list (nat * (string * list string))) (s : St)
    (plan : dict string) (tr : list event) :
  plan_of_runs chat api_key total_sections todo s plan tr ->
  progress_shown tr = map (fun x => (fst x + 1, total_sections)) todo.
Proof.
  induction 1 as [s|i section_name criteria todo s plan tr Hruns IH];
    [reflexivity|].
  rewrite progress_shown_app, draft_progress, IH. reflexivity.
Qed.

Lemma runs_errors (todo : list (nat * (string * list string))) (s : St)
    (plan : dict string) (tr : list event) :
  plan_of_runs chat api_key total_sections todo s plan tr ->
  errors_shown tr = map report (raised tr).
Proof.
  induction 1 as [s|i section_name criteria todo s plan tr Hruns IH];
    [reflexivity|].
  now rewrite errors_shown_app, raised_app, map_app, draft_errors, IH.
Qed.

Lemma runs_keys (todo : list (nat * (string * list string))) (s : St)
    (plan : dict string) (tr : list event) :
  plan_of_runs chat api_key total_sections todo s plan tr ->
  Forall (eq api_key) (keys_used tr).
Proof.
  induction 1 as [s|i section_name criteria todo s plan tr Hruns IH];
    [constructor|].
  rewrite keys_used_app. apply Forall_app. split; [apply draft_keys | exact IH].
Qed.

End PlanTrace.

(** X10.  [generate_business_plan] calls the service at least 8 and at most
    32 times, and every call is made with the API key it was given. *)
Theorem whole_run_calls_bounded {St : Type}
    (chat : St -> string -> string -> reply * St) (api_key : string) (s : St) :
  8 <= llm_calls (output (generate_business_plan chat api_key s)) <= 32 /\
  Forall (eq api_key)
    (keys_used (output (generate_business_plan chat api_key s))).
Proof.
  destruct (generate_business_plan_spec chat api_key s) as [plan [_ Hruns]].
  split.
  - apply (runs_calls _ _ _ _ _ _ _ _ Hruns).
  - apply (runs_keys _ _ _ _ _ _ _ _ Hruns).
Qed.

Lemma draft_starts_with_progress {St : Type}
    (chat : St -> string -> string -> reply * St) (api_key : string)
    (total_sections i : nat) (section_name : string)
    (criteria : list string) (s : St) :
  exists rest,
    output (draft_section chat api_key total_sections i section_name
              criteria s)
    = StatusText ("Generating " ++ section_name ++ "...")
        :: Progress (i + 1) total_sections :: rest /\
    progress_shown rest = [] /\
    hd_error (prompts rest) = Some (initial_prompt section_name criteria) /\
    llm_calls rest
    = llm_calls (output (draft_section chat api_key total_sections i
                           section_name criteria s)).
Proof.
  rewrite draft_section_run. cbv zeta. cbn [output].
  eexists. split; [reflexivity|]. split; [|split].
  - cbn [progress_shown]. rewrite progress_shown_app, improve_progress.
    now rewrite (proj1 (proj2 (proj2 (readings_of_error_events _)))).
  - reflexivity.
  - reflexivity.
Qed.

(** When the progress of the last section of [todo] is set, the sections
    before it have made their calls and every call of the last one is
    still to come. *)
Lemma runs_last_progress {St : Type}
    (chat : St -> string -> string -> reply * St) (api_key : string)
    (total_sections : nat) (todo : list (nat * (string * list string)))
    (s : St) (plan : dict string) (tr : list event) :
  plan_of_runs chat api_key total_sections todo s plan tr ->
  forall front i section_name criteria,
    todo = (front ++ [(i, (section_name, criteria))])%list ->
    exists before after,
      tr = (before ++ Progress (i + 1) total_sections :: after)%list /\
      progress_shown after = [] /\
      hd_error (prompts after) = Some (initial_prompt section_name criteria) /\
      1 <= llm_calls after <= 4 /\
      List.length front <= llm_calls before.
Proof.
  induction 1 as [s|j name phrases todo s plan tr Hruns IH];
    intros front i section_name criteria Htodo.
  - destruct front; discriminate.
  - pose proof (draft_calls St chat api_key name phrases total_sections j s)
      as Hcalls.
    destruct front as [|y front]; cbn [app] in Htodo.
    + injection Htodo as Hj Hname Hphrases Htodo. subst.
      inversion Hruns; subst.
      destruct (draft_starts_with_progress chat api_key total_sections i
                  section_name criteria s) as [rest [Hout [Hp [Hhd Hn]]]].
      rewrite <- Hn in Hcalls. rewrite Hout.
      exists [StatusText ("Generating " ++ section_name ++ "...")], rest.
      rewrite app_nil_r. repeat split; try assumption; try apply Hcalls.
      cbn. lia.
    + injection Htodo as Hy Htodo. subst.
      destruct (IH front i section_name criteria eq_refl)
        as [before [after [-> [Hp [Hhd [Hafter Hbefore]]]]]].
      exists (output (draft_section chat api_key total_sections j name
                        phrases s) ++ before)%list, after.
      rewrite <- app_assoc. repeat split; try assumption; try apply Hafter.
      rewrite llm_calls_app. cbn [List.length].
      revert Hcalls Hbefore.
      generalize (llm_calls (output (draft_section chat api_key
                                       total_sections j name phrases s))).
      generalize (llm_calls before). lia.
Qed.

(** X11.  The progress bar is set once per section, to 1/8, 2/8, ... and
    8/8 in this order.  It is set at the start of the section's run, after
    the status "Generating {section}..." and before any call of that run.
    So it is full when the last section starts: at 8/8 the seven sections
    before have made their calls, and the calls of "Financial Projections",
    from its initial prompt on, are all still to come. *)
Theorem progress_counts_the_sections {St : Type}
    (chat : St -> string -> string -> reply * St) (api_key : string) (s : St) :
  progress_shown (output (generate_business_plan chat api_key s))
  = [(1, 8); (2, 8); (3, 8); (4, 8); (5, 8); (6, 8); (7, 8); (8, 8)] /\
  (forall total_sections i section_name criteria s',
     exists rest,
       output (draft_section chat api_key total_sections i section_name
                 criteria s')
       = StatusText ("Generating " ++ section_name ++ "...")
           :: Progress (i + 1) total_sections :: rest /\
       progress_shown rest = [] /\
       hd_error (prompts rest) = Some (initial_prompt section_name criteria) /\
       llm_calls rest
       = llm_calls (output (draft_section chat api_key total_sections i
                              section_name criteria s'))) /\
  (exists before after,
     output (generate_business_plan chat api_key s)
     = (before ++ Progress 8 8 :: after)%list /\
     progress_shown after = [] /\
     hd_error (prompts after)
     = Some (initial_prompt "Financial Projections"
               ["income statements"; "cash flow statements";
                "balance sheets"]) /\
     1 <= llm_calls after <= 4 /\
     7 <= llm_calls before).
Proof.
  destruct (generate_business_plan_spec chat api_key s) as [plan [_ Hruns]].
  split; [now rewrite (runs_progress _ _ _ _ _ _ _ _ Hruns)|].
  split; [intros; apply draft_starts_with_progress|].
  exact (runs_last_progress chat api_key _ _ _ _ _ Hruns
           (firstn 7 (enumerate_from 0 (items sections))) 7
           "Financial Projections"
           ["income statements"; "cash flow statements"; "balance sheets"]
           eq_refl).
Qed.

(** X12.  During [generate_business_plan] every exception of the service is
    shown once: the messages shown through [st.error] are, in order,
    "Error calling OpenAI API: {e}" for each exception [e] raised, and
    nothing else. *)
Theorem every_failure_is_shown_once {St : Type}
    (chat : St -> string -> string -> reply * St) (api_key : string) (s : St) :
  errors_shown (output (generate_business_plan chat api_key s))
  = map (fun msg => "Error calling OpenAI API: " ++ msg)
        (raised (output (generate_business_plan chat api_key s))).
Proof.
  destruct (generate_business_plan_spec chat api_key s) as [plan [_ Hruns]].
  apply (runs_errors _ _ _ _ _ _ _ _ Hruns).
Qed.

Lemma dict_get_absent {V : Type} (k : string) (d : dict V) :
  ~ In k (keys d) -> dict_get k d = None.
Proof.
  induction d as [|[k' v'] d IH]; [reflexivity|]. cbn. intros Hk.
  destruct (String.eqb_spec k k') as [->|Hne]; [tauto|].
  apply IH. tauto.
Qed.

(** X14.  Looking up the returned plan: each of the eight section names has
    a text, and any other key has none. *)
Theorem plan_lookup {St : Type}
    (chat : St -> string -> string -> reply * St) (api_key : string) (s : St) :
  exists plan,
    result (generate_business_plan chat api_key s) = inr plan /\
    List.length plan = 8 /\
    (forall name, In name (keys sections) ->
       exists text, dict_get name plan = Some text /\ In (name, text) plan) /\
    (forall name, ~ In name (keys sections) -> dict_get name plan = None).
Proof.
  destruct (generate_business_plan_spec chat api_key s) as [plan [Hres Hruns]].
  pose proof (keys_plan_of_runs _ _ _ _ _ _ _ _ Hruns) as Hkeys.
  assert (Hnd : NoDup (keys plan)).
  { rewrite Hkeys. cbn. repeat constructor; cbn; intuition discriminate. }
  exists plan. split; [exact Hres|]. split; [|split].
  - rewrite <- (length_map fst). fold (keys plan). now rewrite Hkeys.
  - intros name Hname.
    assert (Hin : In name (keys plan)) by (rewrite Hkeys; exact Hname).
    apply in_map_iff in Hin as [[k text] [E Hin]]. cbn in E. subst k.
    exists text. split; [|exact Hin]. now apply dict_get_in.
  - intros name Hname. apply dict_get_absent. rewrite Hkeys. exact Hname.
Qed.

(** ** [main] *)

Lemma core_events_app (a b : list app_event) :
  core_events (a ++ b) = (core_events a ++ core_events b)%list.
Proof. induction a as [|[] a IH]; simpl; congruence. Qed.

Lemma expanders_app (a b : list app_event) :
  expanders (a ++ b) = (expanders a ++ expanders b)%list.
Proof. induction a as [|[] a IH]; simpl; congruence. Qed.

Lemma downloads_app (a b : list app_event) :
  downloads (a ++ b) = (downloads a ++ downloads b)%list.
Proof. induction a as [|[] a IH]; simpl; congruence. Qed.

Lemma readings_of_core (tr : list event) :
  core_events (map Core tr) = tr /\
  expanders (map Core tr) = [] /\
  downloads (map Core tr) = [].
Proof.
  induction tr as [|ev tr [IH1 [IH2 IH3]]]; [repeat split|].
  cbn. now rewrite IH1, IH2, IH3.
Qed.

Lemma readings_of_expanders (d : dict string) :
  core_events (map (fun kv => StExpander (fst kv) (snd kv)) d) = [] /\
  expanders (map (fun kv => StExpander (fst kv) (snd kv)) d) = d /\
  downloads (map (fun kv => StExpander (fst kv) (snd kv)) d) = [].
Proof.
  induction d as [|[k v] d [IH1 [IH2 IH3]]]; [repeat split|].
  cbn [map core_events expanders downloads fst snd].
  now rewrite IH2.
Qed.

Lemma readings_of_show_plan (business_plan : dict string) :
  core_events (show_plan business_plan) = [] /\
  expanders (show_plan business_plan) = items business_plan /\
  downloads (show_plan business_plan) = [str_dict business_plan].
Proof.
  unfold show_plan, items. cbn [core_events expanders downloads].
  rewrite core_events_app, expanders_app, downloads_app.
  destruct (readings_of_expanders business_plan) as [-> [-> ->]].
  cbn [core_events expanders downloads app]. now rewrite app_nil_r.
Qed.

Section AppFacts.

Variable St : Type.
Variable chat : St -> string -> string -> reply * St.

Lemma main_generates (api_key : string) (s : St) :
  api_key <> "" ->
  exists plan,
    result (generate_business_plan chat api_key s) = inr plan /\
    main chat api_key true s
    = ([StTitle "AI-Powered Business Plan Generator (using GPT-4o-mini)";
        StWrite app_intro;
        StTextInput "Enter your OpenAI API key" "password";
        StButton "Generate Business Plan"; StProgress 0; StEmpty]
         ++ map Core (output (generate_business_plan chat api_key s))
         ++ show_plan plan ++ [StWrite app_disclaimer],
       state (generate_business_plan chat api_key s))%list.
Proof.
  intros Hkey.
  destruct (generate_business_plan_spec chat api_key s) as [plan [Hres _]].
  exists plan. split; [exact Hres|].
  unfold main. destruct (String.eqb_spec api_key "") as [E|_]; [congruence|].
  cbn [negb]. rewrite Hres. cbn [app]. now rewrite <- app_assoc.
Qed.

Lemma main_idle (api_key : string) (clicked : bool) (s : St) :
  api_key = "" \/ clicked = false ->
  core_events (fst (main chat api_key clicked s)) = [] /\
  snd (main chat api_key clicked s) = s.
Proof.
  unfold main. intros [-> | ->].
  - split; reflexivity.
  - destruct (negb (String.eqb api_key "")); split; reflexivity.
Qed.

End AppFacts.

(** X15.  [main] calls the service only on request: without an API key, or
    when the button is not pressed, nothing reaches the service and no
    status or error is shown; with a key and the button pressed, what
    happens is the run of [generate_business_plan] with that key, of 8 to
    32 calls. *)
Theorem main_generates_only_on_request {St : Type}
    (chat : St -> string -> string -> reply * St) (api_key : string)
    (clicked : bool) (s : St) :
  (api_key = "" \/ clicked = false ->
   core_events (fst (main chat api_key clicked s)) = [] /\
   snd (main chat api_key clicked s) = s) /\
  (api_key <> "" -> clicked = true ->
   core_events (fst (main chat api_key clicked s))
   = output (generate_business_plan chat api_key s) /\
   snd (main chat api_key clicked s)
   = state (generate_business_plan chat api_key s) /\
   8 <= llm_calls (core_events (fst (main chat api_key clicked s))) <= 32).
Proof.
  split; [apply main_idle|].
  intros Hkey ->.
  destruct (main_generates St chat api_key s Hkey) as [plan [Hres ->]].
  cbn [fst snd]. rewrite !core_events_app.
  rewrite (proj1 (readings_of_core _)), (proj1 (readings_of_show_plan _)).
  cbn [core_events app]. rewrite app_nil_r.
  split; [reflexivity|]. split; [reflexivity|].
  destruct (generate_business_plan_spec chat api_key s) as [plan' [_ Hruns]].
  apply (runs_calls _ _ _ _ _ _ _ _ Hruns).
Qed.

Lemma main_generates_only_on_request_witness :
  (core_events (fst (main failing "" true tt)) = [] /\
   snd (main failing "" true tt) = tt) /\
  llm_calls (core_events (fst (main failing "sk-test" true tt))) = 32.
Proof.
  split.
  - apply (proj1 (main_generates_only_on_request failing "" true tt)).
    now left.
  - destruct (proj2 (main_generates_only_on_request failing "sk-test" true tt))
      as [Hcore _]; [discriminate | reflexivity |].
    rewrite Hcore. reflexivity.
Defined.

(** X16.  With an API key and the button pressed, [main] always reaches
    the success message: whatever the service does, the page shows one
    expander per section, labelled with the eight section names in order
    and holding the plan's texts, then one download button whose data is
    [str(business_plan)]; the only error messages on the page are those of
    failed service calls, never "An error occurred". *)
Theorem main_shows_the_plan {St : Type}
    (chat : St -> string -> string -> reply * St) (api_key : string) (s : St) :
  api_key <> "" ->
  exists plan,
    result (generate_business_plan chat api_key s) = inr plan /\
    In (StSuccess "Business Plan Generated Successfully!")
       (fst (main chat api_key true s)) /\
    expanders (fst (main chat api_key true s)) = items plan /\
    map fst (expanders (fst (main chat api_key true s)))
    = ["Executive Summary"; "Company Description"; "Market Analysis";
       "Organization & Management"; "Product Line"; "Marketing & Sales";
       "Funding Request"; "Financial Projections"] /\
    downloads (fst (main chat api_key true s)) = [str_dict plan] /\
    errors_shown (core_events (fst (main chat api_key true s)))
    = map (fun msg => "Error calling OpenAI API: " ++ msg)
          (raised (core_events (fst (main chat api_key true s)))).
Proof.
  intros Hkey.
  destruct (main_generates St chat api_key s Hkey) as [plan [Hres Hmain]].
  destruct (generate_business_plan_spec chat api_key s)
    as [plan' [Hres' Hruns]].
  assert (plan' = plan) as -> by congruence.
  exists plan. split; [exact Hres|]. rewrite Hmain. cbn [fst].
  split.
  { apply in_or_app. right. apply in_or_app. right.
    apply in_or_app. left. now left. }
  rewrite !core_events_app, !expanders_app, !downloads_app.
  destruct (readings_of_core (output (generate_business_plan chat api_key s)))
    as [-> [-> ->]].
  destruct (readings_of_show_plan plan) as [-> [-> ->]].
  cbn [core_events expanders downloads app]. rewrite !app_nil_r.
  repeat apply conj.
  - reflexivity.
  - apply (keys_plan_of_runs _ _ _ _ _ _ _ _ Hruns).
  - reflexivity.
  - apply (runs_errors _ _ _ _ _ _ _ _ Hruns).
Qed.

Lemma main_shows_the_plan_witness :
  expanders (fst (main failing "sk-test" true tt))
  = [("Executive Summary", ""); ("Company Description", "");
     ("Market Analysis", ""); ("Organization & Management", "");
     ("Product Line", ""); ("Marketing & Sales", "");
     ("Funding Request", ""); ("Financial Projections", "")] /\
  downloads (fst (main failing "sk-test" true tt))
  = ["{'Executive Summary': '', 'Company Description': '', 'Market Analysis': '', 'Organization & Management': '', 'Product Line': '', 'Marketing & Sales': '', 'Funding Request': '', 'Financial Projections': ''}"].
Proof.
  destruct (main_shows_the_plan failing "sk-test" tt)
    as [plan [Hres [_ [Hexp [_ [Hdown _]]]]]]; [discriminate|].
  assert (E : plan = [("Executive Summary", ""); ("Company Description", "");
                      ("Market Analysis", "");
                      ("Organization & Management", "");
                      ("Product Line", ""); ("Marketing & Sales", "");
                      ("Funding Request", ""); ("Financial Projections", "")]).
  { assert (H : forall A B (x y : B), @inr A B x = inr y -> y = x)
      by (intros A B x y [=]; congruence).
    apply (H _ _ _ _ Hres). }
  rewrite Hexp, Hdown, E. split; reflexivity.
Defined.

(** ** A service whose first answers pass *)

Lemma runs_first_valid {St : Type}
    (chat : St -> string -> string -> reply * St) (api_key : string)
    (total_sections : nat) (todo : list (nat * (string * list string)))
    (s : St) (plan : dict string) (tr : list event) :
  plan_of_runs chat api_key total_sections todo s plan tr ->
  (forall s' x, In x todo ->
     is_valid (validate_section
                 (text_of_reply
                    (fst (chat s' api_key
                            (initial_prompt (fst (snd x)) (snd (snd x))))))
                 (snd (snd x))) = true) ->
  llm_calls tr = List.length todo /\
  Forall2 (fun sec kv =>
             fst kv = fst sec /\
             is_valid (validate_section (snd kv) (snd sec)) = true)
          (map snd todo) plan.
Proof.
  induction 1 as [s|i section_name criteria todo s plan tr Hruns IH];
    intros Hfirst.
  - split; [reflexivity | constructor].
  - destruct IH as [Hcalls Hplan].
    { intros s' x Hx. apply Hfirst. now right. }
    pose proof (Hfirst s (i, (section_name, criteria)) (or_introl eq_refl))
      as Hvalid. cbn [fst snd] in Hvalid.
    destruct (draft_first_valid St chat api_key section_name criteria
                total_sections i s Hvalid) as [Hone Hres].
    rewrite draft_result in Hres.
    replace (last (generated
                     (output (draft_section chat api_key total_sections i
                                section_name criteria s))) "")
      with (text_of_reply
              (fst (chat s api_key (initial_prompt section_name criteria))))
      by congruence.
    split.
    + rewrite llm_calls_app, Hone, Hcalls. reflexivity.
    + constructor; [|exact Hplan]. cbn [fst snd map]. now split.
Qed.

Lemma map_snd_enumerate_from {X : Type} (i : nat) (xs : list X) :
  map snd (enumerate_from i xs) = xs.
Proof.
  revert i. induction xs as [|x xs IH]; intros i; [reflexivity|].
  cbn [enumerate_from map snd]. now rewrite IH.
Qed.

(** X13.  When the service answers the initial prompt of every section with
    a text that passes that section's validation, [generate_business_plan]
    makes exactly 8 calls, one per section, and each text of the plan passes
    the validation against the criteria of its section. *)
Theorem valid_first_answers_need_eight_calls {St : Type}
    (chat : St -> string -> string -> reply * St) (api_key : string) (s : St) :
  (forall s' section_name criteria,
     In (section_name, criteria) (items sections) ->
     is_valid (validate_section
                 (text_of_reply
                    (fst (chat s' api_key
                            (initial_prompt section_name criteria))))
                 criteria) = true) ->
  llm_calls (output (generate_business_plan chat api_key s)) = 8 /\
  exists plan,
    result (generate_business_plan chat api_key s) = inr plan /\
    Forall2 (fun sec kv =>
               fst kv = fst sec /\
               is_valid (validate_section (snd kv) (snd sec)) = true)
            (items sections) (items plan).
Proof.
  intros Hfirst.
  destruct (generate_business_plan_spec chat api_key s) as [plan [Hres Hruns]].
  destruct (runs_first_valid _ _ _ _ _ _ _ Hruns) as [Hcalls Hplan].
  - intros s' [i [section_name criteria]] Hx. cbn [fst snd].
    apply Hfirst. rewrite <- (map_snd_enumerate_from 0 (items sections)).
    now apply (in_map snd) in Hx.
  - split; [exact Hcalls|]. exists plan. split; [exact Hres|].
    now rewrite map_snd_enumerate_from in Hplan.
Qed.

Lemma valid_first_answers_need_eight_calls_witness :
  llm_calls
    (output (generate_business_plan
               (constant (join ", " (List.concat (values sections))))
               "sk-test" tt)) = 8.
Proof.
  apply (valid_first_answers_need_eight_calls
           (constant (join ", " (List.concat (values sections)))) "sk-test" tt).
  intros s' section_name criteria Hin. unfold items, sections in Hin.
  repeat (destruct Hin as [[= <- <-]|Hin]; [vm_compute; reflexivity|]).
  destruct Hin.
Defined.
